(** * Multi-source ingestion pipeline: validate, stage, transform, upsert

    A shallow embedding of the weather pipeline of the repository
    (validators, staging loaders, transformer, orchestrator) together with
    the properties its specification states about it.

    Python dictionaries are finite maps from field names to dynamically
    typed values; exceptions are explicit results; the database connection
    and the wall clock are threaded through as an explicit world. *)

From Stdlib Require Import QArith Qcanon Qround Ascii String Sorted.
From stdpp Require Import gmap strings list numbers pretty.

Local Open Scope Z_scope.

(** ** The Python layer: values, exceptions, dictionaries *)

Module Python.

(** The values a record field can hold.  Numbers (Python [int], finite
    [float], [Decimal]) are exact rationals compared by value; [VTime] is a
    [datetime]; [VJson] is a nested JSON document (the raw API payload),
    kept as an opaque text. *)
Inductive value :=
| VNone
| VStr (s : string)
| VNum (q : Qc)
| VTime (t : nat)
| VJson (j : string).

#[global] Instance value_eq_dec : EqDecision value.
Proof. solve_decision. Defined.

Abbreviation pydict := (gmap string value).

Definition int (z : Z) : Qc := Q2Qc (inject_Z z).

Inductive exn :=
| KeyError (key : string)
| TypeError (op : string) (operand : value)
| AttributeError (obj : value) (attr : string)
| DatabaseError (msg : string)
| OtherError (msg : string).

Inductive result (A : Type) :=
| Ok (a : A)
| Raise (e : exn).
Arguments Ok {A} a.
Arguments Raise {A} e.

#[global] Instance result_ret : MRet result := fun _ a => Ok a.
#[global] Instance result_bind : MBind result := fun _ _ f m =>
  match m with
  | Ok a => f a
  | Raise e => Raise e
  end.

#[global] Instance result_fmap : FMap result := fun _ _ f m =>
  match m with
  | Ok a => Ok (f a)
  | Raise e => Raise e
  end.

Definition raises {A} (m : result A) : Prop := exists e, m = Raise e.

(** [d[k]]: a missing key raises [KeyError]. *)
Definition getitem (d : pydict) (k : string) : result value :=
  match d !! k with
  | Some v => Ok v
  | None => Raise (KeyError k)
  end.

(** [d.get(k)]: a missing key yields [None]. *)
Definition get (d : pydict) (k : string) : value :=
  default VNone (d !! k).

(** [v is None] *)
Definition is_none (v : value) : bool :=
  match v with VNone => true | _ => false end.

(** A comparison of [v] against a numeric literal; anything but a number
    on the other side has no ordering with an [int] and raises. *)
Definition compare_num (op : string) (test : Qc -> bool) (v : value)
  : result bool :=
  match v with
  | VNum q => Ok (test q)
  | _ => Raise (TypeError op v)
  end.

Definition le_num (lo : Z) (v : value) : result bool :=
  compare_num "<=" (fun q => bool_decide (int lo <= q)%Qc) v.
Definition num_le (v : value) (hi : Z) : result bool :=
  compare_num "<=" (fun q => bool_decide (q <= int hi)%Qc) v.
Definition num_lt (v : value) (hi : Z) : result bool :=
  compare_num "<" (fun q => bool_decide (q < int hi)%Qc) v.
Definition num_gt (v : value) (lo : Z) : result bool :=
  compare_num ">" (fun q => bool_decide (int lo < q)%Qc) v.

(** [a and b], [a or b] on comparisons: the right operand is evaluated
    only when the left one does not decide. *)
Definition and_then (a b : result bool) : result bool :=
  x ← a; if x : bool then b else Ok false.
Definition or_else (a b : result bool) : result bool :=
  x ← a; if x : bool then Ok true else b.

(** The interpreter's built-ins the pipeline calls.  They are not code of
    this repository; the development is parametric in them. *)
Class Runtime := {
  py_format : value -> string;        (* f"{v}", str(v) *)
  py_upper : string -> string;        (* str.upper *)
  py_lower : string -> string;        (* str.lower *)
  py_round1 : Qc -> Qc;               (* round(x, 1) *)
  py_str_exn : exn -> string;         (* str(e) *)
  py_strip : string -> string;        (* str.strip *)
  py_float : value -> option Qc;      (* float(v); None: ValueError/TypeError *)
  py_int : value -> option Z;         (* int(v); None: ValueError/TypeError *)
  strptime_ymd : string -> bool;      (* datetime.strptime(s, "%Y-%m-%d") parses *)
  json_dumps : value -> result string;
  json_dumps_dict : pydict -> result string
}.

(** A [for] loop whose body may raise: the first exception leaves the
    loop. *)
Fixpoint for_each {A S : Type} (body : S -> A -> result S) (s : S)
    (l : list A) : result S :=
  match l with
  | [] => Ok s
  | x :: l => s' ← body s x; for_each body s' l
  end.

(** The dictionary both validators return from [validate_batch]; an entry
    of [invalid_records] is the pair [{record, errors}]. *)
Record invalid_entry (R : Type) := {
  record : R;
  errors : list string
}.
Arguments record {R} _.
Arguments errors {R} _.

Record summary (R : Type) := {
  total_records : nat;
  valid_count : nat;
  invalid_count : nat;
  valid_records : list R;
  invalid_records : list (invalid_entry R)
}.
Arguments total_records {R} _.
Arguments valid_count {R} _.
Arguments invalid_count {R} _.
Arguments valid_records {R} _.
Arguments invalid_records {R} _.

End Python.

Import Python.

(** ** validators/data_validator.py *)

Module WeatherDataValidator.
Section Validator.
Context `{Runtime}.

Definition required_fields : list string :=
  ["city"; "country"; "temperature"; "humidity"; "pressure"; "wind_speed"].

(** [field not in record or record[field] is None] *)
Definition missing (record : pydict) (field : string) : bool :=
  match record !! field with
  | None => true
  | Some v => is_none v
  end.

Definition missing_msg (field : string) : string :=
  "Missing or null field: " +:+ field.
Definition temperature_msg (v : value) : string :=
  "Temperature out of range: " +:+ py_format v +:+ ", expected -50 to 60)".
Definition humidity_msg (v : value) : string :=
  "Humidity out of range: " +:+ py_format v +:+ "%, expected 0 to 100".
Definition wind_speed_msg (v : value) : string :=
  "Negative wind speed: " +:+ py_format v.
Definition pressure_msg (v : value) : string :=
  "Pressure out of range: " +:+ py_format v +:+ " hPa, expected 900 to 1100".

(** One range check: [v = record.get(field)]; when [v is not None] and
    the rule is violated, one message is appended. *)
Definition range_check (record : pydict) (field : string)
    (violated : value -> result bool) (msg : value -> string)
    (errors : list string) : result (list string) :=
  let v := get record field in
  if is_none v then Ok errors
  else b ← violated v; Ok (if b : bool then errors ++ [msg v] else errors).

Definition validate_record (record : pydict) : result (bool * list string) :=
  let errors :=
    foldl (fun errors field =>
             if missing record field then errors ++ [missing_msg field]
             else errors)
          [] required_fields in
  if negb (bool_decide (errors = [])) then Ok (false, errors)
  else
    errors ← range_check record "temperature"
      (fun t => negb <$> and_then (le_num (-50) t) (num_le t 60))
      temperature_msg errors;
    errors ← range_check record "humidity"
      (fun h => negb <$> and_then (le_num 0 h) (num_le h 100))
      humidity_msg errors;
    errors ← range_check record "wind_speed"
      (fun w => num_lt w 0)
      wind_speed_msg errors;
    errors ← range_check record "pressure"
      (fun p => or_else (num_lt p 900) (num_gt p 1100))
      pressure_msg errors;
    let is_valid := bool_decide (length errors = 0%nat) in
    Ok (is_valid, errors).

(** The loop body of [validate_batch].  The debug line of the valid branch
    formats [record['city']], which is evaluated whatever the log level. *)
Definition validate_batch_step (acc : list pydict * list (invalid_entry pydict))
    (record : pydict) : result (list pydict * list (invalid_entry pydict)) :=
  let '(valid_records, invalid_records) := acc in
  '(is_valid, errors) ← validate_record record;
  if is_valid : bool then
    _ ← getitem record "city";
    Ok (valid_records ++ [record], invalid_records)
  else
    Ok (valid_records,
        invalid_records ++ [{| record := record; errors := errors |}]).

Definition validate_batch (records : list pydict) : result (summary pydict) :=
  '(valid_records, invalid_records) ←
    for_each validate_batch_step ([], []) records;
  Ok {| total_records := length records;
        valid_count := length valid_records;
        invalid_count := length invalid_records;
        valid_records := valid_records;
        invalid_records := invalid_records |}.

End Validator.
End WeatherDataValidator.

(** ** validators/csv_validator.py *)

Module CSVDataValidator.
Section Validator.
Context `{Runtime}.

(** A record of the CSV extractor: [{source_file, row_number, data}], where
    [data] is the row as a dictionary; [csv_data] is [None] when the key
    ["data"] is absent. *)
Record csv_record := {
  source_file : value;
  row_number : value;
  csv_data : option pydict
}.

Definition required_fields : list string :=
  ["date"; "product"; "category"; "amount"; "quantity"; "region"].

(** [field not in data or data[field] is None or data[field] is the empty string] *)
Definition missing (data : pydict) (field : string) : bool :=
  match data !! field with
  | None => true
  | Some v => is_none v || bool_decide (v = VStr EmptyString)
  end.

Definition missing_msg (field : string) : string :=
  "Missing required field: " +:+ field.

Definition validate_record (record : csv_record)
  : result (bool * list string) :=
  let errors : list string := [] in
  let data := default ∅ (csv_data record) in
  let errors :=
    foldl (fun errors field =>
             if missing data field then errors ++ [missing_msg field]
             else errors)
          errors required_fields in
  if negb (bool_decide (errors = [])) then Ok (false, errors)
  else
    date ← getitem data "date";
    let errors :=
      if strptime_ymd (py_format date) then errors
      else errors ++ ["Invalid date format: " +:+ py_format date
                        +:+ " (expected YYYY-MM-DD)"] in
    amount ← getitem data "amount";
    let errors :=
      match py_float amount with
      | Some a =>
          if bool_decide (a <= int 0)%Qc
          then errors ++ ["Amount must be positive: " +:+ py_format (VNum a)]
          else errors
      | None => errors ++ ["Amount must be a number: " +:+ py_format amount]
      end in
    quantity ← getitem data "quantity";
    let errors :=
      match py_int quantity with
      | Some q =>
          if bool_decide (q <= 0)
          then errors ++ ["Quantity must be positive: "
                            +:+ py_format (VNum (int q))]
          else errors
      | None =>
          errors ++ ["Quantity must be a number: " +:+ py_format quantity]
      end in
    let errors :=
      if bool_decide (py_strip (py_format (default (VStr EmptyString) (data !! "category")))
                      = EmptyString)
      then errors ++ ["Category cannot be empty"]
      else errors in
    let is_valid := bool_decide (length errors = 0%nat) in
    Ok (is_valid, errors).

Definition validate_batch_step
    (acc : list csv_record * list (invalid_entry csv_record))
    (record : csv_record)
  : result (list csv_record * list (invalid_entry csv_record)) :=
  let '(valid_records, invalid_records) := acc in
  '(is_valid, errors) ← validate_record record;
  if is_valid : bool then
    Ok (valid_records ++ [record], invalid_records)
  else
    Ok (valid_records,
        invalid_records ++ [{| record := record; errors := errors |}]).

Definition validate_batch (records : list csv_record)
  : result (summary csv_record) :=
  '(valid_records, invalid_records) ←
    for_each validate_batch_step ([], []) records;
  Ok {| total_records := length records;
        valid_count := length valid_records;
        invalid_count := length invalid_records;
        valid_records := valid_records;
        invalid_records := invalid_records |}.

End Validator.
End CSVDataValidator.

(** ** utils/db_connection.py and the tables behind it *)

Module Db.

(** A row of [pipeline_runs]; columns never written yet are [None]. *)
Record run_row := {
  pipeline_name : string;
  source_type : string;
  status : string;
  start_time : nat;
  end_time : option nat;
  records_extracted : option nat;
  records_loaded : option nat;
  error_message : option string
}.

Record error_row := {
  err_run_id : nat;
  err_source_type : string;
  err_error_type : string;
  err_error_message : string;
  err_raw_data : string;
  err_created_at : nat
}.

(** The ten columns an INSERT into [stg_weather_data] supplies. *)
Record staging_values := {
  s_city : value;
  s_country : value;
  s_temperature : value;
  s_feels_like : value;
  s_humidity : value;
  s_pressure : value;
  s_weather_condition : value;
  s_wind_speed : value;
  s_raw_data : string;
  s_load_id : nat
}.

(** Modelled from the spec: the DDL of [stg_weather_data] is not in the
    sources.  A staged row is the inserted record plus an auto-assigned
    surrogate id and a generated staging timestamp. *)
Record staging_row := {
  stg_id : nat;
  stg_values : staging_values;
  extracted_at : nat
}.

(** A row of [weather_metrics]: the ten columns of the upsert. *)
Record metric_row := {
  m_city : value;
  m_country : value;
  m_temperature : value;
  m_feels_like : value;
  m_humidity : value;
  m_pressure : value;
  m_weather_condition : value;
  m_wind_speed : value;
  m_recorded_at : value;
  m_loaded_at : value
}.

Definition metric_key (r : metric_row) : value * value * value :=
  (m_city r, m_country r, m_recorded_at r).

Record database := {
  pipeline_runs : gmap nat run_row;
  error_log : list error_row;
  stg_weather_data : list staging_row;
  weather_metrics : list metric_row
}.

(** The connection together with the wall clock. *)
Record world := {
  db : database;
  clock : nat
}.

(** The statements the pipeline sends, by their SQL text, with their
    parameters. *)
Inductive statement :=
| InsertPipelineRun (name source status : string) (start : nat)
    (* INSERT INTO pipeline_runs ... RETURNING run_id *)
| UpdatePipelineRun (status : string) (end_ : nat)
    (extracted loaded : nat) (message : option string) (run_id : nat)
    (* UPDATE pipeline_runs SET ... WHERE run_id = %s *)
| InsertErrorLog (row : error_row)
    (* INSERT INTO error_log ... *)
| InsertStaging (row : staging_values)
    (* INSERT INTO stg_weather_data ... *)
| SelectStaging (load_id : nat)
    (* SELECT ... FROM stg_weather_data WHERE load_id = %s ORDER BY extracted_at *)
| UpsertMetric (row : metric_row)
    (* INSERT INTO weather_metrics ... ON CONFLICT (city, country, recorded_at) DO UPDATE SET ... *)
| Malformed (sql : string).
    (* a text the engine cannot parse *)

Inductive query_result :=
| Returning (run_id : nat)
| Rows (rows : list pydict)
| RowCount (n : nat).

(** The storage engine and the extraction source are collaborators.  What
    the engine refuses (a constraint, a lost connection) is a parameter:
    [rejects stmt d] is the error it raises for [stmt] on the tables [d],
    [None] when it executes it. *)
Class Engine := {
  rejects : statement -> database -> option string;
  connect_error : option string
}.

(** [UPDATE pipeline_runs SET status, end_time, records_extracted,
    records_loaded, error_message WHERE run_id]. *)
Definition set_run (status : string) (end_ : nat) (extracted loaded : nat)
    (message : option string) (r : run_row) : run_row :=
  {| pipeline_name := pipeline_name r;
     source_type := source_type r;
     status := status;
     start_time := start_time r;
     end_time := Some end_;
     records_extracted := Some extracted;
     records_loaded := Some loaded;
     error_message := message |}.

(** [DO UPDATE SET]: the seven non-key columns take the proposed row's
    values; the key columns stay. *)
Definition do_update (old excluded : metric_row) : metric_row :=
  {| m_city := m_city old;
     m_country := m_country old;
     m_temperature := m_temperature excluded;
     m_feels_like := m_feels_like excluded;
     m_humidity := m_humidity excluded;
     m_pressure := m_pressure excluded;
     m_weather_condition := m_weather_condition excluded;
     m_wind_speed := m_wind_speed excluded;
     m_recorded_at := m_recorded_at old;
     m_loaded_at := m_loaded_at excluded |}.

Definition conflicts (new old : metric_row) : bool :=
  bool_decide (metric_key old = metric_key new).

(** Modelled from the spec: the DDL of [weather_metrics] is not in the
    sources; the conflict target of the statement is the composite unique
    key (city, country, recorded_at), two rows conflicting when they agree
    on the three columns.  A conflicting row is updated in place, otherwise
    the proposed row is appended. *)
Fixpoint upsert (new : metric_row) (table : list metric_row)
  : list metric_row :=
  match table with
  | [] => [new]
  | old :: table =>
      if conflicts new old then do_update old new :: table
      else old :: upsert new table
  end.

(** Rows in ascending [extracted_at]; rows with equal timestamps keep
    their insertion order. *)
Fixpoint insert_by_time (r : staging_row) (sorted : list staging_row)
  : list staging_row :=
  match sorted with
  | [] => [r]
  | r' :: sorted' =>
      if bool_decide (extracted_at r' <= extracted_at r)%nat
      then r' :: insert_by_time r sorted'
      else r :: sorted
  end.

Definition order_by_extracted_at (rows : list staging_row)
  : list staging_row :=
  foldl (fun sorted r => insert_by_time r sorted) [] rows.

(** The dictionary the cursor returns for a staged row, with the eleven
    selected columns as keys. *)
Definition row_dict (r : staging_row) : pydict :=
  let v := stg_values r in
  list_to_map
    [("id", VNum (int (Z.of_nat (stg_id r))));
     ("city", s_city v);
     ("country", s_country v);
     ("temperature", s_temperature v);
     ("feels_like", s_feels_like v);
     ("humidity", s_humidity v);
     ("pressure", s_pressure v);
     ("weather_condition", s_weather_condition v);
     ("wind_speed", s_wind_speed v);
     ("extracted_at", VTime (extracted_at r));
     ("load_id", VNum (int (Z.of_nat (s_load_id v))))].

Definition select_staging (load_id : nat) (d : database) : list pydict :=
  row_dict <$>
    order_by_extracted_at
      (filter (fun r => s_load_id (stg_values r) = load_id)
              (stg_weather_data d)).

(** What an accepted statement does to the tables, and what the cursor
    holds afterwards.  [now] is the engine's clock, read by the staging
    table's generated timestamp. *)
Definition run_statement (stmt : statement) (now : nat) (d : database)
  : query_result * database :=
  match stmt with
  | InsertPipelineRun name source status start =>
      let run_id := fresh (dom (pipeline_runs d)) in
      (Returning run_id,
       {| pipeline_runs :=
            <[run_id := {| pipeline_name := name; source_type := source;
                           status := status; start_time := start;
                           end_time := None; records_extracted := None;
                           records_loaded := None;
                           error_message := None |}]> (pipeline_runs d);
          error_log := error_log d;
          stg_weather_data := stg_weather_data d;
          weather_metrics := weather_metrics d |})
  | UpdatePipelineRun status end_ extracted loaded message run_id =>
      (RowCount (match pipeline_runs d !! run_id with Some _ => 1 | None => 0 end),
       {| pipeline_runs :=
            alter (set_run status end_ extracted loaded message) run_id
                  (pipeline_runs d);
          error_log := error_log d;
          stg_weather_data := stg_weather_data d;
          weather_metrics := weather_metrics d |})
  | InsertErrorLog row =>
      (RowCount 1,
       {| pipeline_runs := pipeline_runs d;
          error_log := error_log d ++ [row];
          stg_weather_data := stg_weather_data d;
          weather_metrics := weather_metrics d |})
  | InsertStaging row =>
      (RowCount 1,
       {| pipeline_runs := pipeline_runs d;
          error_log := error_log d;
          stg_weather_data :=
            stg_weather_data d
              ++ [{| stg_id := length (stg_weather_data d);
                     stg_values := row;
                     extracted_at := now |}];
          weather_metrics := weather_metrics d |})
  | SelectStaging load_id =>
      (Rows (select_staging load_id d), d)
  | UpsertMetric row =>
      (RowCount 1,
       {| pipeline_runs := pipeline_runs d;
          error_log := error_log d;
          stg_weather_data := stg_weather_data d;
          weather_metrics := upsert row (weather_metrics d) |})
  | Malformed _ => (RowCount 0, d)
  end.

(** Code that talks to the connection: it reads and changes the world and
    either returns or raises.  What was done before an exception stays
    done. *)
Definition M (A : Type) : Type := world -> result A * world.

#[global] Instance M_ret : MRet M := fun _ a w => (Ok a, w).
#[global] Instance M_bind : MBind M := fun _ _ f m w =>
  match m w with
  | (Ok a, w') => f a w'
  | (Raise e, w') => (Raise e, w')
  end.

Definition lift {A} (r : result A) : M A := fun w => (r, w).
Definition throw {A} (e : exn) : M A := fun w => (Raise e, w).

(** [try: body except Exception as e: handler] *)
Definition try_except {A} (body : M A) (handler : exn -> M A) : M A :=
  fun w =>
    match body w with
    | (Ok a, w') => (Ok a, w')
    | (Raise e, w') => handler e w'
    end.

(** [datetime.now()] *)
Definition datetime_now : M nat :=
  fun w => (Ok (clock w), {| db := db w; clock := S (clock w) |}).

Section Connection.
Context `{Engine}.

(** [DatabaseConnection.execute_query].  The statement is the unit of
    change: one the engine executes takes effect (the rows are fetched
    for a SELECT or RETURNING statement, the change is committed
    otherwise); one it refuses is rolled back, leaves the tables as they
    were, and the error is raised again.  Transactions spanning several
    statements are the engine's business and are not modelled. *)
Definition execute_query (stmt : statement) : M query_result :=
  fun w =>
    match stmt with
    | Malformed sql =>
        (Raise (DatabaseError ("syntax error in: " +:+ sql)), w)
    | _ =>
        match rejects stmt (db w) with
        | Some msg => (Raise (DatabaseError msg), w)
        | None =>
            let '(res, d) := run_statement stmt (clock w) (db w) in
            (Ok res, {| db := d; clock := S (clock w) |})
        end
    end.

End Connection.

End Db.

Import Db.

(** ** loaders/weather_loader.py *)

Module WeatherLoader.
Section Loader.
Context `{Runtime} `{Engine}.

(** The text of the loader's statement; its keyword is misspelt, so the
    engine cannot parse it. *)
Definition query : string :=
  "INSERT INTO stg_weather_data (city, country, temperature, feels_like, humidity, pressure, weather_condition, wind_speed, raw_data, load_id) VALUSES (%s, %s, %s,%s, %s, %s,%s, %s, %s, %s)".

(** The body of the [try]: the parameter tuple is built first, then the
    statement is sent. *)
Definition insert_record (record : pydict) (run_id : nat) : M unit :=
  _ ← lift (getitem record "city");
  _ ← lift (getitem record "country");
  _ ← lift (getitem record "temperature");
  _ ← lift (getitem record "feels_like");
  _ ← lift (getitem record "humidity");
  _ ← lift (getitem record "pressure");
  _ ← lift (getitem record "weather_condition");
  _ ← lift (getitem record "wind_speed");
  raw_data ← lift (getitem record "raw_data");
  _ ← lift (json_dumps raw_data);
  _ ← execute_query (Malformed query);
  mret ().

(** [WeatherLoader.load].  The [return] statement is indented into the
    body of the [for] loop: the function returns at the end of the first
    iteration, and falls off its end, returning [None], on an empty
    batch. *)
Definition load (data : list pydict) (run_id : nat) : M (option nat) :=
  let loaded_count := 0%nat in
  match data with
  | [] => mret None
  | record :: _ =>
      loaded_count ←
        try_except (_ ← insert_record record run_id;
                    mret (loaded_count + 1)%nat)
                   (fun e => mret loaded_count);
      mret (Some loaded_count)
  end.

End Loader.
End WeatherLoader.

(** ** transformers/weather_transformer.py *)

Module WeatherTransformer.
Section Transformer.
Context `{Runtime} `{Engine}.

(** [v.upper()], [v.lower()]: only a string has the method. *)
Definition upper (v : value) : result value :=
  match v with
  | VStr s => Ok (VStr (py_upper s))
  | _ => Raise (AttributeError v "upper")
  end.
Definition lower (v : value) : result value :=
  match v with
  | VStr s => Ok (VStr (py_lower s))
  | _ => Raise (AttributeError v "lower")
  end.

(** [round(v, 1)]: only a number can be rounded. *)
Definition round1 (v : value) : result value :=
  match v with
  | VNum q => Ok (VNum (py_round1 q))
  | _ => Raise (TypeError "round" v)
  end.

(** [transform_record]: the entries of the dictionary are evaluated in
    the order they are written; the clock is read last. *)
Definition transform_record (staging_record : pydict) : M pydict :=
  city ← lift (getitem staging_record "city" ≫= upper);
  country ← lift (getitem staging_record "country");
  temperature ← lift (getitem staging_record "temperature" ≫= round1);
  feels_like ← lift (getitem staging_record "feels_like" ≫= round1);
  humidity ← lift (getitem staging_record "humidity");
  pressure ← lift (getitem staging_record "pressure");
  weather_condition ←
    lift (getitem staging_record "weather_condition" ≫= lower);
  wind_speed ← lift (getitem staging_record "wind_speed" ≫= round1);
  recorded_at ← lift (getitem staging_record "extracted_at");
  loaded_at ← datetime_now;
  mret (list_to_map
          [("city", city);
           ("country", country);
           ("temperature", temperature);
           ("feels_like", feels_like);
           ("humidity", humidity);
           ("pressure", pressure);
           ("weather_condition", weather_condition);
           ("wind_speed", wind_speed);
           ("recorded_at", recorded_at);
           ("loaded_at", VTime loaded_at)] : pydict).

Definition get_staging_records (run_id : nat) : M (list pydict) :=
  res ← execute_query (SelectStaging run_id);
  mret (match res with Rows records => records | _ => [] end).

(** The parameter tuple of the upsert. *)
Definition metric_of (record : pydict) : result metric_row :=
  city ← getitem record "city";
  country ← getitem record "country";
  temperature ← getitem record "temperature";
  feels_like ← getitem record "feels_like";
  humidity ← getitem record "humidity";
  pressure ← getitem record "pressure";
  weather_condition ← getitem record "weather_condition";
  wind_speed ← getitem record "wind_speed";
  recorded_at ← getitem record "recorded_at";
  loaded_at ← getitem record "loaded_at";
  Ok {| m_city := city; m_country := country;
        m_temperature := temperature; m_feels_like := feels_like;
        m_humidity := humidity; m_pressure := pressure;
        m_weather_condition := weather_condition;
        m_wind_speed := wind_speed; m_recorded_at := recorded_at;
        m_loaded_at := loaded_at |}.

(** One iteration of [load_to_production]: the handler formats
    [record['city']] for its log line. *)
Definition load_one (loaded_count : nat) (record : pydict) : M nat :=
  try_except
    (row ← lift (metric_of record);
     _ ← execute_query (UpsertMetric row);
     mret (loaded_count + 1)%nat)
    (fun e => _ ← lift (getitem record "city"); mret loaded_count).

Fixpoint load_loop (loaded_count : nat) (production_records : list pydict)
  : M nat :=
  match production_records with
  | [] => mret loaded_count
  | record :: rest =>
      loaded_count ← load_one loaded_count record;
      load_loop loaded_count rest
  end.

Definition load_to_production (production_records : list pydict) : M nat :=
  load_loop 0%nat production_records.

(** The transform loop of [transform_and_load]: a record whose transform
    raises is logged and left out. *)
Fixpoint transform_loop (production_records : list pydict)
    (staging_records : list pydict) : M (list pydict) :=
  match staging_records with
  | [] => mret production_records
  | record :: rest =>
      production_records ←
        try_except
          (transformed ← transform_record record;
           mret (production_records ++ [transformed]))
          (fun e => mret production_records);
      transform_loop production_records rest
  end.

Definition transform_and_load (run_id : nat) : M (gmap string nat) :=
  staging_records ← get_staging_records run_id;
  if bool_decide (staging_records = []) then
    mret ({[ "transformed_count" := 0%nat; "loaded_count" := 0%nat ]}
            : gmap string nat)
  else
    production_records ← transform_loop [] staging_records;
    loaded_count ← load_to_production production_records;
    mret ({[ "records_transformed" := length production_records;
             "records_loaded" := loaded_count ]} : gmap string nat).

End Transformer.
End WeatherTransformer.

(** ** main.py *)

Module Main.
Section Orchestrator.
Context `{Runtime} `{Engine}.

Definition create_pipeline_run (source_type : string) : M nat :=
  start ← datetime_now;
  res ← execute_query
          (InsertPipelineRun "multi_source_ingestion" source_type
                             "running" start);
  mret (match res with Returning run_id => run_id | _ => 0%nat end).

Definition update_pipeline_run (run_id : nat) (status : string)
    (records_extracted records_loaded : nat)
    (error_message : option string) : M unit :=
  end_ ← datetime_now;
  _ ← execute_query
        (UpdatePipelineRun status end_ records_extracted records_loaded
                           error_message run_id);
  mret ().

(** [stats[key]] on the dictionary [transform_and_load] returns. *)
Definition stat (stats : gmap string nat) (key : string) : result nat :=
  match stats !! key with
  | Some n => Ok n
  | None => Raise (KeyError key)
  end.

(** ["; ".join(errors)] *)
Fixpoint join (sep : string) (l : list string) : string :=
  match l with
  | [] => EmptyString
  | [x] => x
  | x :: l => x +:+ sep +:+ join sep l
  end.

Definition log_one (run_id : nat) (logged_count : nat)
    (invalid : invalid_entry pydict) : M nat :=
  try_except
    (let record := record invalid in
     let errors := errors invalid in
     raw_data ← lift (json_dumps_dict record);
     created_at ← datetime_now;
     _ ← execute_query
           (InsertErrorLog
              {| err_run_id := run_id;
                 err_source_type := "weather_api";
                 err_error_type := "validation_error";
                 err_error_message := join "; " errors;
                 err_raw_data := raw_data;
                 err_created_at := created_at |});
     mret (logged_count + 1)%nat)
    (fun e => mret logged_count).

Fixpoint log_loop (run_id : nat) (logged_count : nat)
    (invalid_records : list (invalid_entry pydict)) : M nat :=
  match invalid_records with
  | [] => mret logged_count
  | invalid :: rest =>
      logged_count ← log_one run_id logged_count invalid;
      log_loop run_id logged_count rest
  end.

Definition log_validation_errors (run_id : nat)
    (invalid_records : list (invalid_entry pydict)) : M nat :=
  log_loop run_id 0%nat invalid_records.

(** The two counts are formatted for the log once the transformer is
    back. *)
Definition transform_to_production (run_id : nat) : M (gmap string nat) :=
  stats ← WeatherTransformer.transform_and_load run_id;
  _ ← lift (stat stats "records_transformed");
  _ ← lift (stat stats "records_loaded");
  mret stats.

Definition stage_one (run_id : nat) (loaded_count : nat) (record : pydict)
  : M nat :=
  try_except
    (city ← lift (getitem record "city");
     country ← lift (getitem record "country");
     temperature ← lift (getitem record "temperature");
     feels_like ← lift (getitem record "feels_like");
     humidity ← lift (getitem record "humidity");
     pressure ← lift (getitem record "pressure");
     weather_condition ← lift (getitem record "weather_condition");
     wind_speed ← lift (getitem record "wind_speed");
     raw_data ← lift (getitem record "raw_data" ≫= json_dumps);
     _ ← execute_query
           (InsertStaging
              {| s_city := city; s_country := country;
                 s_temperature := temperature; s_feels_like := feels_like;
                 s_humidity := humidity; s_pressure := pressure;
                 s_weather_condition := weather_condition;
                 s_wind_speed := wind_speed; s_raw_data := raw_data;
                 s_load_id := run_id |});
     mret (loaded_count + 1)%nat)
    (fun e => mret loaded_count).

Fixpoint stage_loop (run_id : nat) (loaded_count : nat)
    (data : list pydict) : M nat :=
  match data with
  | [] => mret loaded_count
  | record :: rest =>
      loaded_count ← stage_one run_id loaded_count record;
      stage_loop run_id loaded_count rest
  end.

Definition load_weather_data (data : list pydict) (run_id : nat) : M nat :=
  stage_loop run_id 0%nat data.

(** Steps 1 to 5 of [run_weather_extraction], the body of its inner
    [try].  [extraction] is what [WeatherAPIExtractor().run()] comes back
    with: the batch, or the exception it lets through. *)
Definition pipeline_steps (extraction : result (list pydict))
    (run_id : nat) : M unit :=
  data ← lift extraction;
  validation_results ← lift (WeatherDataValidator.validate_batch data);
  _ ← (if bool_decide (0 < invalid_count validation_results)%nat
       then log_validation_errors run_id
              (invalid_records validation_results)
       else mret 0%nat);
  loaded_count ←
    load_weather_data (valid_records validation_results) run_id;
  transform_stats ← transform_to_production run_id;
  let status :=
    if bool_decide (invalid_count validation_results = 0%nat)
    then "success" else "partial" in
  update_pipeline_run run_id status (length data) loaded_count None.

(** How the process leaves [run_weather_extraction]: by returning, or
    through [sys.exit]. *)
Inductive exit := Returned | SysExit (code : nat).

(** The [with] block: the run is created, the steps run, and an exception
    out of them marks the run failed and is raised again. *)
Definition run_scope (extraction : result (list pydict)) : M unit :=
  run_id ← create_pipeline_run "weather_api";
  try_except
    (pipeline_steps extraction run_id)
    (fun e =>
       _ ← update_pipeline_run run_id "failed" 0%nat 0%nat
             (Some (py_str_exn e));
       throw e).

Definition run_weather_extraction (extraction : result (list pydict))
  : world -> exit * world :=
  fun w =>
    match connect_error with
    | Some _ => (SysExit 1, w)
    | None =>
        match run_scope extraction w with
        | (Ok _, w') => (Returned, w')
        | (Raise _, w') => (SysExit 1, w')
        end
    end.

End Orchestrator.
End Main.

(** ** Fixtures: a small runtime and two engines to run the pipeline on *)

Module Fixture.

Definition map_string (f : ascii -> ascii) : string -> string :=
  fix go s :=
    match s with
    | EmptyString => EmptyString
    | String a s => String (f a) (go s)
    end.

Definition upper_char (a : ascii) : ascii :=
  let n := nat_of_ascii a in
  if (97 <=? n)%nat && (n <=? 122)%nat then ascii_of_nat (n - 32) else a.
Definition lower_char (a : ascii) : ascii :=
  let n := nat_of_ascii a in
  if (65 <=? n)%nat && (n <=? 90)%nat then ascii_of_nat (n + 32) else a.

(** Decimal rounding to tenths, ties to the even tenth. *)
Definition round_tenths (q : Qc) : Qc :=
  let x := (this q * inject_Z 10)%Q in
  let f := Qfloor x in
  let r := (x - inject_Z f)%Q in
  let up :=
    match (r ?= 1 # 2)%Q with
    | Lt => false
    | Gt => true
    | Eq => Z.odd f
    end in
  Q2Qc ((if up then f + 1 else f) # 10).

Definition show_num (q : Qc) : string :=
  let n := pretty (Qnum (this q)) in
  match Qden (this q) with
  | xH => n
  | d => n +:+ "/" +:+ pretty (Zpos d)
  end.

Definition show (v : value) : string :=
  match v with
  | VNone => "None"
  | VStr s => s
  | VNum q => show_num q
  | VTime t => "t" +:+ pretty t
  | VJson j => j
  end.

Definition show_exn (e : exn) : string :=
  match e with
  | KeyError key => "'" +:+ key +:+ "'"
  | TypeError op v => "bad operand for " +:+ op +:+ ": " +:+ show v
  | AttributeError v attr => show v +:+ " has no attribute " +:+ attr
  | DatabaseError msg => msg
  | OtherError msg => msg
  end.

Fixpoint strip_left (s : string) : string :=
  match s with
  | String " " s => strip_left s
  | _ => s
  end.
Definition strip (s : string) : string :=
  String.rev (strip_left (String.rev (strip_left s))).

Definition is_digit (a : ascii) : bool :=
  let n := nat_of_ascii a in (48 <=? n)%nat && (n <=? 57)%nat.

Definition date_shaped (s : string) : bool :=
  match list_ascii_of_string s with
  | [y1; y2; y3; y4; d1; m1; m2; d2; a1; a2] =>
      forallb is_digit [y1; y2; y3; y4; m1; m2; a1; a2]
      && bool_decide (d1 = "-"%char) && bool_decide (d2 = "-"%char)
  | _ => false
  end.

(** A datetime is what the JSON encoder refuses. *)
Definition dumps (v : value) : result string :=
  match v with
  | VTime _ => Raise (TypeError "json.dumps" v)
  | _ => Ok (show v)
  end.

Definition dumps_dict (d : pydict) : result string :=
  for_each (fun acc (kv : string * value) =>
              s ← dumps kv.2; Ok (acc +:+ kv.1 +:+ "=" +:+ s +:+ ";"))
           EmptyString (map_to_list d).

Definition runtime : Runtime :=
  {| py_format := show;
     py_upper := map_string upper_char;
     py_lower := map_string lower_char;
     py_round1 := round_tenths;
     py_str_exn := show_exn;
     py_strip := strip;
     py_float := fun v => match v with VNum q => Some q | _ => None end;
     py_int := fun v =>
       match v with
       | VNum q => Some (Z.quot (Qnum (this q)) (Zpos (Qden (this q))))
       | _ => None
       end;
     strptime_ymd := date_shaped;
     json_dumps := dumps;
     json_dumps_dict := dumps_dict |}.

(** An engine that executes every statement. *)
Definition accepting : Engine :=
  {| rejects := fun _ _ => None; connect_error := None |}.


Definition empty_db : database :=
  {| pipeline_runs := ∅; error_log := []; stg_weather_data := [];
     weather_metrics := [] |}.

Definition start : world := {| db := empty_db; clock := 0 |}.

Definition num (n : Z) (d : positive) : value := VNum (Q2Qc (n # d)).

(** The three records of the validator's own self-test, with the payload
    the extractor adds. *)
Definition encarnacion : pydict :=
  list_to_map
    [("city", VStr "Encarnacion"); ("country", VStr "Paraguay");
     ("temperature", num 351 10); ("feels_like", num 338 10);
     ("humidity", num 34 1); ("pressure", num 1006 1);
     ("wind_speed", num 72 10); ("weather_condition", VStr "Sunny");
     ("raw_data", VJson "{}")].

Definition bad_city : pydict :=
  list_to_map
    [("city", VStr "BadCity"); ("country", VStr "Paraguay");
     ("temperature", num 150 1);
     ("humidity", num 34 1); ("pressure", num 1006 1);
     ("wind_speed", num 72 10); ("weather_condition", VStr "Sunny")].

Definition null_city : pydict :=
  list_to_map
    [("city", VStr "NullCity"); ("country", VNone);
     ("temperature", num 25 1);
     ("humidity", num 50 1); ("pressure", num 1013 1);
     ("wind_speed", num 5 1); ("weather_condition", VStr "Clear")].

(** A record the API can send: every measurement the validator requires,
    and a null [feelslike_c]. *)
Definition no_feels_like : pydict :=
  list_to_map
    [("city", VStr "asuncion"); ("country", VStr "PY");
     ("temperature", num 251 10); ("feels_like", VNone);
     ("humidity", num 50 1); ("pressure", num 1013 1);
     ("wind_speed", num 5 1); ("weather_condition", VStr "clear");
     ("raw_data", VJson "{}")].

(** The staged row of the specification's example, and the row the
    pipeline stages for [no_feels_like]. *)
Definition staged_values (temperature feels_like condition : value)
  : staging_values :=
  {| s_city := VStr "asuncion"; s_country := VStr "PY";
     s_temperature := temperature; s_feels_like := feels_like;
     s_humidity := num 50 1; s_pressure := num 1013 1;
     s_weather_condition := condition; s_wind_speed := num 5 1;
     s_raw_data := "{}"; s_load_id := 0 |}.

Definition staged_asuncion : staging_row :=
  {| stg_id := 0;
     stg_values := staged_values (num 251 10) (num 263 10) (VStr "Sunny");
     extracted_at := 2 |}.

Definition staged_again : staging_row :=
  {| stg_id := 1;
     stg_values := staged_values (num 30 1) (num 31 1) (VStr "Cloudy");
     extracted_at := 2 |}.


(** A production row with the key of the two staged rows above. *)
Definition old_metric : metric_row :=
  {| m_city := VStr "ASUNCION"; m_country := VStr "PY";
     m_temperature := num 10 1; m_feels_like := num 10 1;
     m_humidity := num 80 1; m_pressure := num 1000 1;
     m_weather_condition := VStr "rain"; m_wind_speed := num 0 1;
     m_recorded_at := VTime 2; m_loaded_at := VTime 1 |}.

(** A world where run 0 has staged the same observation twice, with
    different temperatures, and an earlier promotion left a row for it. *)
Definition restaged : world :=
  {| db := {| pipeline_runs := ∅; error_log := [];
              stg_weather_data := [staged_asuncion; staged_again];
              weather_metrics := [old_metric] |};
     clock := 3 |}.

Definition batch : list pydict := [encarnacion; bad_city; null_city].

Definition is_ok {A} (r : result A) : bool :=
  match r with Ok _ => true | Raise _ => false end.

(** The value of a computation that returned. *)
Definition returned {A} (default : A) (r : result A) : A :=
  match r with Ok a => a | Raise _ => default end.

End Fixture.

(** * The vocabulary of the properties *)

(** ** Validators *)

Section ValidatorVocabulary.

Context {RT : Runtime}.

Import WeatherDataValidator.

Definition missing_fields (record : pydict) : list string :=
  filter (fun f => missing record f) required_fields.

(** The four range rules, as the specification words them. *)
Definition temperature_in_range (t : Qc) : Prop :=
  (int (-50) <= t /\ t <= int 60)%Qc.
Definition humidity_in_range (h : Qc) : Prop :=
  (int 0 <= h /\ h <= int 100)%Qc.
Definition pressure_in_range (p : Qc) : Prop :=
  (int 900 <= p /\ p <= int 1100)%Qc.
Definition wind_speed_in_range (w : Qc) : Prop :=
  (int 0 <= w)%Qc.

#[global] Instance temperature_in_range_dec t : Decision (temperature_in_range t).
Proof. unfold temperature_in_range. apply _. Defined.
#[global] Instance humidity_in_range_dec h : Decision (humidity_in_range h).
Proof. unfold humidity_in_range. apply _. Defined.
#[global] Instance pressure_in_range_dec p : Decision (pressure_in_range p).
Proof. unfold pressure_in_range. apply _. Defined.
#[global] Instance wind_speed_in_range_dec w : Decision (wind_speed_in_range w).
Proof. unfold wind_speed_in_range. apply _. Defined.

(** The message a rule contributes: none when it holds, one when it is
    violated. *)
Definition complaint (P : Prop) `{Decision P} (msg : string) : list string :=
  if decide P then [] else [msg].

Definition range_errors (t h p w : Qc) : list string :=
  complaint (temperature_in_range t) (temperature_msg (VNum t))
    ++ complaint (humidity_in_range h) (humidity_msg (VNum h))
    ++ complaint (wind_speed_in_range w) (wind_speed_msg (VNum w))
    ++ complaint (pressure_in_range p) (pressure_msg (VNum p)).


(** The measurement fields hold numbers where they hold anything, as the
    data model has them. *)
Definition numeric_or_null (record : pydict) (field : string) : Prop :=
  match record !! field with
  | Some (VNum _) | Some VNone | None => True
  | Some _ => False
  end.

Definition measurements_typed (record : pydict) : Prop :=
  numeric_or_null record "temperature"
  /\ numeric_or_null record "humidity"
  /\ numeric_or_null record "pressure"
  /\ numeric_or_null record "wind_speed".

(** The batch loop, for any record validator. *)

Section Partition.

Context {R : Type} (validate : R -> result (bool * list string)).

Definition accepts (r : R) : bool :=
  match validate r with
  | Ok (true, _) => true
  | _ => false
  end.

(** The loop body both validators share: a valid record goes to the end
    of the first list, an invalid one, with its errors, to the end of
    the second. *)
Definition sorts_record
    (step : list R * list (invalid_entry R) -> R
            -> result (list R * list (invalid_entry R))) : Prop :=
  forall valid invalid r is_valid errs,
    validate r = Ok (is_valid, errs) ->
    step (valid, invalid) r
    = Ok (if is_valid
          then (valid ++ [r], invalid)
          else (valid, invalid ++ [{| record := r; errors := errs |}])).

(** What the summary of a batch has to be: the counts add up, and the
    two lists are the accepted and the rejected records, each in the
    order of the batch, every rejected one with the errors the validator
    gave for it. *)
Definition partitions (records : list R) (s : summary R) : Prop :=
  total_records s = length records
  /\ valid_count s = length (valid_records s)
  /\ invalid_count s = length (invalid_records s)
  /\ total_records s = (valid_count s + invalid_count s)%nat
  /\ valid_records s = filter (fun r => accepts r) records
  /\ record <$> invalid_records s = filter (fun r => ~ accepts r) records
  /\ Forall (fun e => validate (record e) = Ok (false, errors e))
            (invalid_records s).

(** A record on which the validator raises takes the loop with it. *)
Definition passes_on
    (step : list R * list (invalid_entry R) -> R
            -> result (list R * list (invalid_entry R))) : Prop :=
  forall acc r e, validate r = Raise e -> step acc r = Raise e.

End Partition.

End ValidatorVocabulary.

(** ** The production table *)

Section TableVocabulary.

Definition keys (table : list metric_row) : list (value * value * value) :=
  metric_key <$> table.


(** The row a key designates, if any. *)
Fixpoint row_of (k : value * value * value) (table : list metric_row)
  : option metric_row :=
  match table with
  | [] => None
  | r :: table => if decide (metric_key r = k) then Some r else row_of k table
  end.

(** The statements of a batch, one after the other. *)
Definition upserts (rows table : list metric_row) : list metric_row :=
  foldl (fun table r => upsert r table) table rows.

(** A row with its load stamp erased: what two promotions of the same
    staged record have in common. *)
Definition erase (r : metric_row) : metric_row :=
  {| m_city := m_city r; m_country := m_country r;
     m_temperature := m_temperature r; m_feels_like := m_feels_like r;
     m_humidity := m_humidity r; m_pressure := m_pressure r;
     m_weather_condition := m_weather_condition r;
     m_wind_speed := m_wind_speed r; m_recorded_at := m_recorded_at r;
     m_loaded_at := VNone |}.

(** The row a key ends with after a batch: the last row of the batch with
    that key, or what the table had. *)
Definition settle (k : value * value * value) (rows : list metric_row)
    (before : option metric_row) : option metric_row :=
  foldl (fun acc r => if decide (metric_key r = k) then Some r else acc)
        before rows.

End TableVocabulary.

(** ** The pipeline on the connection *)

Section PipelineVocabulary.

Context {RT : Runtime} {EG : Engine}.

Import WeatherDataValidator WeatherTransformer Main.

(** One tick of the clock. *)
Definition tick (w : world) : world :=
  {| db := db w; clock := S (clock w) |}.

(** What [transform_record] computes before it reads the clock. *)
Definition transformed (staging_record : pydict) : result (nat -> pydict) :=
  city ← getitem staging_record "city" ≫= upper;
  country ← getitem staging_record "country";
  temperature ← getitem staging_record "temperature" ≫= round1;
  feels_like ← getitem staging_record "feels_like" ≫= round1;
  humidity ← getitem staging_record "humidity";
  pressure ← getitem staging_record "pressure";
  weather_condition ← getitem staging_record "weather_condition" ≫= lower;
  wind_speed ← getitem staging_record "wind_speed" ≫= round1;
  recorded_at ← getitem staging_record "extracted_at";
  Ok (fun loaded_at =>
        list_to_map
          [("city", city);
           ("country", country);
           ("temperature", temperature);
           ("feels_like", feels_like);
           ("humidity", humidity);
           ("pressure", pressure);
           ("weather_condition", weather_condition);
           ("wind_speed", wind_speed);
           ("recorded_at", recorded_at);
           ("loaded_at", VTime loaded_at)] : pydict).

(** [m] keeps the property [P] of the tables, however it ends. *)
Definition preserves (P : database -> Prop) {A} (m : M A) : Prop :=
  forall w r w', m w = (r, w') -> P (db w) -> P (db w').

(** [m] always returns. *)
Definition returns {A} (m : M A) : Prop :=
  forall w, exists a w', m w = (Ok a, w').

(** The rows staged for a run. *)
Definition staged_for (run_id : nat) (d : database) : list staging_row :=
  filter (fun r => s_load_id (stg_values r) = run_id) (stg_weather_data d).

Definition empty_run_stats : gmap string nat :=
  {[ "transformed_count" := 0%nat; "loaded_count" := 0%nat ]}.

(** The parameter tuple of the staging INSERT of main.py. *)
Definition staging_params (record : pydict) (run_id : nat)
  : result staging_values :=
  city ← getitem record "city";
  country ← getitem record "country";
  temperature ← getitem record "temperature";
  feels_like ← getitem record "feels_like";
  humidity ← getitem record "humidity";
  pressure ← getitem record "pressure";
  weather_condition ← getitem record "weather_condition";
  wind_speed ← getitem record "wind_speed";
  raw_data ← getitem record "raw_data" ≫= json_dumps;
  Ok {| s_city := city; s_country := country;
        s_temperature := temperature; s_feels_like := feels_like;
        s_humidity := humidity; s_pressure := pressure;
        s_weather_condition := weather_condition;
        s_wind_speed := wind_speed; s_raw_data := raw_data;
        s_load_id := run_id |}.

(** The world after an accepted statement. *)
Definition after (stmt : statement) (w : world) : world :=
  {| db := (run_statement stmt (clock w) (db w)).2; clock := S (clock w) |}.

Definition new_run (source : string) (start : nat) : run_row :=
  {| pipeline_name := "multi_source_ingestion"; source_type := source;
     status := "running"; start_time := start; end_time := None;
     records_extracted := None; records_loaded := None;
     error_message := None |}.

Definition same_runs (c : gmap nat run_row) (d : database) : Prop :=
  pipeline_runs d = c.

(** The staging insert of [record] fails: a key of the parameter tuple is
    absent, or the engine refuses the row. *)
Definition staging_fails (record : pydict) (run_id : nat) (d : database)
  : Prop :=
  match staging_params record run_id with
  | Ok row => is_Some (rejects (InsertStaging row) d)
  | Raise _ => True
  end.

(** The row a staged record is promoted to, without its load stamp;
    [None] for a record the transform raises on. *)
Definition promoted (staging_record : pydict) : option metric_row :=
  match transformed staging_record with
  | Ok production_record =>
      match metric_of (production_record 0%nat) with
      | Ok row => Some (erase row)
      | Raise _ => None
      end
  | Raise _ => None
  end.

Definition row_for (production_record : pydict) (row : metric_row) : Prop :=
  metric_of production_record = Ok row.

Definition accepts_all : Prop := forall stmt d, rejects stmt d = None.


End PipelineVocabulary.

Abbreviation production_table w := (weather_metrics (db w)).

(** * The rest of the loaders and the extractor *)

(** A name the interpreter cannot resolve raises NameError, an attribute
    a module does not have AttributeError; both are exceptions of the
    [OtherError] kind, with the interpreter's message. *)
Definition name_error (name : string) : exn :=
  OtherError ("name '" +:+ name +:+ "' is not defined").
Definition module_attribute_error (module attr : string) : exn :=
  OtherError ("module '" +:+ module +:+ "' has no attribute '"
                +:+ attr +:+ "'").

(** ** loaders/base_loader.py *)

Module BaseLoader.
Section Loader.
Context `{Runtime} `{Engine}.

Definition create_pipeline_run (source_type : string) : M nat :=
  start ← datetime_now;
  res ← execute_query
          (InsertPipelineRun "multi_source_ingestion" source_type
                             "running" start);
  mret (match res with Returning run_id => run_id | _ => 0%nat end).

(** The text of the UPDATE, with its keyword misspelt. *)
Definition update_query : string :=
  "UPTDATE pipeline_runs SET status = %s, end_time = %s, records_extracted = %s, error_message = %s WHERE run_id = %".

(** [update_pipeline_run].  The parameter is spelt [recors_extracted];
    the tuple of the statement reads [records_extracted], a name that is
    bound nowhere.  The elements of the tuple are evaluated from the
    left, the clock before the unbound name. *)
Definition update_pipeline_run (run_id : nat) (status : string)
    (recors_extracted records_loaded : nat)
    (error_message : option string) : M unit :=
  end_ ← datetime_now;
  records_extracted ← throw (A := nat) (name_error "records_extracted");
  _ ← execute_query (Malformed update_query);
  mret ().

(** One iteration of [log_validation_errors].  The tuple of the
    statement reads [slef.loader_name] and calls [json.dumbs]. *)
Definition log_one (run_id : nat) (logged_count : nat)
    (invalid : invalid_entry pydict) : M nat :=
  try_except
    (let record := record invalid in
     let errors := errors invalid in
     loader_name ← throw (A := string) (name_error "slef");
     raw_data ← throw (A := string) (module_attribute_error "json" "dumbs");
     created_at ← datetime_now;
     _ ← execute_query
           (InsertErrorLog
              {| err_run_id := run_id;
                 err_source_type := loader_name;
                 err_error_type := "validation_error";
                 err_error_message := Main.join "; " errors;
                 err_raw_data := raw_data;
                 err_created_at := created_at |});
     mret (logged_count + 1)%nat)
    (fun e => mret logged_count).

Fixpoint log_loop (run_id : nat) (logged_count : nat)
    (invalid_records : list (invalid_entry pydict)) : M nat :=
  match invalid_records with
  | [] => mret logged_count
  | invalid :: rest =>
      logged_count ← log_one run_id logged_count invalid;
      log_loop run_id logged_count rest
  end.

Definition log_validation_errors (run_id : nat)
    (invalid_records : list (invalid_entry pydict)) : M nat :=
  log_loop run_id 0%nat invalid_records.

End Loader.
End BaseLoader.

(** ** extractors/api_extractor.py and extractors/base_extractor.py *)

Module WeatherAPIExtractor.

(** A decoded JSON document, as [response.json()] returns it: null, a
    string, a number or an object (arrays and booleans, which are not
    among the fields the extractor reads, are left out). *)
#[warnings="-register-all"] Inductive json :=
| JNull
| JStr (s : string)
| JNum (q : Qc)
| JObj (fields : gmap string json).

(** The coordinates the extractor keeps for a city. *)
Record coords := {
  lat : Qc;
  lon : Qc
}.

(** The weather service is a collaborator.  An extraction makes one
    request per city: [http_get city q] is what [requests.get],
    [raise_for_status] and [response.json] come back with for the
    request made for [city], with the query [q]: a document, or the
    exception one of them raises.  [json_text] is the text of a
    document. *)
Class WeatherService := {
  http_get : string -> string -> result json;
  json_text : json -> string
}.

Section Extractor.
Context `{Runtime} `{WeatherService}.

(** A document as a field value of a record. *)
Definition to_value (j : json) : value :=
  match j with
  | JNull => VNone
  | JStr s => VStr s
  | JNum q => VNum q
  | JObj _ => VJson (json_text j)
  end.

(** [j[k]]: only an object can be subscripted with a key. *)
Definition subscript (j : json) (k : string) : result json :=
  match j with
  | JObj fields =>
      match fields !! k with
      | Some v => Ok v
      | None => Raise (KeyError k)
      end
  | _ => Raise (TypeError "[]" (to_value j))
  end.

(** [j.lower()] *)
Definition lower (j : json) : result value :=
  match j with
  | JStr s => Ok (VStr (py_lower s))
  | _ => Raise (AttributeError (to_value j) "lower")
  end.

(** [self.city_coords.get(city_name)] on the dictionary of the cities, in
    the order they were loaded. *)
Fixpoint city_coords_get (city_coords : list (string * coords))
    (city_name : string) : option coords :=
  match city_coords with
  | [] => None
  | (name, c) :: rest =>
      if decide (name = city_name) then Some c
      else city_coords_get rest city_name
  end.

(** [_fetch_from_api].  The branch for a city without coordinates reads
    [selc.logger]. *)
Definition fetch_from_api (city_coords : list (string * coords))
    (city_name : string) : result pydict :=
  match city_coords_get city_coords city_name with
  | None => Raise (name_error "selc")
  | Some c =>
      let query := py_format (VNum (lat c)) +:+ "," +:+ py_format (VNum (lon c)) in
      api_data ← http_get city_name query;
      location ← subscript api_data "location";
      current ← subscript api_data "current";
      city ← subscript location "name";
      country ← subscript location "country";
      temperature ← subscript current "temp_c";
      feels_like ← subscript current "feelslike_c";
      humidity ← subscript current "humidity";
      pressure ← subscript current "pressure_mb";
      weather_condition ←
        (condition ← subscript current "condition";
         text ← subscript condition "text";
         lower text);
      wind_speed ← subscript current "wind_kph";
      Ok (list_to_map
            [("city", to_value city);
             ("country", to_value country);
             ("temperature", to_value temperature);
             ("feels_like", to_value feels_like);
             ("humidity", to_value humidity);
             ("pressure", to_value pressure);
             ("weather_condition", weather_condition);
             ("wind_speed", to_value wind_speed);
             ("raw_data", VJson (json_text api_data))] : pydict)
  end.

(** The body of the loop of [extract]: a city whose request raises is
    logged and left out. *)
Definition extract_step (city_coords : list (string * coords))
    (data : list pydict) (city_name : string) : list pydict :=
  match fetch_from_api city_coords city_name with
  | Ok weather_data =>
      if bool_decide (weather_data <> ∅) then data ++ [weather_data]
      else data
  | Raise _ => data
  end.

Definition extract (city_coords : list (string * coords)) : list pydict :=
  foldl (extract_step city_coords) [] (city_coords.*1).

(** [WeatherAPIExtractor()]: an extractor without cities is refused with
    a ValueError. *)
Definition init (city_coords : list (string * coords))
  : result (list (string * coords)) :=
  if bool_decide (city_coords = [])
  then Raise (OtherError "No cities loaded from paraguay_locations.txt")
  else Ok city_coords.

(** [BaseExtractor.run]: what [extract] returns, an exception out of it
    raised again. *)
Definition run (city_coords : list (string * coords))
  : result (list pydict) :=
  Ok (extract city_coords).

(** [WeatherAPIExtractor().run()], as the orchestrator calls it. *)
Definition extraction (city_coords : list (string * coords))
  : result (list pydict) :=
  extractor ← init city_coords;
  run extractor.

End Extractor.
End WeatherAPIExtractor.

(** ** Further fixtures *)

Module Sample.

Import WeatherAPIExtractor.

(** The first record of the validator's self-test with its temperature as
    text. *)
Definition hot : pydict :=
  <["temperature" := VStr "hot"]> Fixture.encarnacion.

(** The two rows of the CSV validator's self-test. *)
Definition laptop : CSVDataValidator.csv_record :=
  {| CSVDataValidator.source_file := VStr "test.csv";
     CSVDataValidator.row_number := Fixture.num 2 1;
     CSVDataValidator.csv_data :=
       Some (list_to_map
               [("date", VStr "2024-12-01"); ("product", VStr "Laptop");
                ("category", VStr "Electronics");
                ("amount", Fixture.num 120050 100);
                ("quantity", Fixture.num 2 1);
                ("region", VStr "Asuncion")]) |}.

Definition mouse : CSVDataValidator.csv_record :=
  {| CSVDataValidator.source_file := VStr "test.csv";
     CSVDataValidator.row_number := Fixture.num 3 1;
     CSVDataValidator.csv_data :=
       Some (list_to_map
               [("date", VStr "invalid-date"); ("product", VStr "Mouse");
                ("category", VStr EmptyString);
                ("amount", Fixture.num (-2599) 100);
                ("quantity", Fixture.num 5 1);
                ("region", VStr "Encarnacion")]) |}.

(** A production record that has lost everything but its city, and one
    without a city. *)
Definition city_only : pydict := {[ "city" := VStr "ASUNCION" ]}.
Definition anonymous : pydict := {[ "country" := VStr "PY" ]}.

(** A complete production record. *)
Definition production (temperature : value) : pydict :=
  list_to_map
    [("city", VStr "ASUNCION"); ("country", VStr "PY");
     ("temperature", temperature); ("feels_like", Fixture.num 26 1);
     ("humidity", Fixture.num 50 1); ("pressure", Fixture.num 1013 1);
     ("weather_condition", VStr "sunny"); ("wind_speed", Fixture.num 5 1);
     ("recorded_at", VTime 2); ("loaded_at", VTime 3)].

Definition production_row (temperature : value) : metric_row :=
  {| m_city := VStr "ASUNCION"; m_country := VStr "PY";
     m_temperature := temperature; m_feels_like := Fixture.num 26 1;
     m_humidity := Fixture.num 50 1; m_pressure := Fixture.num 1013 1;
     m_weather_condition := VStr "sunny"; m_wind_speed := Fixture.num 5 1;
     m_recorded_at := VTime 2; m_loaded_at := VTime 3 |}.

(** A world with one run open. *)
Definition running : world :=
  {| db := {| pipeline_runs :=
                {[ 0%nat := {| pipeline_name := "multi_source_ingestion";
                               source_type := "weather_api";
                               status := "running"; start_time := 0;
                               end_time := None; records_extracted := None;
                               records_loaded := None;
                               error_message := None |} ]};
              error_log := []; stg_weather_data := [];
              weather_metrics := [] |};
     clock := 1 |}.

(** A weather service that knows one place: its answer has a null
    [feelslike_c]; any other request fails. *)
Definition answer : json :=
  JObj (list_to_map
          [("location",
            JObj (list_to_map
                    [("name", JStr "Asuncion"); ("country", JStr "Paraguay")]));
           ("current",
            JObj (list_to_map
                    [("temp_c", JNum (Q2Qc (251 # 10)));
                     ("feelslike_c", JNull);
                     ("humidity", JNum (Q2Qc (50 # 1)));
                     ("pressure_mb", JNum (Q2Qc (1013 # 1)));
                     ("condition",
                      JObj (list_to_map [("text", JStr "Clear")]));
                     ("wind_kph", JNum (Q2Qc (5 # 1)))]))]).

Definition service : WeatherService :=
  {| http_get := fun city query =>
       if bool_decide (query = "0,0") then Ok answer
       else Raise (OtherError "404 Client Error");
     json_text := fun _ => "{}" |}.

Definition cities : list (string * coords) :=
  [("Asuncion", {| lat := Q2Qc 0; lon := Q2Qc 0 |});
   ("Atlantis", {| lat := Q2Qc 1; lon := Q2Qc 1 |})].

(** The record the extractor makes of the answer. *)
Definition asuncion : pydict :=
  list_to_map
    [("city", VStr "Asuncion"); ("country", VStr "Paraguay");
     ("temperature", Fixture.num 251 10); ("feels_like", VNone);
     ("humidity", Fixture.num 50 1); ("pressure", Fixture.num 1013 1);
     ("weather_condition", VStr "clear"); ("wind_speed", Fixture.num 5 1);
     ("raw_data", VJson "{}")].

End Sample.

(** * The vocabulary of the further properties *)

(** ** What the validators let through *)

Section AcceptanceVocabulary.

Context {RT : Runtime}.

Import WeatherDataValidator.

(** The field is there and is not null. *)
Definition holds (record : pydict) (field : string) : Prop :=
  exists v, record !! field = Some v /\ v <> VNone.

(** The field is a number with the property [P]. *)
Definition holds_number (record : pydict) (field : string)
    (P : Qc -> Prop) : Prop :=
  exists q, record !! field = Some (VNum q) /\ P q.

Definition well_formed (record : pydict) : Prop :=
  holds record "city" /\ holds record "country"
  /\ holds_number record "temperature" temperature_in_range
  /\ holds_number record "humidity" humidity_in_range
  /\ holds_number record "pressure" pressure_in_range
  /\ holds_number record "wind_speed" wind_speed_in_range.

(** The measurements in the order [validate_record] compares them, each
    with the operator of its first comparison. *)
Definition comparisons : list (string * string) :=
  [("temperature", "<="); ("humidity", "<=");
   ("wind_speed", "<"); ("pressure", "<")].

Definition is_number (v : value) : bool :=
  match v with VNum _ => true | _ => false end.

(** The first measurement that holds something other than a number, with
    the operator it meets. *)
Definition first_non_number (record : pydict) : option (string * value) :=
  head (omap (fun '(field, op) =>
                match record !! field with
                | Some v =>
                    if is_none v || is_number v then None else Some (op, v)
                | None => None
                end)
             comparisons).


Definition csv_missing_fields (data : pydict) : list string :=
  filter (fun f => CSVDataValidator.missing data f)
         CSVDataValidator.required_fields.


End AcceptanceVocabulary.

(** ** The staging query and the promotion *)

Section PromotionVocabulary.

Context {RT : Runtime} {EG : Engine}.

Import WeatherTransformer Main.

(** Earliest first. *)
Definition by_extracted_at (a b : staging_row) : Prop :=
  (extracted_at a <= extracted_at b)%nat.

Definition is_text (v : value) : bool :=
  match v with VStr _ => true | _ => false end.

(** The staged rows the transform can work on: the two columns it changes
    the case of are strings, the three it rounds are numbers. *)
Definition promotable (r : staging_row) : bool :=
  let v := stg_values r in
  is_text (s_city v) && is_number (s_temperature v)
  && is_number (s_feels_like v) && is_text (s_weather_condition v)
  && is_number (s_wind_speed v).

(** The production row of a staged row promoted at [loaded_at]. *)
Definition metric_of_staged (r : staging_row) (loaded_at : nat)
  : option metric_row :=
  let v := stg_values r in
  match s_city v, s_temperature v, s_feels_like v,
        s_weather_condition v, s_wind_speed v with
  | VStr city, VNum t, VNum f, VStr cond, VNum ws =>
      Some {| m_city := VStr (py_upper city);
              m_country := s_country v;
              m_temperature := VNum (py_round1 t);
              m_feels_like := VNum (py_round1 f);
              m_humidity := s_humidity v;
              m_pressure := s_pressure v;
              m_weather_condition := VStr (py_lower cond);
              m_wind_speed := VNum (py_round1 ws);
              m_recorded_at := VTime (extracted_at r);
              m_loaded_at := VTime loaded_at |}
  | _, _, _, _, _ => None
  end.

(** The last row of a batch with the key [k]. *)
Definition last_with_key (k : value * value * value)
    (rows : list metric_row) : option metric_row :=
  last (filter (fun r => metric_key r = k) rows).

(** The three tables a promotion does not write to. *)
Definition same_but_metrics (d d' : database) : Prop :=
  pipeline_runs d' = pipeline_runs d
  /\ error_log d' = error_log d
  /\ stg_weather_data d' = stg_weather_data d.

End PromotionVocabulary.

(** ** The bookkeeping of a run *)

Section BookkeepingVocabulary.

Context {RT : Runtime} {EG : Engine}.

Import WeatherTransformer Main.

(** The staging tuples of a batch, for the records whose tuple can be
    built. *)
Definition staging_tuples (data : list pydict) (run_id : nat)
  : list staging_values :=
  omap (fun record =>
          match staging_params record run_id with
          | Ok row => Some row
          | Raise _ => None
          end)
       data.

(** The message and payload columns of the error row of a rejected
    record; [None] when the record cannot be serialised. *)
Definition error_columns (invalid : invalid_entry pydict)
  : option (string * string) :=
  match json_dumps_dict (record invalid) with
  | Ok raw_data => Some (join "; " (errors invalid), raw_data)
  | Raise _ => None
  end.

Definition logged_columns (row : error_row) : string * string :=
  (err_error_message row, err_raw_data row).

(** The error rows the orchestrator writes for a run. *)
Definition logged_for (run_id : nat) (row : error_row) : Prop :=
  err_run_id row = run_id
  /\ err_source_type row = "weather_api"
  /\ err_error_type row = "validation_error".

End BookkeepingVocabulary.

(** ** The extractor *)

Section ExtractionVocabulary.

Context {RT : Runtime} {WS : WeatherAPIExtractor.WeatherService}.

Import WeatherAPIExtractor.

(** The nine keys of an extracted record. *)
Definition record_fields : list string :=
  ["city"; "country"; "temperature"; "feels_like"; "humidity"; "pressure";
   "weather_condition"; "wind_speed"; "raw_data"].

(** The record of a city, when its request comes back with one. *)
Definition fetched (city_coords : list (string * coords))
    (city_name : string) : option pydict :=
  match fetch_from_api city_coords city_name with
  | Ok weather_data => Some weather_data
  | Raise _ => None
  end.

(** The shape of an extracted record: the nine keys, the condition a
    lower-cased string, the payload a document. *)
Definition extracted_shape (r : pydict) : Prop :=
  Forall (fun k => is_Some (r !! k)) record_fields
  /\ (exists s, r !! "weather_condition" = Some (VStr (py_lower s)))
  /\ (exists body, r !! "raw_data" = Some (VJson body)).

End ExtractionVocabulary.

(** ** Batches in pieces *)

Section SummaryVocabulary.

(** The summary of two batches validated one after the other. *)
Definition summary_app {R : Type} (s1 s2 : summary R) : summary R :=
  {| total_records := total_records s1 + total_records s2;
     valid_count := valid_count s1 + valid_count s2;
     invalid_count := invalid_count s1 + invalid_count s2;
     valid_records := valid_records s1 ++ valid_records s2;
     invalid_records := invalid_records s1 ++ invalid_records s2 |}.

End SummaryVocabulary.

(** * Properties *)

(** ** The validators *)

Section ValidatorProperties.
Context {RT : Runtime}.

Import WeatherDataValidator.

Ltac in_fields :=
  unfold required_fields;
  repeat first [apply list_elem_of_here | apply list_elem_of_further].

(** The required-field loop collects one message per missing field, in
    the order of the field list. *)
Lemma missing_loop (test : string -> bool) (msg : string -> string)
    (fields : list string) (acc : list string) :
  foldl (fun errors field =>
           if test field then errors ++ [msg field] else errors)
        acc fields
  = acc ++ (msg <$> filter (fun f => test f) fields).
Proof.
  revert acc. induction fields as [|f fields IH]; intros acc; simpl.
  - by rewrite app_nil_r.
  - rewrite IH, filter_cons. destruct (test f); simpl.
    + by rewrite <- app_assoc.
    + done.
Qed.

Lemma missing_fields_NoDup record : NoDup (missing_fields record).
Proof.
  apply list.NoDup_filter. unfold required_fields.
  apply (bool_decide_unpack _). by vm_compute.
Qed.

Lemma missing_msg_inj : Inj (=) (=) missing_msg.
Proof. intros a b E. unfold missing_msg in E. by simplify_eq/=. Qed.

Lemma validate_record_short_circuit record :
  missing_fields record <> [] ->
  validate_record record = Ok (false, missing_msg <$> missing_fields record).
Proof.
  intros Hne. unfold validate_record. rewrite missing_loop. simpl app.
  fold (missing_fields record).
  rewrite bool_decide_false; [done |].
  intros E. apply fmap_nil_inv in E. done.
Qed.

Lemma range_check_number record field violated msg errors q (b : bool) :
  record !! field = Some (VNum q) ->
  violated (VNum q) = Ok b ->
  range_check record field violated msg errors
  = Ok (errors ++ if b then [msg (VNum q)] else []).
Proof.
  intros Hq Hb. unfold range_check, get. rewrite Hq. simpl. rewrite Hb.
  simpl. destruct b; [done | by rewrite app_nil_r].
Qed.

Lemma present_not_missing record field v :
  record !! field = Some v -> v <> VNone -> missing record field = false.
Proof. intros E Hv. unfold missing. rewrite E. by destruct v. Qed.

Lemma complaint_negb (P : Prop) `{Decision P} (msg : string) :
  (if negb (bool_decide P) then [msg] else []) = complaint P msg.
Proof. unfold complaint. by destruct (decide P); simplify_option_eq;
  [rewrite bool_decide_true | rewrite bool_decide_false]. Qed.

Lemma temperature_test t :
  negb <$> and_then (le_num (-50) (VNum t)) (num_le (VNum t) 60)
  = Ok (negb (bool_decide (temperature_in_range t))).
Proof.
  unfold temperature_in_range, and_then, le_num, num_le. simpl.
  destruct (decide (int (-50) <= t)%Qc) as [Hlo|Hlo].
  - rewrite (bool_decide_true _ Hlo). simpl. f_equal. f_equal.
    apply bool_decide_ext. tauto.
  - rewrite (bool_decide_false _ Hlo). simpl. f_equal.
    rewrite bool_decide_false; [done | tauto].
Qed.

Lemma humidity_test h :
  negb <$> and_then (le_num 0 (VNum h)) (num_le (VNum h) 100)
  = Ok (negb (bool_decide (humidity_in_range h))).
Proof.
  unfold humidity_in_range, and_then, le_num, num_le. simpl.
  destruct (decide (int 0 <= h)%Qc) as [Hlo|Hlo].
  - rewrite (bool_decide_true _ Hlo). simpl. f_equal. f_equal.
    apply bool_decide_ext. tauto.
  - rewrite (bool_decide_false _ Hlo). simpl. f_equal.
    rewrite bool_decide_false; [done | tauto].
Qed.

Lemma wind_speed_test w :
  num_lt (VNum w) 0 = Ok (negb (bool_decide (wind_speed_in_range w))).
Proof.
  unfold wind_speed_in_range, num_lt. simpl. f_equal.
  destruct (decide (int 0 <= w)%Qc) as [Hle|Hle].
  - rewrite (bool_decide_true _ Hle). simpl. apply bool_decide_false.
    by apply Qcle_not_lt.
  - rewrite (bool_decide_false _ Hle). simpl. apply bool_decide_true.
    by apply Qcnot_le_lt.
Qed.

Lemma pressure_test p :
  or_else (num_lt (VNum p) 900) (num_gt (VNum p) 1100)
  = Ok (negb (bool_decide (pressure_in_range p))).
Proof.
  unfold pressure_in_range, or_else, num_lt, num_gt. simpl.
  destruct (decide (p < int 900)%Qc) as [Hlo|Hlo].
  - rewrite (bool_decide_true _ Hlo). simpl. f_equal.
    rewrite bool_decide_false; [done |].
    intros [Hle _]. by apply Qcle_not_lt in Hle.
  - rewrite (bool_decide_false _ Hlo). simpl. f_equal.
    apply Qcnot_lt_le in Hlo.
    destruct (decide (int 1100 < p)%Qc) as [Hhi|Hhi].
    + rewrite (bool_decide_true _ Hhi), bool_decide_false; [done |].
      intros [_ Hle]. by apply Qcle_not_lt in Hle.
    + rewrite (bool_decide_false _ Hhi), bool_decide_true; [done |].
      split; [done | by apply Qcnot_lt_le].
Qed.

Lemma validate_record_in_range_checks record city country t h p w :
  record !! "city" = Some city -> city <> VNone ->
  record !! "country" = Some country -> country <> VNone ->
  record !! "temperature" = Some (VNum t) ->
  record !! "humidity" = Some (VNum h) ->
  record !! "pressure" = Some (VNum p) ->
  record !! "wind_speed" = Some (VNum w) ->
  validate_record record
  = Ok (bool_decide (range_errors t h p w = []), range_errors t h p w).
Proof.
  intros Hc Hc' Ho Ho' Ht Hh Hp Hw.
  unfold validate_record. rewrite missing_loop.
  unfold required_fields. rewrite !filter_cons, filter_nil.
  rewrite (present_not_missing _ _ _ Hc Hc'), (present_not_missing _ _ _ Ho Ho').
  rewrite (present_not_missing _ _ _ Ht), (present_not_missing _ _ _ Hh),
    (present_not_missing _ _ _ Hp), (present_not_missing _ _ _ Hw) by done.
  simpl.
  rewrite (range_check_number _ "temperature" _ _ _ _ _ Ht (temperature_test t)).
  simpl.
  rewrite (range_check_number _ "humidity" _ _ _ _ _ Hh (humidity_test h)).
  simpl.
  rewrite (range_check_number _ "wind_speed" _ _ _ _ _ Hw (wind_speed_test w)).
  simpl.
  rewrite (range_check_number _ "pressure" _ _ _ _ _ Hp (pressure_test p)).
  simpl.
  rewrite !complaint_negb, <- !app_assoc. fold (range_errors t h p w).
  f_equal. f_equal. apply bool_decide_ext.
  split; [apply nil_length_inv | by intros ->].
Qed.




(** Whatever the record, the flag says whether the error list is empty. *)
Lemma validate_record_valid_iff record is_valid errors :
  validate_record record = Ok (is_valid, errors) ->
  is_valid = true <-> errors = [].
Proof.
  unfold validate_record. rewrite missing_loop. simpl app.
  case_bool_decide as Hm; simpl.
  - intros E.
    repeat match type of E with
           | context [range_check ?r ?f ?v ?m ?e] =>
               destruct (range_check r f v m e); simpl in E; [|done]
           end.
    injection E as <- <-. rewrite bool_decide_eq_true.
    split; [apply nil_length_inv | by intros ->].
  - intros [= <- <-]. split; [done | intros E; by rewrite E in Hm].
Qed.

Lemma filter_nil_false (test : string -> bool) (fields : list string) f :
  filter (fun f => test f) fields = [] -> f ∈ fields -> test f = false.
Proof.
  intros E Hf. destruct (test f) eqn:Et; [|done].
  assert (f ∈ filter (fun f => test f) fields) as Hin.
  { apply list_elem_of_filter. split; [by rewrite Et | done]. }
  rewrite E in Hin. by apply not_elem_of_nil in Hin.
Qed.

Lemma no_missing_fields record :
  missing_fields record = [] ->
  Forall (fun f => missing record f = false) required_fields.
Proof.
  intros E. apply list.Forall_forall. intros f Hf.
  by apply (filter_nil_false _ _ _ E).
Qed.

Lemma not_missing_present record field :
  missing record field = false ->
  exists v, record !! field = Some v /\ v <> VNone.
Proof.
  unfold missing. destruct (record !! field) as [v|]; [|done].
  intros E. exists v. split; [done | by intros ->].
Qed.

(** A record the validator accepts has its city, so the debug line of
    [validate_batch] can format it. *)
Lemma valid_record_has_city record errors :
  validate_record record = Ok (true, errors) ->
  exists v, record !! "city" = Some v.
Proof.
  intros E.
  destruct (decide (missing_fields record = [])) as [Hm|Hm].
  - apply no_missing_fields in Hm.
    rewrite list.Forall_forall in Hm.
    destruct (not_missing_present record "city") as (v & Hv & _).
    + apply Hm. in_fields.
    + by exists v.
  - by rewrite (validate_record_short_circuit _ Hm) in E.
Qed.

Lemma numeric_present record field v :
  numeric_or_null record field ->
  record !! field = Some v -> v <> VNone -> exists q, v = VNum q.
Proof.
  unfold numeric_or_null. intros Hn E Hv. rewrite E in Hn.
  destruct v; try done. by eexists.
Qed.

Lemma validate_record_returns record :
  measurements_typed record ->
  exists is_valid errors, validate_record record = Ok (is_valid, errors).
Proof.
  intros (Ht & Hh & Hp & Hw).
  destruct (decide (missing_fields record = [])) as [Hm|Hm].
  - apply no_missing_fields in Hm. rewrite list.Forall_forall in Hm.
    assert (forall f, f ∈ required_fields ->
              exists v, record !! f = Some v /\ v <> VNone) as Hf.
    { intros f Hin. by apply not_missing_present, Hm. }
    destruct (Hf "city") as (c & Hc & Hc'); [in_fields|].
    destruct (Hf "country") as (o & Ho & Ho'); [in_fields|].
    destruct (Hf "temperature") as (t & Et & Et'); [in_fields|].
    destruct (Hf "humidity") as (h & Eh & Eh'); [in_fields|].
    destruct (Hf "pressure") as (p & Ep & Ep'); [in_fields|].
    destruct (Hf "wind_speed") as (w & Ew & Ew'); [in_fields|].
    destruct (numeric_present _ _ _ Ht Et Et') as [qt ->].
    destruct (numeric_present _ _ _ Hh Eh Eh') as [qh ->].
    destruct (numeric_present _ _ _ Hp Ep Ep') as [qp ->].
    destruct (numeric_present _ _ _ Hw Ew Ew') as [qw ->].
    do 2 eexists. by eapply validate_record_in_range_checks.
  - do 2 eexists. by apply validate_record_short_circuit.
Qed.

(** *** The batch loop, for any record validator *)

Section Partition.

Context {R : Type} (validate : R -> result (bool * list string)).

Lemma partition_loop step records :
  sorts_record validate step ->
  Forall (fun r => exists b errs, validate r = Ok (b, errs)) records ->
  forall valid invalid,
  exists valid' invalid',
    for_each step (valid, invalid) records
    = Ok (valid ++ valid', invalid ++ invalid')
    /\ valid' = filter (fun r => accepts validate r) records
    /\ record <$> invalid' = filter (fun r => ~ accepts validate r) records
    /\ Forall (fun e => validate (record e) = Ok (false, errors e)) invalid'.
Proof.
  intros Hstep Hall. induction Hall as [|r records (b & errs & Hr) _ IH];
    intros valid invalid; simpl.
  - exists [], []. by rewrite !app_nil_r.
  - rewrite (Hstep _ _ _ _ _ Hr). simpl.
    assert (accepts validate r = b) as Hb
      by (unfold accepts; rewrite Hr; by destruct b).
    rewrite !filter_cons, Hb.
    destruct b; simpl.
    + destruct (IH (valid ++ [r]) invalid) as (v' & i' & E & Hv & Hi & Hf).
      exists (r :: v'), i'. rewrite E, <- app_assoc. simpl.
      by rewrite Hv.
    + destruct (IH valid (invalid ++ [{| record := r; errors := errs |}]))
        as (v' & i' & E & Hv & Hi & Hf).
      exists v', ({| record := r; errors := errs |} :: i').
      rewrite E, <- app_assoc. rewrite fmap_cons, Hi. simpl.
      repeat split; try done. by constructor.
Qed.

Lemma partition_counts (records valid : list R)
    (invalid : list (invalid_entry R)) :
  valid = filter (fun r => accepts validate r) records ->
  record <$> invalid = filter (fun r => ~ accepts validate r) records ->
  length records = (length valid + length invalid)%nat.
Proof.
  intros -> Hi.
  rewrite <- (length_fmap record invalid), Hi. clear Hi.
  induction records as [|r records IH]; [done |].
  destruct (accepts validate r) eqn:Hr.
  - rewrite filter_cons_True, filter_cons_False by (rewrite Hr; simpl; tauto).
    simpl. lia.
  - rewrite filter_cons_False, filter_cons_True by (rewrite Hr; simpl; tauto).
    simpl. lia.
Qed.

Lemma loop_returns_inv step records :
  sorts_record validate step -> passes_on validate step ->
  forall acc acc',
    for_each step acc records = Ok acc' ->
    Forall (fun r => exists b errs, validate r = Ok (b, errs)) records.
Proof.
  intros Hstep Hraise.
  induction records as [|r records IH]; intros acc acc' E; [done |].
  simpl in E. destruct (validate r) as [[b errs]|e] eqn:Hr.
  - constructor; [by eauto |]. destruct acc as [valid invalid].
    rewrite (Hstep _ _ _ _ _ Hr) in E. simpl in E. by eapply IH.
  - by rewrite (Hraise _ _ _ Hr) in E.
Qed.

Lemma batch_summary step records :
  sorts_record validate step ->
  Forall (fun r => exists b errs, validate r = Ok (b, errs)) records ->
  exists valid invalid,
    for_each step ([], []) records = Ok (valid, invalid)
    /\ partitions validate records
         {| total_records := length records;
            valid_count := length valid;
            invalid_count := length invalid;
            valid_records := valid;
            invalid_records := invalid |}.
Proof.
  intros Hstep Hall.
  destruct (partition_loop step records Hstep Hall [] [])
    as (valid & invalid & E & Hv & Hi & Hf).
  exists valid, invalid. split; [done |].
  unfold partitions. simpl.
  pose proof (partition_counts records valid invalid Hv Hi).
  by repeat split.
Qed.

End Partition.

(** *** The two validators *)

Lemma weather_step_sorts :
  sorts_record validate_record validate_batch_step.
Proof.
  intros valid invalid r b errs Hr. unfold validate_batch_step.
  rewrite Hr. simpl. destruct b; [|done].
  destruct (valid_record_has_city _ _ Hr) as [v Hv].
  unfold getitem. by rewrite Hv.
Qed.

Lemma csv_validate_record_returns (record : CSVDataValidator.csv_record) :
  exists is_valid errors,
    CSVDataValidator.validate_record record = Ok (is_valid, errors).
Proof.
  unfold CSVDataValidator.validate_record. rewrite missing_loop. simpl app.
  case_bool_decide as Hm; simpl; [|by eauto].
  apply fmap_nil_inv in Hm.
  set (data := default ∅ (CSVDataValidator.csv_data record)) in *.
  assert (forall f, f ∈ CSVDataValidator.required_fields ->
            exists v, data !! f = Some v) as Hf.
  { intros f Hin. pose proof (filter_nil_false _ _ _ Hm Hin) as Hn.
    unfold CSVDataValidator.missing in Hn.
    destruct (data !! f) as [v|]; [by eexists | done]. }
  destruct (Hf "date") as [d Hd];
    [unfold CSVDataValidator.required_fields;
     repeat first [apply list_elem_of_here | apply list_elem_of_further] |].
  destruct (Hf "amount") as [a Ha];
    [unfold CSVDataValidator.required_fields;
     repeat first [apply list_elem_of_here | apply list_elem_of_further] |].
  destruct (Hf "quantity") as [q Hq];
    [unfold CSVDataValidator.required_fields;
     repeat first [apply list_elem_of_here | apply list_elem_of_further] |].
  unfold getitem. rewrite Hd, Ha, Hq. simpl. by eauto.
Qed.

Lemma weather_step_passes_on :
  passes_on validate_record validate_batch_step.
Proof.
  intros [valid invalid] r e Hr. unfold validate_batch_step. by rewrite Hr.
Qed.

Lemma csv_step_sorts :
  sorts_record CSVDataValidator.validate_record
               CSVDataValidator.validate_batch_step.
Proof.
  intros valid invalid r b errs Hr. unfold CSVDataValidator.validate_batch_step.
  rewrite Hr. simpl. by destruct b.
Qed.

(** C2. A record with a required field absent or null is rejected with
    exactly one "Missing or null field" message per missing field, in the
    order of the field list, and with no range-check message, whatever
    the fields that are present hold. *)
Theorem validate_record_reports_only_missing_fields (record : pydict) :
  (exists field, field ∈ required_fields /\ missing record field) ->
  exists errors,
    validate_record record = Ok (false, errors)
    /\ errors = missing_msg <$> missing_fields record
    /\ NoDup errors
    /\ length errors = length (missing_fields record)
    /\ (forall field, field ∈ required_fields ->
          missing_msg field ∈ errors <-> missing record field)
    /\ (forall v, (temperature_msg v ∉ errors) /\ (humidity_msg v ∉ errors)
                 /\ (wind_speed_msg v ∉ errors)
                 /\ (pressure_msg v ∉ errors)).
Proof.
  intros (f & Hf & Hm).
  assert (missing_fields record <> []) as Hne.
  { intros E. pose proof (filter_nil_false _ _ _ E Hf) as Hn.
    by rewrite Hn in Hm. }
  eexists. split; [by apply validate_record_short_circuit |].
  split; [done |].
  split; [apply NoDup_fmap_2; [apply missing_msg_inj | apply missing_fields_NoDup] |].
  split; [by rewrite length_fmap |].
  split.
  - intros g Hg. rewrite list_elem_of_fmap. unfold missing_fields.
    split.
    + intros (g' & E & Hin). apply missing_msg_inj in E as ->.
      by apply list_elem_of_filter in Hin as [? _].
    + intros Hg'. exists g. split; [done |].
      by apply list_elem_of_filter.
  - intros v. repeat split; intros Hin;
      apply list_elem_of_fmap in Hin as (g & E & _);
      unfold missing_msg in E; by simplify_eq/=.
Qed.


Lemma weather_batch_returns_inv records s :
  validate_batch records = Ok s ->
  Forall (fun r => exists b errs, validate_record r = Ok (b, errs)) records.
Proof.
  unfold validate_batch. intros E.
  destruct (for_each validate_batch_step ([], []) records) as [acc|] eqn:El;
    [|done].
  eapply loop_returns_inv; eauto using weather_step_sorts, weather_step_passes_on.
Qed.

Lemma weather_batch_partitions records :
  Forall (fun r => exists b errs, validate_record r = Ok (b, errs)) records ->
  exists s, validate_batch records = Ok s
            /\ partitions validate_record records s.
Proof.
  intros Hall.
  destruct (batch_summary validate_record validate_batch_step records)
    as (valid & invalid & E & Hp); [apply weather_step_sorts | done |].
  eexists. split; [|exact Hp]. unfold validate_batch. by rewrite E.
Qed.


End ValidatorProperties.

(** ** The production table under upsert *)

Section UpsertProperties.

Lemma do_update_same_key old new :
  metric_key old = metric_key new -> do_update old new = new.
Proof.
  destruct old, new. unfold metric_key, do_update. simpl.
  by intros [= -> -> ->].
Qed.


Lemma keys_upsert new table :
  keys (upsert new table)
  = if decide (metric_key new ∈ keys table) then keys table
    else keys table ++ [metric_key new].
Proof.
  induction table as [|old table IH].
  - done.
  - simpl. unfold conflicts. case_bool_decide as Hk; simpl.
    + rewrite decide_True by (rewrite <- Hk; apply list_elem_of_here).
      by rewrite (do_update_same_key _ _ Hk), Hk.
    + fold (keys table). fold (keys (upsert new table)). rewrite IH.
      destruct (decide (metric_key new ∈ keys table)) as [Hin|Hin].
      * by rewrite decide_True by (by apply list_elem_of_further).
      * rewrite decide_False; [done |].
        rewrite elem_of_cons. intros [E|?]; [by rewrite E in Hk | done].
Qed.


Lemma row_of_upsert k new table :
  row_of k (upsert new table)
  = if decide (metric_key new = k) then Some new else row_of k table.
Proof.
  induction table as [|old table IH]; simpl; [done |].
  unfold conflicts. case_bool_decide as Hk; simpl.
  - rewrite (do_update_same_key _ _ Hk), Hk. by case_decide.
  - rewrite IH. repeat case_decide; congruence.
Qed.







Lemma row_of_upserts k rows table :
  row_of k (upserts rows table) = settle k rows (row_of k table).
Proof.
  revert table. induction rows as [|r rows IH]; intros table; [done |].
  simpl. unfold settle in *. simpl. by rewrite IH, row_of_upsert.
Qed.








End UpsertProperties.

(** ** The transformer and the orchestrator *)

Section PipelineProperties.
Context {RT : Runtime} {EG : Engine}.

Import WeatherDataValidator WeatherTransformer Main.

(** *** The connection *)

Lemma execute_query_accepted stmt w :
  (forall sql, stmt <> Malformed sql) ->
  rejects stmt (db w) = None ->
  execute_query stmt w
  = (Ok (run_statement stmt (clock w) (db w)).1,
     {| db := (run_statement stmt (clock w) (db w)).2;
        clock := S (clock w) |}).
Proof.
  intros Hs Hr. unfold execute_query. rewrite Hr.
  destruct stmt; try by destruct (run_statement _ _ _).
  by destruct (Hs sql).
Qed.

Lemma execute_query_raises stmt w e w' :
  execute_query stmt w = (Raise e, w') -> w' = w.
Proof.
  unfold execute_query.
  destruct stmt;
    repeat match goal with
           | |- context [rejects ?s ?d] => destruct (rejects s d)
           | |- context [run_statement ?s ?t ?d] =>
               destruct (run_statement s t d)
           end; congruence.
Qed.

(** *** [transform_record] *)

Lemma transform_record_unfold staging_record w :
  transform_record staging_record w
  = match transformed staging_record with
    | Ok production_record => (Ok (production_record (clock w)), tick w)
    | Raise e => (Raise e, w)
    end.
Proof.
  unfold transform_record, transformed.
  destruct (getitem staging_record "city" ≫= upper); [|reflexivity].
  destruct (getitem staging_record "country"); [|reflexivity].
  destruct (getitem staging_record "temperature" ≫= round1); [|reflexivity].
  destruct (getitem staging_record "feels_like" ≫= round1); [|reflexivity].
  destruct (getitem staging_record "humidity"); [|reflexivity].
  destruct (getitem staging_record "pressure"); [|reflexivity].
  destruct (getitem staging_record "weather_condition" ≫= lower);
    [|reflexivity].
  destruct (getitem staging_record "wind_speed" ≫= round1); [|reflexivity].
  destruct (getitem staging_record "extracted_at"); reflexivity.
Qed.

(** A transform that raises leaves the world as it was. *)
Lemma transform_record_raises staging_record w e w' :
  transform_record staging_record w = (Raise e, w') ->
  transformed staging_record = Raise e /\ w' = w.
Proof.
  rewrite transform_record_unfold.
  destruct (transformed staging_record); by intros [= <- <-].
Qed.



(** A record without a usable [feels_like] or [weather_condition] makes
    [transform_record] raise. *)
Lemma transformed_missing_optional staging_record :
  missing staging_record "feels_like"
  \/ missing staging_record "weather_condition" ->
  exists e, transformed staging_record = Raise e.
Proof.
  intros Hm. unfold transformed.
  destruct (getitem staging_record "city" ≫= upper); [|by eexists].
  destruct (getitem staging_record "country"); [|by eexists].
  destruct (getitem staging_record "temperature" ≫= round1); [|by eexists].
  simpl.
  destruct (getitem staging_record "feels_like" ≫= round1) eqn:Ef;
    [|by eexists].
  destruct (getitem staging_record "humidity"); [|by eexists].
  destruct (getitem staging_record "pressure"); [|by eexists].
  simpl.
  destruct (getitem staging_record "weather_condition" ≫= lower) eqn:Ew;
    [|by eexists].
  exfalso. unfold missing, getitem in *.
  destruct Hm as [Hm|Hm].
  - destruct (staging_record !! "feels_like") as [[]|]; by simplify_eq/=.
  - destruct (staging_record !! "weather_condition") as [[]|];
      by simplify_eq/=.
Qed.

(** *** The transform loop *)

Lemma transform_loop_skips record rest acc w e :
  transform_record record w = (Raise e, w) ->
  transform_loop acc (record :: rest) w = transform_loop acc rest w.
Proof.
  intros E. simpl. unfold mbind at 1, M_bind, try_except.
  unfold mbind at 1, M_bind. by rewrite E.
Qed.

(** *** Reasoning about code on the connection *)

Lemma bind_run {A B} (m : M A) (k : A -> M B) w :
  (m ≫= k) w
  = match m w with
    | (Ok a, w') => k a w'
    | (Raise e, w') => (Raise e, w')
    end.
Proof. reflexivity. Qed.

Lemma bind_ok {A B} (m : M A) (k : A -> M B) w a w' :
  m w = (Ok a, w') -> (m ≫= k) w = k a w'.
Proof. intros E. by rewrite bind_run, E. Qed.


Section Preserves.
Context (P : database -> Prop).

Lemma preserves_ret {A} (a : A) : preserves P (mret a).
Proof. by intros w r w' [= <- <-]. Qed.

Lemma preserves_lift {A} (r : result A) : preserves P (lift r).
Proof. by intros w r' w' [= <- <-]. Qed.

Lemma preserves_throw {A} e : preserves P (@throw A e).
Proof. by intros w r' w' [= <- <-]. Qed.

Lemma preserves_now : preserves P datetime_now.
Proof. by intros w r' w' [= <- <-]. Qed.

Lemma preserves_bind {A B} (m : M A) (k : A -> M B) :
  preserves P m -> (forall a, preserves P (k a)) -> preserves P (m ≫= k).
Proof.
  intros Hm Hk w r w'. rewrite bind_run.
  destruct (m w) as [[a|e] w1] eqn:E.
  - intros E' HP. eapply Hk; [exact E' |]. by eapply Hm.
  - intros [= <- <-] HP. by eapply Hm.
Qed.

Lemma preserves_try {A} (body : M A) (handler : exn -> M A) :
  preserves P body -> (forall e, preserves P (handler e)) ->
  preserves P (try_except body handler).
Proof.
  intros Hb Hh w r w'. unfold try_except.
  destruct (body w) as [[a|e] w1] eqn:E.
  - intros [= <- <-] HP. by eapply Hb.
  - intros E' HP. eapply Hh; [exact E' |]. by eapply Hb.
Qed.

Lemma preserves_execute stmt :
  (forall t d, P d -> P (run_statement stmt t d).2) ->
  preserves P (execute_query stmt).
Proof.
  intros Hs w r w'. unfold execute_query.
  destruct stmt;
    repeat match goal with
           | |- context [rejects ?s ?d] => destruct (rejects s d)
           end;
    try (intros [= <- <-]; done);
    match goal with
    | |- context [run_statement ?s ?t ?d] =>
        specialize (Hs t d); destruct (run_statement s t d)
    end; intros [= <- <-] HP; by apply Hs.
Qed.

End Preserves.

Lemma returns_try_default {A} (body : M A) (a : A) :
  returns (try_except body (fun _ => mret a)).
Proof.
  intros w. unfold try_except.
  destruct (body w) as [[a'|e] w1]; by eauto.
Qed.

Lemma returns_bind {A B} (m : M A) (k : A -> M B) :
  returns m -> (forall a, returns (k a)) -> returns (m ≫= k).
Proof.
  intros Hm Hk w. destruct (Hm w) as (a & w1 & E).
  rewrite (bind_ok _ _ _ _ _ E). apply Hk.
Qed.

Ltac preserve_step :=
  repeat first
    [ apply preserves_ret | apply preserves_lift | apply preserves_throw
    | apply preserves_now
    | apply preserves_bind; [|intros ?]
    | apply preserves_try; [|intros ?]
    | apply preserves_execute ].

(** *** The staging loader of main.py *)



Lemma stage_loop_returns run_id data n : returns (stage_loop run_id n data).
Proof.
  revert n. induction data as [|record rest IH]; intros n; simpl.
  - intros w. by eauto.
  - apply returns_bind; [apply returns_try_default | intros n'; apply IH].
Qed.

(** *** The error log *)


Lemma log_loop_returns run_id invalid n : returns (log_loop run_id n invalid).
Proof.
  revert n. induction invalid as [|entry rest IH]; intros n; simpl.
  - intros w. by eauto.
  - apply returns_bind; [apply returns_try_default | intros n'; apply IH].
Qed.

(** *** The transformer *)

Lemma transform_loop_preserves (P : database -> Prop) staging acc :
  preserves P (transform_loop acc staging).
Proof.
  revert acc. induction staging as [|record rest IH]; intros acc; simpl.
  - apply preserves_ret.
  - apply preserves_bind; [|intros acc'; apply IH].
    unfold transform_record. preserve_step.
Qed.

Lemma load_loop_preserves (P : database -> Prop) records n :
  (forall row t d, P d -> P (run_statement (UpsertMetric row) t d).2) ->
  preserves P (load_loop n records).
Proof.
  intros HP. revert n. induction records as [|record rest IH]; intros n; simpl.
  - apply preserves_ret.
  - apply preserves_bind; [|intros n'; apply IH].
    unfold load_one. preserve_step. apply HP.
Qed.

Lemma transform_and_load_preserves (P : database -> Prop) run_id :
  (forall row t d, P d -> P (run_statement (UpsertMetric row) t d).2) ->
  preserves P (transform_and_load run_id).
Proof.
  intros HP. unfold transform_and_load, get_staging_records.
  apply preserves_bind; [preserve_step; by intros |].
  intros staging. case_bool_decide; [apply preserves_ret |].
  apply preserves_bind; [apply transform_loop_preserves |].
  intros records. apply preserves_bind; [|intros; apply preserves_ret].
  by apply load_loop_preserves.
Qed.

Lemma transform_to_production_preserves (P : database -> Prop) run_id :
  (forall row t d, P d -> P (run_statement (UpsertMetric row) t d).2) ->
  preserves P (transform_to_production run_id).
Proof.
  intros HP. unfold transform_to_production.
  apply preserves_bind; [by apply transform_and_load_preserves |].
  intros stats. preserve_step.
Qed.

Lemma select_staging_empty run_id d :
  staged_for run_id d = [] -> select_staging run_id d = [].
Proof. unfold select_staging, staged_for. by intros ->. Qed.

Lemma get_staging_records_accepted run_id w :
  rejects (SelectStaging run_id) (db w) = None ->
  get_staging_records run_id w
  = (Ok (select_staging run_id (db w)), tick w).
Proof.
  intros Hr. unfold get_staging_records.
  by rewrite bind_run, execute_query_accepted.
Qed.

Lemma transform_and_load_empty run_id w :
  rejects (SelectStaging run_id) (db w) = None ->
  staged_for run_id (db w) = [] ->
  transform_and_load run_id w = (Ok empty_run_stats, tick w).
Proof.
  intros Hr He. unfold transform_and_load, get_staging_records.
  rewrite !bind_run, execute_query_accepted by done. simpl.
  by rewrite (select_staging_empty _ _ He).
Qed.

(** The orchestrator reads the two counts under the names of the
    non-empty case, which the empty case does not use. *)
Lemma transform_to_production_empty run_id w :
  rejects (SelectStaging run_id) (db w) = None ->
  staged_for run_id (db w) = [] ->
  transform_to_production run_id w
  = (Raise (KeyError "records_transformed"), tick w).
Proof.
  intros Hr He. unfold transform_to_production.
  by rewrite bind_run, transform_and_load_empty.
Qed.

(** C6, at the failing input.  For a run with no staged record (and a
    SELECT the engine executes) [transform_and_load] raises nothing, but
    the dictionary it returns has the keys [transformed_count] and
    [loaded_count]: neither [records_transformed] nor [records_loaded] is
    a key of it, and the caller in main.py, which reads them, raises
    [KeyError]. *)
Theorem transform_and_load_empty_run_keys (run_id : nat) (w : world) :
  rejects (SelectStaging run_id) (db w) = None ->
  staged_for run_id (db w) = [] ->
  transform_and_load run_id w
    = (Ok ({[ "transformed_count" := 0%nat; "loaded_count" := 0%nat ]}
             : gmap string nat),
       {| db := db w; clock := S (clock w) |})
  /\ ({[ "transformed_count" := 0%nat; "loaded_count" := 0%nat ]}
        : gmap string nat)
      <> {[ "records_transformed" := 0%nat; "records_loaded" := 0%nat ]}
  /\ ({[ "transformed_count" := 0%nat; "loaded_count" := 0%nat ]}
        : gmap string nat) !! "records_transformed" = None
  /\ ({[ "transformed_count" := 0%nat; "loaded_count" := 0%nat ]}
        : gmap string nat) !! "records_loaded" = None
  /\ transform_to_production run_id w
      = (Raise (KeyError "records_transformed"),
         {| db := db w; clock := S (clock w) |}).
Proof.
  intros Hr He.
  split; [by apply transform_and_load_empty |].
  split; [|split; [done | split; [done |]]].
  - intros E.
    assert (({[ "transformed_count" := 0%nat; "loaded_count" := 0%nat ]}
               : gmap string nat) !! "records_loaded" = Some 0%nat) as Hl
      by (by rewrite E).
    done.
  - by apply transform_to_production_empty.
Qed.

(** *** The staging loaders *)

Lemma stage_one_unfold run_id n record w :
  stage_one run_id n record w
  = match staging_params record run_id with
    | Ok row =>
        match rejects (InsertStaging row) (db w) with
        | None => (Ok (n + 1)%nat, after (InsertStaging row) w)
        | Some _ => (Ok n, w)
        end
    | Raise _ => (Ok n, w)
    end.
Proof.
  unfold stage_one, staging_params, try_except.
  destruct (getitem record "city"); [|reflexivity].
  destruct (getitem record "country"); [|reflexivity].
  destruct (getitem record "temperature"); [|reflexivity].
  destruct (getitem record "feels_like"); [|reflexivity].
  destruct (getitem record "humidity"); [|reflexivity].
  destruct (getitem record "pressure"); [|reflexivity].
  destruct (getitem record "weather_condition"); [|reflexivity].
  destruct (getitem record "wind_speed"); [|reflexivity].
  destruct (getitem record "raw_data" ≫= json_dumps); [|reflexivity].
  cbv [mbind M_bind lift mret M_ret execute_query after result_bind].
  by destruct (rejects _ _).
Qed.

(** [load_weather_data] goes through the whole batch: a record that fails
    changes nothing and the loop goes on with the rest; one that is
    inserted adds one row and one to the count. *)
Lemma load_weather_data_counts data run_id w :
  exists n w',
    load_weather_data data run_id w = (Ok n, w')
    /\ (n <= length data)%nat
    /\ length (stg_weather_data (db w'))
        = (length (stg_weather_data (db w)) + n)%nat.
Proof.
  unfold load_weather_data.
  assert (forall k w, exists n w',
            stage_loop run_id k data w = (Ok (k + n)%nat, w')
            /\ (n <= length data)%nat
            /\ length (stg_weather_data (db w'))
                = (length (stg_weather_data (db w)) + n)%nat) as Hgen.
  { clear w. induction data as [|record rest IH]; intros k w; simpl.
    - exists 0%nat, w. by rewrite !Nat.add_0_r.
    - rewrite bind_run, stage_one_unfold.
      destruct (staging_params record run_id) as [row|e].
      + destruct (rejects (InsertStaging row) (db w)).
        * destruct (IH k w) as (n & w' & E & Hn & Hl).
          exists n, w'. split; [done | split; [lia | done]].
        * destruct (IH (k + 1)%nat (after (InsertStaging row) w))
            as (n & w' & E & Hn & Hl).
          exists (S n), w'. rewrite E. split; [f_equal; f_equal; lia |].
          split; [lia |]. rewrite Hl. simpl. rewrite length_app. simpl. lia.
      + destruct (IH k w) as (n & w' & E & Hn & Hl).
        exists n, w'. split; [done | split; [lia | done]]. }
  destruct (Hgen 0%nat w) as (n & w' & E & Hn & Hl). by exists n, w'.
Qed.

Lemma load_weather_data_continues record rest run_id w :
  staging_fails record run_id (db w) ->
  load_weather_data (record :: rest) run_id w
  = load_weather_data rest run_id w.
Proof.
  intros Hfail. unfold load_weather_data. cbn [stage_loop].
  rewrite bind_run, stage_one_unfold. unfold staging_fails in Hfail.
  destruct (staging_params record run_id) as [row|]; [|done].
  by destruct Hfail as [msg ->].
Qed.

Lemma weather_loader_insert_raises record run_id w :
  exists e, WeatherLoader.insert_record record run_id w = (Raise e, w).
Proof.
  unfold WeatherLoader.insert_record.
  destruct (getitem record "city"); [|by eexists].
  destruct (getitem record "country"); [|by eexists].
  destruct (getitem record "temperature"); [|by eexists].
  destruct (getitem record "feels_like"); [|by eexists].
  destruct (getitem record "humidity"); [|by eexists].
  destruct (getitem record "pressure"); [|by eexists].
  destruct (getitem record "weather_condition"); [|by eexists].
  destruct (getitem record "wind_speed"); [|by eexists].
  destruct (getitem record "raw_data"); [|by eexists].
  cbv [mbind M_bind lift mret M_ret execute_query].
  destruct (json_dumps _); by eexists.
Qed.

(** C7, at the failing input.  [WeatherLoader.load] leaves its loop at
    the end of the first iteration: on a batch of a record and any
    further records it returns what it returns on the first record alone,
    the further records are never tried, and since its statement cannot
    be parsed nothing is inserted and the count is 0; on an empty batch
    it returns [None]. *)
Theorem weather_loader_returns_after_first_record
    (record : pydict) (rest : list pydict) (run_id : nat) (w : world) :
  WeatherLoader.load (record :: rest) run_id w
    = WeatherLoader.load [record] run_id w
  /\ WeatherLoader.load (record :: rest) run_id w = (Ok (Some 0%nat), w)
  /\ WeatherLoader.load [] run_id w = (Ok None, w).
Proof.
  split; [done |]. split; [|done].
  unfold WeatherLoader.load. rewrite bind_run. unfold try_except.
  rewrite bind_run.
  destruct (weather_loader_insert_raises record run_id w) as [e ->].
  done.
Qed.

(** *** The run record *)



(** *** The orchestrator *)



Lemma transform_to_production_keeps_runs run_id w r w' :
  transform_to_production run_id w = (r, w') ->
  pipeline_runs (db w') = pipeline_runs (db w).
Proof.
  intros E.
  by eapply (transform_to_production_preserves
               (same_runs (pipeline_runs (db w)))); [| exact E |].
Qed.



Lemma run_failure_exits extraction run_id e (w w0 w1 : world) :
  connect_error = None ->
  create_pipeline_run "weather_api" w = (Ok run_id, w0) ->
  pipeline_steps extraction run_id w0 = (Raise e, w1) ->
  (run_weather_extraction extraction w).1 = SysExit 1.
Proof.
  intros Hconn Hcreate Hsteps.
  unfold run_weather_extraction. rewrite Hconn.
  unfold run_scope. rewrite (bind_ok _ _ _ _ _ Hcreate).
  unfold try_except. rewrite Hsteps, bind_run.
  destruct (update_pipeline_run _ _ _ _ _ _) as [[[]|e'] w']; done.
Qed.



(** *** Promotion to the production table *)

(** A transformed record has the ten keys of the upsert; its row depends
    on the promotion time only through [loaded_at]. *)
Lemma transformed_rows staging_record production_record :
  transformed staging_record = Ok production_record ->
  exists row : nat -> metric_row,
    (forall t, metric_of (production_record t) = Ok (row t))
    /\ (forall t, erase (row t) = erase (row 0%nat)).
Proof.
  unfold transformed.
  destruct (getitem staging_record "city" ≫= upper) as [city|]; [|done].
  destruct (getitem staging_record "country") as [country|]; [|done].
  destruct (getitem staging_record "temperature" ≫= round1)
    as [temperature|]; [|done].
  destruct (getitem staging_record "feels_like" ≫= round1)
    as [feels_like|]; [|done].
  destruct (getitem staging_record "humidity") as [humidity|]; [|done].
  destruct (getitem staging_record "pressure") as [pressure|]; [|done].
  destruct (getitem staging_record "weather_condition" ≫= lower)
    as [weather_condition|]; [|done].
  destruct (getitem staging_record "wind_speed" ≫= round1)
    as [wind_speed|]; [|done].
  destruct (getitem staging_record "extracted_at") as [recorded_at|];
    [|done].
  intros [= <-].
  exists (fun t =>
            {| m_city := city; m_country := country;
               m_temperature := temperature; m_feels_like := feels_like;
               m_humidity := humidity; m_pressure := pressure;
               m_weather_condition := weather_condition;
               m_wind_speed := wind_speed; m_recorded_at := recorded_at;
               m_loaded_at := VTime t |}).
  split; intros t; reflexivity.
Qed.

(** The transform loop never raises, leaves the tables alone, and hands
    on exactly the records whose transform returned, in order. *)
Lemma transform_loop_spec staging acc w :
  exists production w' rows,
    transform_loop acc staging w = (Ok (acc ++ production), w')
    /\ db w' = db w
    /\ Forall2 row_for production rows
    /\ erase <$> rows = omap promoted staging.
Proof.
  revert acc w. induction staging as [|record rest IH]; intros acc w.
  - exists [], w, []. simpl. rewrite app_nil_r. by repeat split.
  - assert (omap promoted (record :: rest)
            = match promoted record with
              | Some row => row :: omap promoted rest
              | None => omap promoted rest
              end) as Ho by done.
    rewrite Ho. clear Ho.
    cbn [transform_loop]. rewrite bind_run. unfold try_except.
    rewrite bind_run, transform_record_unfold.
    destruct (transformed record) as [mk|e] eqn:Et.
    + destruct (transformed_rows _ _ Et) as (row & Hrow & Herase).
      assert (promoted record = Some (erase (row 0%nat))) as ->
        by (unfold promoted; by rewrite Et, Hrow).
      destruct (IH (acc ++ [mk (clock w)]) (tick w))
        as (production & w' & rows & E & Hdb & Hrows & Hp).
      exists (mk (clock w) :: production), w', (row (clock w) :: rows).
      cbn [mret M_ret]. rewrite E, <- app_assoc.
      rewrite fmap_cons, Herase, Hp.
      repeat split; try done. constructor; [apply Hrow | done].
    + assert (promoted record = None) as ->
        by (unfold promoted; by rewrite Et).
      destruct (IH acc w) as (production & w' & rows & E & Hdb & Hrows & Hp).
      exists production, w', rows. cbn [mret M_ret]. by rewrite E.
Qed.

Lemma load_loop_accepting production rows n w :
  accepts_all ->
  Forall2 row_for production rows ->
  exists w',
    load_loop n production w = (Ok (n + length production)%nat, w')
    /\ weather_metrics (db w') = upserts rows (weather_metrics (db w))
    /\ stg_weather_data (db w') = stg_weather_data (db w).
Proof.
  intros Hacc Hrows. revert n w.
  induction Hrows as [|record row production rows Hrow _ IH]; intros n w.
  - exists w. simpl. by rewrite Nat.add_0_r.
  - simpl. rewrite bind_run.
    assert (load_one n record w
            = (Ok (n + 1)%nat, after (UpsertMetric row) w)) as ->.
    { unfold load_one, try_except. rewrite bind_run.
      unfold lift. rewrite Hrow. rewrite bind_run.
      by rewrite execute_query_accepted. }
    destruct (IH (n + 1)%nat (after (UpsertMetric row) w))
      as (w' & E & Hm & Hs).
    exists w'. rewrite E, Hm, Hs. simpl.
    repeat split; try done. do 2 f_equal. lia.
Qed.

Lemma transform_and_load_accepting run_id w :
  accepts_all ->
  exists stats w' rows,
    transform_and_load run_id w = (Ok stats, w')
    /\ stg_weather_data (db w') = stg_weather_data (db w)
    /\ production_table w' = upserts rows (production_table w)
    /\ erase <$> rows = omap promoted (select_staging run_id (db w))
    /\ stats
        = if bool_decide (select_staging run_id (db w) = [])
          then empty_run_stats
          else {[ "records_transformed" := length rows;
                  "records_loaded" := length rows ]}.
Proof.
  intros Hacc. unfold transform_and_load.
  rewrite (bind_ok _ _ _ _ _ (get_staging_records_accepted _ _ (Hacc _ _))).
  case_bool_decide as Hs.
  - exists empty_run_stats, (tick w), []. rewrite Hs. by repeat split.
  - destruct (transform_loop_spec (select_staging run_id (db w)) [] (tick w))
      as (production & w1 & rows & E & Hdb & Hrows & Hp).
    rewrite (bind_ok _ _ _ _ _ E).
    destruct (load_loop_accepting production rows 0%nat w1 Hacc Hrows)
      as (w2 & E2 & Hm & Hst).
    unfold load_to_production. rewrite (bind_ok _ _ _ _ _ E2).
    exists ({[ "records_transformed" := length production;
               "records_loaded" := length production ]}), w2, rows.
    rewrite Hm, Hst, Hdb, app_nil_l, Nat.add_0_l.
    by rewrite (Forall2_length _ _ _ Hrows).
Qed.






(** A run whose only staged row has no usable [feels_like] or
    [weather_condition]: the transform raises, the row is left out, and
    the run reports zero records with the keys of the non-empty case. *)
Lemma transform_and_load_drops run_id w row :
  rejects (SelectStaging run_id) (db w) = None ->
  staged_for run_id (db w) = [row] ->
  missing (row_dict row) "feels_like"
  \/ missing (row_dict row) "weather_condition" ->
  transform_and_load run_id w
  = (Ok ({[ "records_transformed" := 0%nat; "records_loaded" := 0%nat ]}
           : gmap string nat),
     tick w).
Proof.
  intros Hr Hs Hm. unfold transform_and_load.
  rewrite (bind_ok _ _ _ _ _ (get_staging_records_accepted _ _ Hr)).
  assert (select_staging run_id (db w) = [row_dict row]) as ->.
  { unfold select_staging. fold (staged_for run_id (db w)). by rewrite Hs. }
  rewrite bool_decide_false by done.
  destruct (transformed_missing_optional _ Hm) as [e He].
  assert (transform_record (row_dict row) (tick w) = (Raise e, tick w)) as Ht
    by (by rewrite transform_record_unfold, He).
  assert (transform_loop [] [row_dict row] (tick w) = (Ok [], tick w)) as Hl
    by (by rewrite (transform_loop_skips _ _ _ _ _ Ht)).
  by rewrite (bind_ok _ _ _ _ _ Hl).
Qed.

(** C10. The validator accepts records on which [transform_record]
    raises: any record with the six required fields present and in range
    whose [feels_like] or [weather_condition] is absent or null, such as
    the record of the fixture.  In [transform_and_load] the exception is
    caught: the loop goes on as if the record were not there, and a run
    staging only such a record promotes nothing and reports zero records,
    the error log and the validation summary never hearing of it. *)
Theorem valid_record_can_fail_transform :
  (exists record,
     validate_record record = Ok (true, [])
     /\ forall w, exists e, transform_record record w = (Raise e, w))
  /\ (forall record errors w,
        validate_record record = Ok (true, errors) ->
        missing record "feels_like" \/ missing record "weather_condition" ->
        exists e, transform_record record w = (Raise e, w))
  /\ (forall record rest acc w e,
        transform_record record w = (Raise e, w) ->
        transform_loop acc (record :: rest) w = transform_loop acc rest w)
  /\ (forall run_id w row,
        rejects (SelectStaging run_id) (db w) = None ->
        staged_for run_id (db w) = [row] ->
        missing (row_dict row) "feels_like"
        \/ missing (row_dict row) "weather_condition" ->
        transform_and_load run_id w
        = (Ok ({[ "records_transformed" := 0%nat;
                  "records_loaded" := 0%nat ]} : gmap string nat),
           {| db := db w; clock := S (clock w) |})).
Proof.
  assert (forall record w,
            missing record "feels_like" \/ missing record "weather_condition" ->
            exists e, transform_record record w = (Raise e, w)) as Hraise.
  { intros record w Hm. destruct (transformed_missing_optional _ Hm) as [e He].
    exists e. by rewrite transform_record_unfold, He. }
  split; [|split; [|split]].
  - exists Fixture.no_feels_like. split.
    + rewrite (validate_record_in_range_checks Fixture.no_feels_like
                 (VStr "asuncion") (VStr "PY")
                 (Q2Qc (251 # 10)) (Q2Qc (50 # 1)) (Q2Qc (1013 # 1))
                 (Q2Qc (5 # 1))) by done.
      by vm_compute.
    + intros w. apply Hraise. by left.
  - intros record errors w _. apply Hraise.
  - intros record rest acc w e. apply transform_loop_skips.
  - apply transform_and_load_drops.
Qed.

End PipelineProperties.

(** * The properties on the fixtures *)


Lemma run_returned {A} (default : A) (p : result A * world) :
  Fixture.is_ok p.1 = true -> p = (Ok (Fixture.returned default p.1), p.2).
Proof. by destruct p as [[] ?]. Qed.

(** The validator's own self-test record with a null country. *)
Lemma validate_record_reports_only_missing_fields_witness :
  (exists field, field ∈ WeatherDataValidator.required_fields
                 /\ WeatherDataValidator.missing Fixture.null_city field)
  /\ @WeatherDataValidator.validate_record Fixture.runtime Fixture.null_city
     = Ok (false, ["Missing or null field: country"]).
Proof.
  assert (exists field, field ∈ WeatherDataValidator.required_fields
                        /\ WeatherDataValidator.missing Fixture.null_city field)
    as H.
  { exists "country". split; [|by vm_compute].
    repeat first [apply list_elem_of_here | apply list_elem_of_further]. }
  split; [exact H |].
  destruct (validate_record_reports_only_missing_fields
              (RT := Fixture.runtime) Fixture.null_city H)
    as (errors & E & -> & _).
  rewrite E. by vm_compute.
Defined.





(** A run with nothing staged, on an empty database. *)
Lemma transform_and_load_empty_run_keys_witness :
  staged_for 7 (db Fixture.start) = []
  /\ (@WeatherTransformer.transform_and_load Fixture.runtime Fixture.accepting
        7 Fixture.start).1
     = Ok {[ "transformed_count" := 0%nat; "loaded_count" := 0%nat ]}
  /\ (@Main.transform_to_production Fixture.runtime Fixture.accepting
        7 Fixture.start).1
     = Raise (KeyError "records_transformed").
Proof.
  split; [reflexivity |].
  destruct (transform_and_load_empty_run_keys
              (RT := Fixture.runtime) (EG := Fixture.accepting)
              7 Fixture.start) as (E & _ & _ & _ & E');
    [reflexivity | reflexivity |].
  by rewrite E, E'.
Defined.




(** * Further properties *)

(** ** What the validators accept, and when they raise *)

Section AcceptanceProperties.
Context {RT : Runtime}.

Import WeatherDataValidator.

Lemma range_errors_nil t h p w :
  range_errors t h p w = []
  <-> temperature_in_range t /\ humidity_in_range h
      /\ pressure_in_range p /\ wind_speed_in_range w.
Proof.
  unfold range_errors, complaint.
  destruct (decide (temperature_in_range t)),
    (decide (humidity_in_range h)), (decide (wind_speed_in_range w)),
    (decide (pressure_in_range p)); simpl; split;
    first [discriminate | tauto | intros _; tauto].
Qed.


Lemma holds_of_not_missing record field :
  missing record field = false -> holds record field.
Proof. apply not_missing_present. Qed.

Lemma range_check_raises record field violated msg errors v e :
  record !! field = Some v -> v <> VNone ->
  violated v = Raise e ->
  range_check record field violated msg errors = Raise e.
Proof.
  intros E Hv Hr. unfold range_check, get. rewrite E. cbn [default].
  destruct v; try done; cbn [id is_none]; by rewrite Hr.
Qed.

(** With its six fields in place a record is either compared as four
    numbers or raises at the first measurement that is not one. *)
Lemma validate_record_complete record :
  missing_fields record = [] ->
  (exists t h p w,
     record !! "temperature" = Some (VNum t)
     /\ record !! "humidity" = Some (VNum h)
     /\ record !! "pressure" = Some (VNum p)
     /\ record !! "wind_speed" = Some (VNum w)
     /\ first_non_number record = None)
  \/ (exists op v,
        first_non_number record = Some (op, v)
        /\ validate_record record = Raise (TypeError op v)).
Proof.
  intros Hm.
  pose proof (no_missing_fields _ Hm) as Hf.
  unfold required_fields in Hf.
  repeat (apply list.Forall_cons in Hf as [?%not_missing_present Hf]).
  destruct H as (city & Ec & Hc), H0 as (country & Eo & Ho),
    H1 as (vt & Et & Ht), H2 as (vh & Eh & Hh), H3 as (vp & Ep & Hp),
    H4 as (vw & Ew & Hw).
  unfold validate_record. rewrite missing_loop. fold (missing_fields record).
  rewrite Hm. cbn [fmap list_fmap app bool_decide negb].
  rewrite bool_decide_true by done. cbn [negb].
  assert (Hn : first_non_number record
               = head (omap (fun '(op, v) =>
                               if is_number v then None else Some (op, v))
                            [("<=", vt); ("<=", vh); ("<", vw); ("<", vp)])).
  { unfold first_non_number, comparisons. cbn [omap list_omap].
    rewrite Et, Eh, Ep, Ew.
    destruct vt; try done; destruct vh; try done;
      destruct vw; try done; by destruct vp. }
  rewrite Hn. clear Hn.
  destruct (is_number vt) eqn:Nt;
    [destruct vt as [| |t| |]; try done
    |right; eexists _, _; split; [by cbn; rewrite Nt|];
     rewrite (range_check_raises _ _ _ _ _ _ (TypeError "<=" vt) Et Ht);
     [done|by destruct vt]].
  rewrite (range_check_number _ _ _ _ _ _ _ Et (temperature_test t)).
  cbn [mbind result_bind].
  destruct (is_number vh) eqn:Nh;
    [destruct vh as [| |h| |]; try done
    |right; eexists _, _; split; [by cbn; rewrite Nh|];
     rewrite (range_check_raises _ _ _ _ _ _ (TypeError "<=" vh) Eh Hh);
     [done|by destruct vh]].
  rewrite (range_check_number _ _ _ _ _ _ _ Eh (humidity_test h)).
  cbn [mbind result_bind].
  destruct (is_number vw) eqn:Nw;
    [destruct vw as [| |ws| |]; try done
    |right; eexists _, _; split; [by cbn; rewrite Nw|];
     rewrite (range_check_raises _ _ _ _ _ _ (TypeError "<" vw) Ew Hw);
     [done|by destruct vw]].
  rewrite (range_check_number _ _ _ _ _ _ _ Ew (wind_speed_test ws)).
  cbn [mbind result_bind].
  destruct (is_number vp) eqn:Np;
    [destruct vp as [| |p| |]; try done
    |right; eexists _, _; split; [by cbn; rewrite Np|];
     rewrite (range_check_raises _ _ _ _ _ _ (TypeError "<" vp) Ep Hp);
     [done|by destruct vp]].
  left. exists t, h, p, ws. split_and!; [exact Et|exact Eh|exact Ep|exact Ew|reflexivity].
Qed.

Lemma validate_record_accepted record :
  validate_record record = Ok (true, []) <-> well_formed record.
Proof.
  split.
  - intros Hv.
    destruct (decide (missing_fields record = [])) as [Hm|Hm];
      [|by rewrite (validate_record_short_circuit _ Hm) in Hv].
    pose proof (no_missing_fields _ Hm) as Hf.
    unfold required_fields in Hf.
    repeat (apply list.Forall_cons in Hf as [?%holds_of_not_missing Hf]).
    destruct (validate_record_complete _ Hm)
      as [(t & h & p & w & Et & Eh & Ep & Ew & _)|(op & v & _ & E)];
      [|by rewrite E in Hv].
    destruct H as (city & Ec & Hc), H0 as (country & Eo & Ho).
    rewrite (validate_record_in_range_checks _ _ _ _ _ _ _
               Ec Hc Eo Ho Et Eh Ep Ew) in Hv.
    injection Hv as _ Hr. apply range_errors_nil in Hr.
    destruct Hr as (? & ? & ? & ?).
    repeat split; first [by eexists | by eexists _; split].
  - intros ((city & Ec & Hc) & (country & Eo & Ho) & (t & Et & Pt)
            & (h & Eh & Ph) & (p & Ep & Pp) & (w & Ew & Pw)).
    rewrite (validate_record_in_range_checks _ _ _ _ _ _ _
               Ec Hc Eo Ho Et Eh Ep Ew).
    assert (range_errors t h p w = []) as -> by by apply range_errors_nil.
    done.
Qed.

Lemma validate_record_accepts_nil record errors :
  validate_record record = Ok (true, errors) -> errors = [].
Proof. intros Hv. by apply (validate_record_valid_iff _ _ _ Hv). Qed.


(** X2. The weather validator reads the six required fields and nothing
    else: two records that agree on them get the same verdict, errors or
    exception, whatever their other keys hold. *)
Theorem validate_record_reads_required_fields_only (r r' : pydict) :
  (forall field, field ∈ required_fields -> r !! field = r' !! field) ->
  validate_record r = validate_record r'.
Proof.
  intros E.
  assert (E1 := E "city" ltac:(unfold required_fields; set_solver)).
  assert (E2 := E "country" ltac:(unfold required_fields; set_solver)).
  assert (E3 := E "temperature" ltac:(unfold required_fields; set_solver)).
  assert (E4 := E "humidity" ltac:(unfold required_fields; set_solver)).
  assert (E5 := E "pressure" ltac:(unfold required_fields; set_solver)).
  assert (E6 := E "wind_speed" ltac:(unfold required_fields; set_solver)).
  unfold validate_record, range_check, get, missing, required_fields.
  cbn [foldl]. by rewrite E1, E2, E3, E4, E5, E6.
Qed.

(** X3. When the six required fields are present and not null, the
    validator raises exactly when a measurement is not a number: the
    exception is the TypeError of the first such measurement in the order
    temperature, humidity, wind speed, pressure, and no error list is
    returned. *)
Theorem validate_record_raises_on_first_non_number (record : pydict) :
  missing_fields record = [] ->
  match first_non_number record with
  | Some (op, v) => validate_record record = Raise (TypeError op v)
  | None => exists is_valid errors,
              validate_record record = Ok (is_valid, errors)
  end.
Proof.
  intros Hm.
  destruct (validate_record_complete _ Hm)
    as [(t & h & p & w & Et & Eh & Ep & Ew & ->)|(op & v & -> & E)]; [|done].
  pose proof (no_missing_fields _ Hm) as Hf.
  unfold required_fields in Hf.
  repeat (apply list.Forall_cons in Hf as [?%holds_of_not_missing Hf]).
  destruct H as (city & Ec & Hc), H0 as (country & Eo & Ho).
  rewrite (validate_record_in_range_checks _ _ _ _ _ _ _
             Ec Hc Eo Ho Et Eh Ep Ew).
  by eexists _, _.
Qed.

Lemma for_each_app {A S} (body : S -> A -> result S) s l k :
  for_each body s (l ++ k) = s' ← for_each body s l; for_each body s' k.
Proof.
  revert s. induction l as [|x l IH]; intros s; simpl; [done|].
  destruct (body s x); simpl; [apply IH|done].
Qed.

(** X4. A record the validator raises on takes the whole batch with it:
    [validate_batch] raises the same exception and returns no summary,
    however many records before it were sorted and whatever follows. *)
Theorem validate_batch_raises_with_a_record
    (before after : list pydict) (record : pydict) (e : exn) :
  Forall (fun r => exists is_valid errors,
            validate_record r = Ok (is_valid, errors)) before ->
  validate_record record = Raise e ->
  validate_batch (before ++ record :: after) = Raise e.
Proof.
  intros Hb Hr. unfold validate_batch. rewrite for_each_app.
  destruct (partition_loop validate_record validate_batch_step before
              weather_step_sorts Hb [] []) as (valid & invalid & -> & _).
  cbn [mbind result_bind for_each app].
  by rewrite (weather_step_passes_on (valid, invalid) _ _ Hr).
Qed.

End AcceptanceProperties.

Section CsvAcceptanceProperties.
Context {RT : Runtime}.

Import CSVDataValidator.




Lemma csv_validate_record_short_circuit record :
  csv_missing_fields (default ∅ (csv_data record)) <> [] ->
  validate_record record
  = Ok (false,
        missing_msg <$> csv_missing_fields (default ∅ (csv_data record))).
Proof.
  intros Hm. unfold validate_record.
  rewrite (missing_loop (fun f => missing (default ∅ (csv_data record)) f)
             missing_msg required_fields []).
  fold (csv_missing_fields (default ∅ (csv_data record))).
  cbn [app].
  destruct (csv_missing_fields (default ∅ (csv_data record))) eqn:E; done.
Qed.

(** X5. The CSV validator stops at the required fields: when one of the
    six is absent, null or the empty string, the record is rejected with
    one message per such field, in the order of the field list, and no
    format rule is looked at; a record without a row dictionary is
    rejected with all six messages. *)
Theorem csv_validate_record_stops_at_missing_fields
    (record : csv_record) :
  (csv_missing_fields (default ∅ (csv_data record)) <> [] ->
   validate_record record
   = Ok (false,
         missing_msg <$> csv_missing_fields (default ∅ (csv_data record))))
  /\ (csv_data record = None ->
      validate_record record = Ok (false, missing_msg <$> required_fields)).
Proof.
  split; [apply csv_validate_record_short_circuit|].
  intros E. rewrite csv_validate_record_short_circuit; rewrite E; done.
Qed.


End CsvAcceptanceProperties.

(** ** The staging query and the promotion *)

Section PromotionProperties.
Context {RT : Runtime} {EG : Engine}.

Import WeatherTransformer Main.

Lemma insert_by_time_perm r sorted : insert_by_time r sorted ≡ₚ r :: sorted.
Proof.
  induction sorted as [|r' sorted IH]; simpl; [done|].
  case_bool_decide; [|done].
  rewrite IH. apply Permutation_swap.
Qed.

Lemma insert_by_time_sorted r sorted :
  StronglySorted by_extracted_at sorted ->
  StronglySorted by_extracted_at (insert_by_time r sorted).
Proof.
  induction 1 as [|r' sorted Hs IH Hall]; simpl.
  - repeat constructor.
  - case_bool_decide as Hle.
    + constructor; [done|]. rewrite insert_by_time_perm. by constructor.
    + constructor; [by constructor|].
      constructor; [unfold by_extracted_at; lia|].
      eapply list.Forall_impl; [done|].
      unfold by_extracted_at. intros; lia.
Qed.

Lemma order_by_extracted_at_spec rows :
  order_by_extracted_at rows ≡ₚ rows
  /\ StronglySorted by_extracted_at (order_by_extracted_at rows).
Proof.
  unfold order_by_extracted_at.
  assert (forall acc,
            StronglySorted by_extracted_at acc ->
            foldl (fun sorted r => insert_by_time r sorted) acc rows
              ≡ₚ rows ++ acc
            /\ StronglySorted by_extracted_at
                 (foldl (fun sorted r => insert_by_time r sorted) acc rows))
    as Hgen.
  { induction rows as [|r rows IH]; intros acc Hacc; simpl; [done|].
    destruct (IH (insert_by_time r acc)) as [Hp Hs];
      [by apply insert_by_time_sorted|].
    split; [|done]. rewrite Hp, insert_by_time_perm.
    by rewrite Permutation_middle. }
  destruct (Hgen []) as [Hp Hs]; [constructor|].
  split; [by rewrite Hp, app_nil_r | done].
Qed.


Lemma promotable_metric_of_staged r t :
  is_Some (metric_of_staged r t) <-> promotable r.
Proof.
  unfold metric_of_staged, promotable.
  destruct (s_city (stg_values r));
    try (split; [by intros [? [=]] | done]).
  destruct (s_temperature (stg_values r));
    try (split; [by intros [? [=]] | done]).
  destruct (s_feels_like (stg_values r));
    try (split; [by intros [? [=]] | done]).
  destruct (s_weather_condition (stg_values r));
    try (split; [by intros [? [=]] | done]).
  destruct (s_wind_speed (stg_values r));
    split; first [by intros [? [=]] | done | intros _; by eexists].
Qed.

Lemma transformed_staged r :
  match metric_of_staged r 0%nat with
  | Some _ =>
      exists production_record,
        transformed (row_dict r) = Ok production_record
        /\ forall t, Some <$> metric_of (production_record t)
                     = Ok (metric_of_staged r t)
  | None =>
      exists e, transformed (row_dict r) = Raise e
                /\ forall key, e <> KeyError key
  end.
Proof.
  destruct r as [id [city country temp feels hum pres cond ws raw lid] ext].
  unfold transformed, metric_of_staged, getitem.
  change (row_dict _ !! "city") with (Some city).
  change (row_dict _ !! "country") with (Some country).
  change (row_dict _ !! "temperature") with (Some temp).
  change (row_dict _ !! "feels_like") with (Some feels).
  change (row_dict _ !! "humidity") with (Some hum).
  change (row_dict _ !! "pressure") with (Some pres).
  change (row_dict _ !! "weather_condition") with (Some cond).
  change (row_dict _ !! "wind_speed") with (Some ws).
  change (row_dict _ !! "extracted_at") with (Some (VTime ext)).
  cbn [stg_values s_city s_temperature s_feels_like s_weather_condition
       s_wind_speed s_country s_humidity s_pressure extracted_at
       mbind result_bind].
  destruct city as [|city| | |];
    try (eexists; split; [reflexivity|intros ?; discriminate]).
  destruct temp as [| |temp| |];
    try (eexists; split; [reflexivity|intros ?; discriminate]).
  destruct feels as [| |feels| |];
    try (eexists; split; [reflexivity|intros ?; discriminate]).
  destruct cond as [|cond| | |];
    try (eexists; split; [reflexivity|intros ?; discriminate]).
  destruct ws as [| |ws| |];
    try (eexists; split; [reflexivity|intros ?; discriminate]).
  eexists. split; [reflexivity|]. intros t. reflexivity.
Qed.

(** X8. What the promotion makes of a staged row.  When the row's city
    and condition are strings and its temperature, feels-like and wind
    speed are numbers, [transform_record] on the cursor's dictionary
    returns, and the upsert tuple built from the result is the row with
    the city in upper case, the condition in lower case, the three
    numbers rounded to one decimal, country, humidity and pressure as
    staged, [recorded_at] the staging timestamp and [loaded_at] the time
    of the call.  Otherwise it raises without changing anything, and
    never a KeyError: a staged row has every column the transform
    reads. *)
Theorem promotion_of_a_staged_row (r : staging_row) (w : world) :
  (is_Some (metric_of_staged r (clock w)) <-> promotable r)
  /\ match metric_of_staged r (clock w) with
     | Some row =>
         exists production_record,
           transform_record (row_dict r) w
           = (Ok production_record, {| db := db w; clock := S (clock w) |})
           /\ metric_of production_record = Ok row
     | None =>
         exists e,
           transform_record (row_dict r) w = (Raise e, w)
           /\ forall key, e <> KeyError key
     end.
Proof.
  split; [apply promotable_metric_of_staged|].
  rewrite transform_record_unfold.
  pose proof (transformed_staged r) as Ht.
  pose proof (promotable_metric_of_staged r 0) as H0.
  pose proof (promotable_metric_of_staged r (clock w)) as Hc.
  destruct (metric_of_staged r 0) as [row0|].
  - destruct Ht as (p & -> & Hp).
    destruct (metric_of_staged r (clock w)) as [row|] eqn:Er.
    + exists (p (clock w)). split; [done|].
      specialize (Hp (clock w)). rewrite Er in Hp.
      destruct (metric_of (p (clock w))); by simplify_eq/=.
    + destruct Hc as [_ Hc]. destruct Hc as [? [=]]. by apply H0.
  - destruct Ht as (e & -> & He).
    destruct (metric_of_staged r (clock w)) as [row|] eqn:Er.
    + destruct H0 as [_ H0]. destruct H0 as [? [=]]. by apply Hc.
    + by exists e.
Qed.

(** *** [load_to_production] *)

Lemma load_one_unfold n record w :
  load_one n record w
  = let handler :=
      match record !! "city" with
      | Some _ => (Ok n, w)
      | None => (Raise (KeyError "city"), w)
      end in
    match metric_of record with
    | Ok row =>
        match rejects (UpsertMetric row) (db w) with
        | None => (Ok (n + 1)%nat, after (UpsertMetric row) w)
        | Some _ => handler
        end
    | Raise _ => handler
    end.
Proof.
  unfold load_one, try_except. rewrite bind_run. unfold lift at 1.
  destruct (metric_of record) as [row|e].
  - rewrite bind_run. unfold execute_query.
    destruct (rejects (UpsertMetric row) (db w)).
    + rewrite bind_run. unfold lift, getitem.
      by destruct (record !! "city").
    + reflexivity.
  - rewrite bind_run. unfold lift, getitem. by destruct (record !! "city").
Qed.

Lemma metric_of_city record row :
  metric_of record = Ok row -> record !! "city" = Some (m_city row).
Proof.
  unfold metric_of, getitem.
  destruct (record !! "city") as [city|]; [|done].
  repeat match goal with
         | |- context [?r !! ?k] =>
             lazymatch k with
             | "city" => fail
             | _ => destruct (r !! k); [|done]
             end
         end.
  by intros [= <-].
Qed.

Lemma upsert_length new table :
  (length table <= length (upsert new table) <= length table + 1)%nat.
Proof.
  pose proof (keys_upsert new table) as Hk.
  apply (f_equal length) in Hk. unfold keys in Hk.
  rewrite length_fmap in Hk.
  destruct (decide (metric_key new ∈ metric_key <$> table));
    rewrite ?length_app, !length_fmap in Hk; simpl in Hk; lia.
Qed.

(** The loop on any engine: when every record has its [city], the loop
    returns the number of statements the engine executed. *)
Lemma load_loop_counts records k w :
  Forall (fun r : pydict => is_Some (r !! "city")) records ->
  exists n w',
    load_loop k records w = (Ok (k + n)%nat, w')
    /\ (n <= length records)%nat
    /\ (length (production_table w) <= length (production_table w')
        <= length (production_table w) + n)%nat
    /\ same_but_metrics (db w) (db w')
    /\ clock w' = (clock w + n)%nat.
Proof.
  intros Hc. revert k w.
  induction Hc as [|record rest [city Ec] _ IH]; intros k w.
  - exists 0%nat, w. simpl. rewrite !Nat.add_0_r.
    split_and!; try done; lia.
  - cbn [load_loop]. rewrite bind_run, load_one_unfold, Ec. cbv zeta.
    destruct (metric_of record) as [row|e];
      [destruct (rejects (UpsertMetric row) (db w))|].
    + destruct (IH k w) as (n & w' & E & Hn & Hl & Hs & Hk).
      exists n, w'. split_and!; try done; simpl; lia.
    + destruct (IH (k + 1)%nat (after (UpsertMetric row) w))
        as (n & w' & E & Hn & Hl & (H1 & H2 & H3) & Hk).
      exists (S n), w'. rewrite E.
      pose proof (upsert_length row (production_table w)).
      simpl in Hl, H1, H2, H3, Hk.
      split_and!; try done; try (simpl; lia).
      do 2 f_equal; lia.
    + destruct (IH k w) as (n & w' & E & Hn & Hl & Hs & Hk).
      exists n, w'. split_and!; try done; simpl; lia.
Qed.

(** X9. [load_to_production] on any engine, for records that all have a
    [city]: it never raises, and the count it returns is the number of
    upserts the engine executed, so it is at most the number of records,
    the production table never shrinks and grows by at most that count,
    and the run, error and staging tables are not written to. *)
Theorem load_to_production_counts_executed_upserts
    (production_records : list pydict) (w : world) :
  Forall (fun r : pydict => is_Some (r !! "city")) production_records ->
  exists loaded_count w',
    load_to_production production_records w = (Ok loaded_count, w')
    /\ (loaded_count <= length production_records)%nat
    /\ (length (production_table w) <= length (production_table w')
        <= length (production_table w) + loaded_count)%nat
    /\ same_but_metrics (db w) (db w')
    /\ clock w' = (clock w + loaded_count)%nat.
Proof.
  intros Hc. unfold load_to_production.
  destruct (load_loop_counts _ 0%nat w Hc) as (n & w' & E & H).
  by exists n, w'.
Qed.

Lemma load_loop_app k l1 l2 w :
  load_loop k (l1 ++ l2) w
  = match load_loop k l1 w with
    | (Ok k', w') => load_loop k' l2 w'
    | (Raise e, w') => (Raise e, w')
    end.
Proof.
  revert k w. induction l1 as [|r l1 IH]; intros k w; [done|].
  cbn [app load_loop]. rewrite !bind_run.
  destruct (load_one k r w) as [[k'|e] w']; [apply IH|done].
Qed.

(** X10. A record without a [city] key stops [load_to_production]: its
    upsert tuple cannot be built, the handler formats [record['city']]
    for the log line and raises KeyError itself.  The records before it
    stay loaded, the ones after it are never tried, and no count is
    returned. *)
Theorem load_to_production_stops_without_city
    (before after : list pydict) (record : pydict)
    (loaded_count : nat) (w w1 : world) :
  load_to_production before w = (Ok loaded_count, w1) ->
  record !! "city" = None ->
  load_to_production (before ++ record :: after) w
  = (Raise (KeyError "city"), w1).
Proof.
  unfold load_to_production. intros E Hc.
  rewrite load_loop_app, E. cbn [load_loop].
  rewrite bind_run, load_one_unfold, Hc. cbv zeta.
  assert (metric_of record = Raise (KeyError "city")) as ->
    by (unfold metric_of, getitem; by rewrite Hc).
  done.
Qed.

Lemma settle_last k rows before :
  settle k rows before
  = match last_with_key k rows with
    | Some r => Some r
    | None => before
    end.
Proof.
  unfold settle, last_with_key.
  induction rows as [|r rows IH] using rev_ind; [done|].
  rewrite foldl_app, filter_app, IH. cbn [foldl].
  rewrite filter_cons, filter_nil.
  destruct (decide (metric_key r = k)).
  - by rewrite last_snoc.
  - by rewrite app_nil_r.
Qed.

(** X11. On an engine that executes every statement the last write wins:
    after [load_to_production], every record counted, the production
    table holds for each key the row of the last record of the batch
    with that key, and for a key the batch does not mention the row it
    held before. *)
Theorem load_to_production_last_record_wins
    (production_records : list pydict) (rows : list metric_row)
    (w : world) :
  accepts_all ->
  Forall2 row_for production_records rows ->
  exists w',
    load_to_production production_records w
    = (Ok (length production_records), w')
    /\ (forall k,
          row_of k (production_table w')
          = match last_with_key k rows with
            | Some r => Some r
            | None => row_of k (production_table w)
            end)
    /\ same_but_metrics (db w) (db w').
Proof.
  intros Hacc Hrows. unfold load_to_production.
  destruct (load_loop_accepting _ _ 0%nat w Hacc Hrows) as (w' & E & Hm & _).
  exists w'. split; [done|]. split.
  - intros k. by rewrite Hm, row_of_upserts, settle_last.
  - destruct (load_loop_counts production_records 0%nat w)
      as (n & w'' & E' & _ & _ & Hs & _).
    + eapply list.Forall_forall. intros r Hr.
      destruct (proj1 (list_elem_of_lookup _ _) Hr) as [i Hi].
      destruct (Forall2_lookup_l _ _ _ _ _ Hrows Hi) as (row & _ & Hrow).
      rewrite (metric_of_city _ _ Hrow). by eexists.
    + rewrite E in E'. by simplify_eq.
Qed.

Lemma promoted_staged r :
  is_Some (promoted (row_dict r)) <-> promotable r.
Proof.
  rewrite <- (promotable_metric_of_staged r 0). unfold promoted.
  pose proof (transformed_staged r) as Ht.
  destruct (metric_of_staged r 0) as [row|].
  - destruct Ht as (p & -> & Hp). specialize (Hp 0%nat).
    destruct (metric_of (p 0%nat)); [|done]. split; by eexists.
  - destruct Ht as (e & -> & _). split; by intros [? [=]].
Qed.

Lemma length_omap_promoted rows :
  length (omap promoted (row_dict <$> rows))
  = length (filter (fun r => promotable r) rows).
Proof.
  induction rows as [|r rows IH]; [done|].
  rewrite fmap_cons, filter_cons.
  pose proof (promoted_staged r) as Hp.
  cbn [omap list_omap].
  destruct (promoted (row_dict r)) as [row|].
  - rewrite decide_True by (apply Hp; by eexists). simpl. by f_equal.
  - rewrite decide_False; [done|]. intros [? [=]]%Hp.
Qed.

Lemma row_for_has_city production rows :
  Forall2 row_for production rows ->
  Forall (fun r : pydict => is_Some (r !! "city")) production.
Proof.
  induction 1 as [|r row production rows Hrow _ IH]; constructor; [|done].
  rewrite (metric_of_city _ _ Hrow). by eexists.
Qed.

Lemma transform_and_load_counts run_id w :
  rejects (SelectStaging run_id) (db w) = None ->
  staged_for run_id (db w) <> [] ->
  exists loaded w',
    transform_and_load run_id w
    = (Ok ({[ "records_transformed" :=
                length (filter (fun r => promotable r)
                               (staged_for run_id (db w)));
              "records_loaded" := loaded ]} : gmap string nat), w')
    /\ (loaded <= length (filter (fun r => promotable r)
                                 (staged_for run_id (db w)))
        <= length (staged_for run_id (db w)))%nat
    /\ same_but_metrics (db w) (db w')
    /\ (length (production_table w) <= length (production_table w')
        <= length (production_table w) + loaded)%nat.
Proof.
  intros Hr Hne. unfold transform_and_load.
  rewrite (bind_ok _ _ _ _ _ (get_staging_records_accepted _ _ Hr)).
  destruct (order_by_extracted_at_spec (staged_for run_id (db w)))
    as [Hperm _].
  assert (select_staging run_id (db w)
          = row_dict <$> order_by_extracted_at (staged_for run_id (db w)))
    as Hsel by done.
  rewrite bool_decide_false.
  2:{ rewrite Hsel. intros Hnil%fmap_nil_inv. rewrite Hnil in Hperm.
      by apply Permutation_nil_l in Hperm. }
  destruct (transform_loop_spec (select_staging run_id (db w)) [] (tick w))
    as (production & w1 & rows & E & Hdb & Hrows & Hp).
  rewrite (bind_ok _ _ _ _ _ E). rewrite app_nil_l.
  destruct (load_loop_counts production 0%nat w1
              (row_for_has_city _ _ Hrows))
    as (n & w2 & E2 & Hn & Hl & Hs & _).
  unfold load_to_production. rewrite (bind_ok _ _ _ _ _ E2).
  assert (length production
          = length (filter (fun r => promotable r)
                           (staged_for run_id (db w)))) as Hlen.
  { rewrite (Forall2_length _ _ _ Hrows), <- (length_fmap erase), Hp, Hsel.
    rewrite length_omap_promoted. by rewrite Hperm. }
  exists n, w2. cbn [mret M_ret]. rewrite Hlen, Nat.add_0_l.
  rewrite Hlen in Hn. unfold same_but_metrics in *.
  rewrite Hdb in Hl, Hs. simpl in Hl, Hs.
  split_and!; try done; try lia; try tauto.
  apply length_filter.
Qed.

(** X12. [transform_and_load] on any engine that answers the staging
    query, for a run with staged rows: it never raises;
    [records_transformed] is the number of the run's staged rows whose
    city and condition are strings and whose temperature, feels-like and
    wind speed are numbers; [records_loaded] is at most that, and equal
    to it on an engine that executes every statement; the production
    table never shrinks and grows by at most [records_loaded]; the
    staging, error and run tables are not written to. *)
Theorem transform_and_load_counts_promotable_rows
    (run_id : nat) (w : world) :
  rejects (SelectStaging run_id) (db w) = None ->
  staged_for run_id (db w) <> [] ->
  exists loaded w',
    transform_and_load run_id w
    = (Ok ({[ "records_transformed" :=
                length (filter (fun r => promotable r)
                               (staged_for run_id (db w)));
              "records_loaded" := loaded ]} : gmap string nat), w')
    /\ (loaded <= length (filter (fun r => promotable r)
                                 (staged_for run_id (db w)))
        <= length (staged_for run_id (db w)))%nat
    /\ (accepts_all ->
        loaded = length (filter (fun r => promotable r)
                                (staged_for run_id (db w))))
    /\ same_but_metrics (db w) (db w')
    /\ (length (production_table w) <= length (production_table w')
        <= length (production_table w) + loaded)%nat.
Proof.
  intros Hr Hne.
  destruct (transform_and_load_counts run_id w Hr Hne)
    as (loaded & w' & E & Hn & Hs & Hl).
  exists loaded, w'. split_and!; try done; try lia.
  intros Hacc.
  destruct (transform_and_load_accepting run_id w Hacc)
    as (stats & w'' & rows & E' & _ & _ & _ & Hstats).
  rewrite E in E'. injection E' as <- <-.
  destruct (bool_decide (select_staging run_id (db w) = [])).
  - apply (f_equal (fun m : gmap string nat => m !! "records_loaded"))
      in Hstats.
    rewrite lookup_insert_ne, lookup_singleton_eq in Hstats by done.
    unfold empty_run_stats in Hstats.
    rewrite lookup_insert_ne, lookup_singleton_ne in Hstats by done.
    done.
  - pose proof (f_equal (fun m : gmap string nat => m !! "records_loaded")
                  Hstats) as Hloaded.
    pose proof (f_equal (fun m : gmap string nat =>
                           m !! "records_transformed") Hstats) as Htrans.
    cbv beta in Hloaded, Htrans.
    rewrite !lookup_insert_eq in Htrans.
    rewrite !lookup_insert_ne, !lookup_singleton_eq in Hloaded by done.
    congruence.
Qed.

End PromotionProperties.

(** ** The bookkeeping of a run *)

Section BookkeepingProperties.
Context {RT : Runtime} {EG : Engine}.

Import WeatherDataValidator WeatherTransformer Main.

Lemma staging_tuples_cons record rest run_id :
  staging_tuples (record :: rest) run_id
  = match staging_params record run_id with
    | Ok row => row :: staging_tuples rest run_id
    | Raise _ => staging_tuples rest run_id
    end.
Proof.
  unfold staging_tuples. cbn [omap list_omap].
  by destruct (staging_params record run_id).
Qed.

Lemma stage_loop_spec data run_id k w :
  exists n w' rows,
    stage_loop run_id k data w = (Ok (k + n)%nat, w')
    /\ stg_weather_data (db w') = stg_weather_data (db w) ++ rows
    /\ length rows = n
    /\ (n <= length data)%nat
    /\ sublist (stg_values <$> rows) (staging_tuples data run_id)
    /\ (accepts_all -> stg_values <$> rows = staging_tuples data run_id)
    /\ pipeline_runs (db w') = pipeline_runs (db w)
    /\ error_log (db w') = error_log (db w)
    /\ weather_metrics (db w') = weather_metrics (db w)
    /\ clock w' = (clock w + n)%nat.
Proof.
  revert k w. induction data as [|record rest IH]; intros k w.
  - exists 0%nat, w, []. simpl. rewrite !Nat.add_0_r, app_nil_r.
    split_and!; try done.
  - cbn [stage_loop]. rewrite bind_run, stage_one_unfold.
    rewrite staging_tuples_cons.
    destruct (staging_params record run_id) as [row|e].
    + destruct (rejects (InsertStaging row) (db w)) as [msg|] eqn:Er.
      * destruct (IH k w)
          as (n & w' & rows & E & Hs & Hl & Hn & Hsub & Hall & Hrest).
        exists n, w', rows. split_and!; try done; try tauto.
        -- simpl; lia.
        -- by constructor.
        -- intros Hacc. by rewrite Hacc in Er.
      * destruct (IH (k + 1)%nat (after (InsertStaging row) w))
          as (n & w' & rows & E & Hs & Hl & Hn & Hsub & Hall
              & H1 & H2 & H3 & Hk).
        exists (S n), w',
          ({| stg_id := length (stg_weather_data (db w));
              stg_values := row; extracted_at := clock w |} :: rows).
        rewrite E, Hs, H1, H2, H3, Hk. simpl.
        split_and!; try done; try lia.
        -- do 2 f_equal; lia.
        -- by rewrite <- app_assoc.
        -- by constructor.
        -- intros Hacc. change (list_fmap _ _ stg_values rows)
             with (stg_values <$> rows). by rewrite Hall.
    + destruct (IH k w)
        as (n & w' & rows & E & Hs & Hl & Hn & Hsub & Hall & Hrest).
      exists n, w', rows. split_and!; try done; try tauto. simpl; lia.
Qed.

Lemma load_weather_data_stages_rows data run_id w :
  exists loaded_count w' rows,
    load_weather_data data run_id w = (Ok loaded_count, w')
    /\ stg_weather_data (db w') = stg_weather_data (db w) ++ rows
    /\ length rows = loaded_count
    /\ (loaded_count <= length data)%nat
    /\ Forall (fun r => s_load_id (stg_values r) = run_id) rows
    /\ pipeline_runs (db w') = pipeline_runs (db w)
    /\ error_log (db w') = error_log (db w)
    /\ weather_metrics (db w') = weather_metrics (db w).
Proof.
  unfold load_weather_data.
  destruct (stage_loop_spec data run_id 0%nat w)
    as (n & w' & rows & E & Hs & Hl & Hn & Hsub & Hall & H1 & H2 & H3 & _).
  exists n, w', rows. split_and!; try done.
  assert (Forall (fun v => s_load_id v = run_id) (stg_values <$> rows))
    as Hf.
  { apply list.Forall_forall. intros v Hin.
    apply (elem_of_sublist _ _ _ Hin) in Hsub. unfold staging_tuples in Hsub.
    apply list_elem_of_omap in Hsub as (record & _ & Hv).
    unfold staging_params in Hv.
    destruct (getitem record "city"); [|done].
    destruct (getitem record "country"); [|done].
    destruct (getitem record "temperature"); [|done].
    destruct (getitem record "feels_like"); [|done].
    destruct (getitem record "humidity"); [|done].
    destruct (getitem record "pressure"); [|done].
    destruct (getitem record "weather_condition"); [|done].
    destruct (getitem record "wind_speed"); [|done].
    destruct (getitem record "raw_data" ≫= json_dumps); [|done].
    by injection Hv as <-. }
  by apply Forall_fmap in Hf.
Qed.


Lemma log_one_unfold run_id n invalid w :
  log_one run_id n invalid w
  = match json_dumps_dict (record invalid) with
    | Ok raw_data =>
        let row := {| err_run_id := run_id;
                      err_source_type := "weather_api";
                      err_error_type := "validation_error";
                      err_error_message := join "; " (errors invalid);
                      err_raw_data := raw_data;
                      err_created_at := clock w |} in
        match rejects (InsertErrorLog row) (db w) with
        | None => (Ok (n + 1)%nat, after (InsertErrorLog row) (tick w))
        | Some _ => (Ok n, tick w)
        end
    | Raise _ => (Ok n, w)
    end.
Proof.
  unfold log_one, try_except. rewrite bind_run. unfold lift at 1.
  destruct (json_dumps_dict (record invalid)) as [raw|e]; [|done].
  rewrite bind_run. cbn [datetime_now]. rewrite bind_run.
  unfold execute_query. cbn [db clock]. cbv zeta.
  by destruct (rejects _ (db w)).
Qed.

Lemma log_loop_spec run_id invalid k w :
  exists n w' rows,
    log_loop run_id k invalid w = (Ok (k + n)%nat, w')
    /\ error_log (db w') = error_log (db w) ++ rows
    /\ length rows = n
    /\ (n <= length invalid)%nat
    /\ Forall (logged_for run_id) rows
    /\ sublist (logged_columns <$> rows) (omap error_columns invalid)
    /\ (accepts_all ->
        logged_columns <$> rows = omap error_columns invalid)
    /\ pipeline_runs (db w') = pipeline_runs (db w)
    /\ stg_weather_data (db w') = stg_weather_data (db w)
    /\ weather_metrics (db w') = weather_metrics (db w).
Proof.
  revert k w. induction invalid as [|invalid rest IH]; intros k w.
  - exists 0%nat, w, []. simpl. rewrite !Nat.add_0_r, app_nil_r.
    split_and!; try done.
  - cbn [log_loop]. rewrite bind_run, log_one_unfold.
    assert (omap error_columns (invalid :: rest)
            = match error_columns invalid with
              | Some c => c :: omap error_columns rest
              | None => omap error_columns rest
              end) as -> by done.
    assert (error_columns invalid
            = match json_dumps_dict (record invalid) with
              | Ok raw_data => Some (join "; " (errors invalid), raw_data)
              | Raise _ => None
              end) as -> by done.
    destruct (json_dumps_dict (record invalid)) as [raw|e].
    + cbv zeta.
      destruct (rejects (InsertErrorLog _) (db w)) as [msg|] eqn:Er.
      * destruct (IH k (tick w))
          as (n & w' & rows & E & Hs & Hl & Hn & Hf & Hsub & Hall & Hrest).
        exists n, w', rows. split_and!; try done; try tauto.
        -- simpl; lia.
        -- by constructor.
        -- intros Hacc. by rewrite Hacc in Er.
      * match goal with
        | |- context [after (InsertErrorLog ?r) (tick w)] => set (row := r)
        end.
        destruct (IH (k + 1)%nat (after (InsertErrorLog row) (tick w)))
          as (n & w' & rows & E & Hs & Hl & Hn & Hf & Hsub & Hall
              & H1 & H2 & H3).
        exists (S n), w', (row :: rows).
        rewrite E, Hs, H1, H2, H3. simpl.
        split_and!; try done; try lia.
        -- do 2 f_equal; lia.
        -- by rewrite <- app_assoc.
        -- by constructor.
        -- by constructor.
        -- intros Hacc. change (list_fmap _ _ logged_columns rows)
             with (logged_columns <$> rows). by rewrite Hall.
    + destruct (IH k w)
        as (n & w' & rows & E & Hs & Hl & Hn & Hf & Hsub & Hall & Hrest).
      exists n, w', rows. split_and!; try done; try tauto. simpl; lia.
Qed.


Lemma create_pipeline_run_unfold source w :
  create_pipeline_run source w
  = match rejects (InsertPipelineRun "multi_source_ingestion" source
                                     "running" (clock w)) (db w) with
    | None =>
        (Ok (fresh (dom (pipeline_runs (db w)))),
         after (InsertPipelineRun "multi_source_ingestion" source
                                  "running" (clock w)) (tick w))
    | Some msg => (Raise (DatabaseError msg), tick w)
    end.
Proof.
  unfold create_pipeline_run. rewrite bind_run. cbn [datetime_now].
  rewrite bind_run. unfold execute_query. cbn [db clock].
  by destruct (rejects _ (db w)).
Qed.

(** X15. [create_pipeline_run] opens a run under an id no run has: the
    new row is "running", named "multi_source_ingestion", with the given
    source and the time of the call as start, its end, counts and message
    null; the rows of the other runs and the other tables are as before.
    When the engine refuses the insert the error is raised and no table
    has changed. *)
Theorem create_pipeline_run_opens_a_fresh_run
    (source : string) (w : world) :
  (rejects (InsertPipelineRun "multi_source_ingestion" source "running"
                              (clock w)) (db w) = None ->
   exists run_id w',
     create_pipeline_run source w = (Ok run_id, w')
     /\ pipeline_runs (db w) !! run_id = None
     /\ pipeline_runs (db w')
        = <[run_id := {| pipeline_name := "multi_source_ingestion";
                         source_type := source;
                         status := "running";
                         start_time := clock w;
                         end_time := None;
                         records_extracted := None;
                         records_loaded := None;
                         error_message := None |}]> (pipeline_runs (db w))
     /\ (forall other, other <> run_id ->
           pipeline_runs (db w') !! other = pipeline_runs (db w) !! other)
     /\ error_log (db w') = error_log (db w)
     /\ stg_weather_data (db w') = stg_weather_data (db w)
     /\ weather_metrics (db w') = weather_metrics (db w))
  /\ (forall msg,
        rejects (InsertPipelineRun "multi_source_ingestion" source "running"
                                   (clock w)) (db w) = Some msg ->
        exists w',
          create_pipeline_run source w = (Raise (DatabaseError msg), w')
          /\ db w' = db w).
Proof.
  rewrite create_pipeline_run_unfold. split.
  - intros ->. eexists _, _. split; [reflexivity|]. simpl.
    split_and!; try done.
    + apply not_elem_of_dom, is_fresh.
    + intros other Ho. by rewrite lookup_insert_ne.
  - intros msg ->. by eexists.
Qed.

Lemma update_pipeline_run_unfold run_id status extracted loaded msg w :
  update_pipeline_run run_id status extracted loaded msg w
  = match rejects (UpdatePipelineRun status (clock w) extracted loaded
                                     msg run_id) (db w) with
    | None =>
        (Ok (),
         after (UpdatePipelineRun status (clock w) extracted loaded
                                  msg run_id) (tick w))
    | Some m => (Raise (DatabaseError m), tick w)
    end.
Proof.
  unfold update_pipeline_run. rewrite bind_run. cbn [datetime_now].
  rewrite bind_run. unfold execute_query. cbn [db clock].
  by destruct (rejects _ (db w)).
Qed.

(** X16. [update_pipeline_run] closes one run and touches no other: the
    row of the run takes the status, the time of the call as end, the two
    counts and the message, and keeps its name, source and start; every
    other run and every other table is as before.  For an id no run has
    the call returns normally and nothing has changed. *)
Theorem update_pipeline_run_touches_one_run
    (run_id : nat) (status : string) (extracted loaded : nat)
    (message : option string) (w : world) :
  rejects (UpdatePipelineRun status (clock w) extracted loaded message
                             run_id) (db w) = None ->
  exists w',
    update_pipeline_run run_id status extracted loaded message w
    = (Ok (), w')
    /\ (forall row,
          pipeline_runs (db w) !! run_id = Some row ->
          pipeline_runs (db w') !! run_id
          = Some {| pipeline_name := pipeline_name row;
                    source_type := source_type row;
                    status := status;
                    start_time := start_time row;
                    end_time := Some (clock w);
                    records_extracted := Some extracted;
                    records_loaded := Some loaded;
                    error_message := message |})
    /\ (pipeline_runs (db w) !! run_id = None ->
        pipeline_runs (db w') = pipeline_runs (db w))
    /\ (forall other, other <> run_id ->
          pipeline_runs (db w') !! other = pipeline_runs (db w) !! other)
    /\ error_log (db w') = error_log (db w)
    /\ stg_weather_data (db w') = stg_weather_data (db w)
    /\ weather_metrics (db w') = weather_metrics (db w).
Proof.
  intros Hr. rewrite update_pipeline_run_unfold, Hr.
  eexists. split; [reflexivity|]. simpl. split_and!; try done.
  - intros row Hrow. by rewrite lookup_alter_eq, Hrow.
  - intros Hnone. apply map_eq. intros i.
    destruct (decide (i = run_id)) as [->|Hi].
    + by rewrite lookup_alter_eq, Hnone.
    + by rewrite lookup_alter_ne.
  - intros other Ho. by rewrite lookup_alter_ne.
Qed.

End BookkeepingProperties.

(** ** The whole run *)

Section RunProperties.
Context {RT : Runtime} {EG : Engine}.

Import WeatherDataValidator WeatherTransformer Main.

Lemma run_weather_extraction_unfold extraction w :
  connect_error = None ->
  run_weather_extraction extraction w
  = match create_pipeline_run "weather_api" w with
    | (Ok run_id, w0) =>
        match pipeline_steps extraction run_id w0 with
        | (Ok _, w1) => (Returned, w1)
        | (Raise e, w1) =>
            (SysExit 1,
             (update_pipeline_run run_id "failed" 0 0
                (Some (py_str_exn e)) w1).2)
        end
    | (Raise _, w0) => (SysExit 1, w0)
    end.
Proof.
  intros Hc. unfold run_weather_extraction, run_scope. rewrite Hc.
  rewrite bind_run.
  destruct (create_pipeline_run "weather_api" w) as [[run_id|e] w0]; [|done].
  unfold try_except.
  destruct (pipeline_steps extraction run_id w0) as [[[]|e] w1]; [done|].
  rewrite bind_run. unfold throw.
  by destruct (update_pipeline_run _ _ _ _ _ w1) as [[[]|e'] w2].
Qed.

Lemma create_pipeline_run_frame source w run_id w0 :
  create_pipeline_run source w = (Ok run_id, w0) ->
  pipeline_runs (db w) !! run_id = None
  /\ pipeline_runs (db w0) !! run_id = Some (new_run source (clock w))
  /\ error_log (db w0) = error_log (db w)
  /\ stg_weather_data (db w0) = stg_weather_data (db w)
  /\ weather_metrics (db w0) = weather_metrics (db w).
Proof.
  rewrite create_pipeline_run_unfold.
  destruct (rejects _ (db w)); [done|]. intros [= <- <-]. simpl.
  split_and!; try done.
  - apply not_elem_of_dom, is_fresh.
  - by rewrite lookup_insert_eq.
Qed.

Lemma update_pipeline_run_frame run_id status extracted loaded msg w r w' :
  update_pipeline_run run_id status extracted loaded msg w = (r, w') ->
  error_log (db w') = error_log (db w)
  /\ stg_weather_data (db w') = stg_weather_data (db w)
  /\ weather_metrics (db w') = weather_metrics (db w).
Proof.
  rewrite update_pipeline_run_unfold.
  destruct (rejects _ (db w)); by intros [= <- <-].
Qed.

(** X17. When the extraction raises, the run is opened and closed at
    once: it is marked "failed" with the text of the exception as its
    message and zero for both counts, the process exits with code 1, and
    nothing is validated, logged, staged or promoted. *)
Theorem extraction_failure_fails_the_run
    (e : exn) (run_id : nat) (w w0 : world) :
  connect_error = None ->
  create_pipeline_run "weather_api" w = (Ok run_id, w0) ->
  rejects (UpdatePipelineRun "failed" (clock w0) 0 0
             (Some (py_str_exn e)) run_id) (db w0) = None ->
  exists w',
    run_weather_extraction (Raise e) w = (SysExit 1, w')
    /\ pipeline_runs (db w') !! run_id
       = Some {| pipeline_name := "multi_source_ingestion";
                 source_type := "weather_api";
                 status := "failed";
                 start_time := clock w;
                 end_time := Some (clock w0);
                 records_extracted := Some 0%nat;
                 records_loaded := Some 0%nat;
                 error_message := Some (py_str_exn e) |}
    /\ error_log (db w') = error_log (db w)
    /\ stg_weather_data (db w') = stg_weather_data (db w)
    /\ weather_metrics (db w') = weather_metrics (db w).
Proof.
  intros Hc Hcreate Hr.
  rewrite (run_weather_extraction_unfold _ _ Hc), Hcreate.
  assert (pipeline_steps (Raise e) run_id w0 = (Raise e, w0)) as -> by done.
  destruct (create_pipeline_run_frame _ _ _ _ Hcreate)
    as (_ & Hrow & H1 & H2 & H3).
  rewrite update_pipeline_run_unfold, Hr.
  eexists. split; [reflexivity|]. simpl.
  rewrite lookup_alter_eq, Hrow, H1, H2, H3. done.
Qed.

Lemma log_step_spec run_id (s : summary pydict) w :
  exists n w' rows,
    (if bool_decide (0 < invalid_count s)%nat
     then log_validation_errors run_id (invalid_records s)
     else mret 0%nat) w = (Ok n, w')
    /\ error_log (db w') = error_log (db w) ++ rows
    /\ (length rows <= length (invalid_records s))%nat
    /\ Forall (logged_for run_id) rows
    /\ pipeline_runs (db w') = pipeline_runs (db w)
    /\ stg_weather_data (db w') = stg_weather_data (db w)
    /\ weather_metrics (db w') = weather_metrics (db w).
Proof.
  case_bool_decide.
  - destruct (log_loop_spec run_id (invalid_records s) 0%nat w)
      as (n & w' & rows & E & He & Hl & Hn & Hf & _ & _ & H1 & H2 & H3).
    exists n, w', rows. split_and!; try done. lia.
  - exists 0%nat, w, []. rewrite app_nil_r. split_and!; try done. simpl; lia.
Qed.



Lemma exit_returned (p : exit * world) :
  p.1 = Returned -> p = (Returned, p.2).
Proof. destruct p as [x w]. simpl. by intros ->. Qed.

Lemma stat_inv stats key n :
  stat stats key = Ok n -> stats !! key = Some n.
Proof. unfold stat. destruct (stats !! key); by intros [= ->]. Qed.

(** A transformer that answers with the keys the orchestrator reads has
    found staged rows for the run. *)
Lemma transform_to_production_returned run_id w stats w' :
  transform_to_production run_id w = (Ok stats, w') ->
  staged_for run_id (db w) <> []
  /\ stg_weather_data (db w') = stg_weather_data (db w)
  /\ error_log (db w') = error_log (db w).
Proof.
  intros E. split_and!.
  - intros Hnil. unfold transform_to_production in E.
    rewrite bind_run in E. unfold transform_and_load in E.
    rewrite bind_run in E. unfold get_staging_records in E.
    rewrite bind_run in E. unfold execute_query in E.
    destruct (rejects (SelectStaging run_id) (db w)); [done|].
    cbn [run_statement mret M_ret] in E.
    rewrite (select_staging_empty _ _ Hnil) in E.
    rewrite bool_decide_true in E by done.
    cbn [mret M_ret] in E. by rewrite bind_run in E.
  - by eapply (transform_to_production_preserves
                 (fun d => stg_weather_data d = stg_weather_data (db w)));
      [|exact E|].
  - by eapply (transform_to_production_preserves
                 (fun d => error_log d = error_log (db w)));
      [|exact E|].
Qed.

Lemma returned_run_inv extraction w w' :
  run_weather_extraction extraction w = (Returned, w') ->
  connect_error = None
  /\ exists data s run_id w0 loaded end_ rows,
       extraction = Ok data
       /\ validate_batch data = Ok s
       /\ partitions validate_record data s
       /\ create_pipeline_run "weather_api" w = (Ok run_id, w0)
       /\ pipeline_runs (db w) !! run_id = None
       /\ pipeline_runs (db w') !! run_id
          = Some {| pipeline_name := "multi_source_ingestion";
                    source_type := "weather_api";
                    status :=
                      if bool_decide (invalid_count s = 0%nat)
                      then "success" else "partial";
                    start_time := clock w;
                    end_time := Some end_;
                    records_extracted := Some (length data);
                    records_loaded := Some loaded;
                    error_message := None |}
       /\ stg_weather_data (db w') = stg_weather_data (db w) ++ rows
       /\ length rows = loaded
       /\ sublist (stg_values <$> rows)
                  (staging_tuples (valid_records s) run_id)
       /\ (accepts_all ->
           stg_values <$> rows = staging_tuples (valid_records s) run_id)
       /\ (loaded <= valid_count s <= length data)%nat
       /\ (staged_for run_id (db w) = [] -> (0 < loaded)%nat).
Proof.
  intros E.
  assert (connect_error = None) as Hc.
  { unfold run_weather_extraction in E. by destruct connect_error. }
  split; [done|].
  rewrite (run_weather_extraction_unfold _ _ Hc) in E.
  destruct (create_pipeline_run "weather_api" w) as [[run_id|?] w0]
    eqn:Hcreate; [|done].
  destruct (pipeline_steps extraction run_id w0) as [[[]|?] w1] eqn:Hsteps;
    [|done].
  injection E as ->.
  destruct (create_pipeline_run_frame _ _ _ _ Hcreate)
    as (Hfresh & Hrow & H1 & H2 & H3).
  unfold pipeline_steps in Hsteps. rewrite bind_run in Hsteps.
  destruct extraction as [data|e]; [|done]. unfold lift at 1 in Hsteps.
  rewrite bind_run in Hsteps. unfold lift at 1 in Hsteps.
  destruct (validate_batch data) as [s|e] eqn:Hv; [|done].
  destruct (weather_batch_partitions data
              (weather_batch_returns_inv _ _ Hv)) as (s' & Hv' & Hpart).
  rewrite Hv in Hv'. injection Hv' as <-.
  rewrite bind_run in Hsteps.
  destruct (log_step_spec run_id s w0)
    as (n & wl & lrows & El & He & Hl & Hf & L1 & L2 & L3).
  rewrite El in Hsteps. rewrite bind_run in Hsteps.
  destruct (stage_loop_spec (valid_records s) run_id 0%nat wl)
    as (loaded & ws & rows & Es & S1 & S2 & S3 & Ssub & Sall & S5 & S6
        & S7 & _).
  unfold load_weather_data in Hsteps.
  rewrite Es in Hsteps. rewrite bind_run in Hsteps.
  destruct (transform_to_production run_id ws) as [[stats|?] wt] eqn:Et;
    [|done].
  destruct (transform_to_production_returned _ _ _ _ Et)
    as (Hne & T1 & T2).
  pose proof (transform_to_production_keeps_runs _ _ _ _ Et) as T3.
  rewrite update_pipeline_run_unfold in Hsteps.
  destruct (rejects _ (db wt)); [done|]. injection Hsteps as <-.
  exists data, s, run_id, w0, loaded, (clock wt), rows.
  cbn [after db run_statement snd tick pipeline_runs stg_weather_data].
  rewrite lookup_alter_eq, T3, S5, L1, Hrow, T1, S1, L2, H2.
  pose proof Hpart as (Ht & Hvc & Hic & Hsum & _).
  split_and!; try done.
  - lia.
  - lia.
  - intros Hnone. destruct (decide (loaded = 0%nat)) as [->|]; [|lia].
    destruct rows; [|done]. exfalso. apply Hne.
    unfold staged_for in *. by rewrite S1, app_nil_r, L2, H2.
Qed.


Lemma transform_to_production_nonempty run_id w :
  rejects (SelectStaging run_id) (db w) = None ->
  staged_for run_id (db w) <> [] ->
  transform_to_production run_id w = transform_and_load run_id w.
Proof.
  intros Hr Hne.
  destruct (transform_and_load_counts run_id w Hr Hne)
    as (loaded & w' & E & _).
  unfold transform_to_production. rewrite (bind_ok _ _ _ _ _ E), E.
  unfold stat. rewrite lookup_insert_eq. unfold lift at 1.
  rewrite bind_run. rewrite lookup_insert_ne by done.
  by rewrite lookup_singleton_eq.
Qed.

(** X20. For a run with staged rows the orchestrator's
    [transform_to_production] is the transformer's [transform_and_load]:
    the two counts it formats are there, and it hands the statistics on
    unchanged, in the same state. *)
Theorem transform_to_production_hands_the_stats_on
    (run_id : nat) (w : world) :
  rejects (SelectStaging run_id) (db w) = None ->
  staged_for run_id (db w) <> [] ->
  transform_to_production run_id w = transform_and_load run_id w
  /\ exists stats w',
       transform_to_production run_id w = (Ok stats, w')
       /\ is_Some (stats !! "records_transformed")
       /\ is_Some (stats !! "records_loaded").
Proof.
  intros Hr Hne. split; [by apply transform_to_production_nonempty|].
  rewrite (transform_to_production_nonempty _ _ Hr Hne).
  destruct (transform_and_load_counts run_id w Hr Hne)
    as (loaded & w' & E & _).
  eexists _, w'. split; [exact E|].
  rewrite lookup_insert_eq, lookup_insert_ne by done.
  rewrite lookup_singleton_eq. split; by eexists.
Qed.

Lemma staged_rows_for_run run_id table rows :
  rows <> [] ->
  Forall (fun r => s_load_id (stg_values r) = run_id) rows ->
  filter (fun r => s_load_id (stg_values r) = run_id) (table ++ rows) <> [].
Proof.
  intros Hne Hall. rewrite filter_app.
  destruct rows as [|r rows]; [done|].
  apply list.Forall_cons in Hall as [Hr _].
  rewrite filter_cons, decide_True by done.
  by destruct (filter _ table).
Qed.

(** X21. On an engine that executes every statement, with records whose
    measurements are numbers where present, and no row staged under the
    id the run will get, [run_weather_extraction] returns exactly when at
    least one record of the batch is valid and has a staging tuple that
    can be built; otherwise it exits with code 1. *)
Theorem cooperative_run_returns_iff_a_record_is_staged
    (data : list pydict) (w : world) :
  accepts_all ->
  connect_error = None ->
  Forall measurements_typed data ->
  staged_for (fresh (dom (pipeline_runs (db w)))) (db w) = [] ->
  ((run_weather_extraction (Ok data) w).1 = Returned
   <-> staging_tuples (filter (fun r => accepts validate_record r) data)
                      (fresh (dom (pipeline_runs (db w)))) <> [])
  /\ ((run_weather_extraction (Ok data) w).1 = Returned
      \/ (run_weather_extraction (Ok data) w).1 = SysExit 1).
Proof.
  intros Hacc Hc Htyped Hnone.
  set (run_id := fresh (dom (pipeline_runs (db w)))) in *.
  assert (exists w0, create_pipeline_run "weather_api" w = (Ok run_id, w0))
    as [w0 Hcreate].
  { rewrite create_pipeline_run_unfold, Hacc. by eexists. }
  split.
  - split.
    + intros E%exit_returned.
      destruct (returned_run_inv _ _ _ E)
        as (_ & data' & s & run_id' & w0' & loaded & end_ & rows & [= <-]
            & Hv & Hpart & Hcreate' & _ & _ & _ & Hlen & _ & Hall & _
            & Hpos).
      rewrite Hcreate in Hcreate'. injection Hcreate' as <- <-.
      destruct Hpart as (_ & _ & _ & _ & <- & _).
      rewrite <- (Hall Hacc). specialize (Hpos Hnone).
      destruct rows; [simpl in Hlen; lia|done].
    + intros Hne.
      destruct (weather_batch_partitions data) as (s & Hv & Hpart).
      { eapply list.Forall_impl; [exact Htyped|].
        apply validate_record_returns. }
      destruct (create_pipeline_run_frame _ _ _ _ Hcreate)
        as (_ & Hrow & H1 & H2 & H3).
      destruct (log_step_spec run_id s w0)
        as (n & wl & lrows & El & He & Hl & Hf & L1 & L2 & L3).
      destruct (stage_loop_spec (valid_records s) run_id 0%nat wl)
        as (loaded & ws & rows & Es & S1 & S2 & S3 & Ssub & Sall & _).
      destruct (load_weather_data_stages_rows (valid_records s) run_id wl)
        as (loaded' & ws' & rows' & Es' & S1' & _ & _ & Sf & _).
      unfold load_weather_data in Es'. rewrite Es in Es'.
      injection Es' as <- <-.
      rewrite S1 in S1'. apply app_inv_head in S1'. subst rows'.
      assert (staged_for run_id (db ws) <> []) as Hstaged.
      { unfold staged_for. rewrite S1. apply staged_rows_for_run; [|done].
        intros ->. apply Hne.
        destruct Hpart as (_ & _ & _ & _ & <- & _).
        by rewrite <- (Sall Hacc). }
      destruct (transform_and_load_counts run_id ws (Hacc _ _) Hstaged)
        as (loaded2 & wt & Et & _).
      rewrite (run_weather_extraction_unfold _ _ Hc), Hcreate.
      unfold pipeline_steps.
      rewrite (bind_ok (lift (Ok data)) _ w0 data w0 eq_refl).
      rewrite (bind_ok (lift (validate_batch data)) _ w0 s w0)
        by (unfold lift; by rewrite Hv).
      rewrite (bind_ok _ _ _ _ _ El).
      unfold load_weather_data. rewrite (bind_ok _ _ _ _ _ Es).
      rewrite bind_run,
        (transform_to_production_nonempty _ _ (Hacc _ _) Hstaged), Et.
      by rewrite update_pipeline_run_unfold, Hacc.
  - rewrite (run_weather_extraction_unfold _ _ Hc), Hcreate.
    destruct (pipeline_steps (Ok data) run_id w0) as [[[]|e] w1]; eauto.
Qed.

End RunProperties.

(** ** The loaders' base class *)

Section BaseLoaderProperties.
Context {RT : Runtime} {EG : Engine}.

Lemma base_log_loop_writes_nothing run_id invalid n w :
  BaseLoader.log_loop run_id n invalid w = (Ok n, w).
Proof.
  revert n w. induction invalid as [|invalid rest IH]; intros n w; [done|].
  cbn [BaseLoader.log_loop]. rewrite bind_run.
  assert (BaseLoader.log_one run_id n invalid w = (Ok n, w)) as -> by done.
  apply IH.
Qed.

(** X22. The bookkeeping methods of [BaseLoader] never reach the
    database.  [log_validation_errors] returns 0 for every list and
    writes nothing, each iteration ending in the handler on the unbound
    name [slef]; [update_pipeline_run] raises NameError on
    [records_extracted] for all arguments, after reading the clock and
    before any statement is sent. *)
Theorem base_loader_bookkeeping_never_reaches_the_database :
  (forall run_id invalid_records w,
     BaseLoader.log_validation_errors run_id invalid_records w = (Ok 0%nat, w))
  /\ (forall run_id status extracted loaded message w,
        BaseLoader.update_pipeline_run run_id status extracted loaded
                                       message w
        = (Raise (name_error "records_extracted"),
           {| db := db w; clock := S (clock w) |})).
Proof.
  split.
  - intros. apply base_log_loop_writes_nothing.
  - done.
Qed.

End BaseLoaderProperties.

(** ** The extractor *)

Section ExtractionProperties.
Context {RT : Runtime} {EG : Engine}
        {WS : WeatherAPIExtractor.WeatherService}.

Import WeatherDataValidator WeatherTransformer Main WeatherAPIExtractor.

Lemma lower_inv j v :
  WeatherAPIExtractor.lower j = Ok v -> exists s, v = VStr (py_lower s).
Proof. destruct j; intros [= <-]. by eexists. Qed.

Lemma fetch_from_api_inv city_coords city_name r :
  fetch_from_api city_coords city_name = Ok r ->
  exists city country temperature feels_like humidity pressure s
         wind_speed body,
    r = list_to_map
          [("city", city); ("country", country);
           ("temperature", temperature); ("feels_like", feels_like);
           ("humidity", humidity); ("pressure", pressure);
           ("weather_condition", VStr (py_lower s));
           ("wind_speed", wind_speed); ("raw_data", VJson body)].
Proof.
  unfold fetch_from_api.
  destruct (city_coords_get city_coords city_name) as [c|]; [|done].
  cbv zeta.
  destruct (http_get _ _) as [api_data|]; [|done]. cbn [mbind result_bind].
  destruct (subscript api_data "location") as [location|]; [|done].
  cbn [mbind result_bind].
  destruct (subscript api_data "current") as [current|]; [|done].
  cbn [mbind result_bind].
  destruct (subscript location "name") as [city|]; [|done].
  cbn [mbind result_bind].
  destruct (subscript location "country") as [country|]; [|done].
  cbn [mbind result_bind].
  destruct (subscript current "temp_c") as [temperature|]; [|done].
  cbn [mbind result_bind].
  destruct (subscript current "feelslike_c") as [feels_like|]; [|done].
  cbn [mbind result_bind].
  destruct (subscript current "humidity") as [humidity|]; [|done].
  cbn [mbind result_bind].
  destruct (subscript current "pressure_mb") as [pressure|]; [|done].
  cbn [mbind result_bind].
  destruct (subscript current "condition") as [condition|]; [|done].
  cbn [mbind result_bind].
  destruct (subscript condition "text") as [text|]; [|done].
  cbn [mbind result_bind].
  destruct (WeatherAPIExtractor.lower text) as [weather_condition|] eqn:El;
    [|done].
  cbn [mbind result_bind].
  destruct (subscript current "wind_kph") as [wind_speed|]; [|done].
  cbn [mbind result_bind].
  destruct (lower_inv _ _ El) as [s ->].
  intros [= <-]. by eexists _, _, _, _, _, _, _, _, _.
Qed.

Lemma fetch_from_api_shape city_coords city_name r :
  fetch_from_api city_coords city_name = Ok r ->
  extracted_shape r /\ r <> ∅.
Proof.
  intros (city & country & temperature & feels_like & humidity & pressure
          & s & wind_speed & body & ->)%fetch_from_api_inv.
  split; [split_and!|].
  - unfold record_fields. repeat constructor; by eexists.
  - by exists s.
  - by exists body.
  - intros Hempty. apply (f_equal (fun m => m !! "city")) in Hempty.
    by rewrite lookup_empty in Hempty.
Qed.

Lemma extract_step_fetched city_coords data city_name :
  extract_step city_coords data city_name
  = data ++ option_list (fetched city_coords city_name).
Proof.
  unfold extract_step, fetched.
  destruct (fetch_from_api city_coords city_name) as [r|] eqn:Ef.
  - destruct (fetch_from_api_shape _ _ _ Ef) as [_ Hne].
    by rewrite bool_decide_true.
  - by rewrite app_nil_r.
Qed.

Lemma extract_fetched city_coords :
  extract city_coords = omap (fetched city_coords) (city_coords.*1).
Proof.
  unfold extract.
  assert (forall names data,
            foldl (extract_step city_coords) data names
            = data ++ omap (fetched city_coords) names) as Hgen.
  { induction names as [|name names IH]; intros data; simpl.
    - by rewrite app_nil_r.
    - rewrite IH, extract_step_fetched.
      destruct (fetched city_coords name); simpl;
        by rewrite <- ?app_assoc, ?app_nil_r. }
  apply Hgen.
Qed.


Lemma extract_shape city_coords :
  Forall extracted_shape (extract city_coords).
Proof.
  rewrite extract_fetched. apply list.Forall_forall.
  intros r (name & _ & Hf)%list_elem_of_omap. unfold fetched in Hf.
  destruct (fetch_from_api city_coords name) as [r'|] eqn:Ef; [|done].
  injection Hf as ->. by apply fetch_from_api_shape in Ef as [? _].
Qed.


Lemma extracted_staging_params r run_id :
  extracted_shape r ->
  exists city country temperature feels_like humidity pressure s
         wind_speed body,
    r !! "city" = Some city
    /\ r !! "feels_like" = Some feels_like
    /\ r !! "temperature" = Some temperature
    /\ r !! "wind_speed" = Some wind_speed
    /\ r !! "raw_data" = Some (VJson body)
    /\ staging_params r run_id
       = (raw_data ← json_dumps (VJson body);
          Ok {| s_city := city; s_country := country;
                s_temperature := temperature; s_feels_like := feels_like;
                s_humidity := humidity; s_pressure := pressure;
                s_weather_condition := VStr (py_lower s);
                s_wind_speed := wind_speed; s_raw_data := raw_data;
                s_load_id := run_id |}).
Proof.
  intros (Hk & (s & Hs) & (body & Hb)). unfold record_fields in Hk.
  repeat (apply list.Forall_cons in Hk as [[? ?] Hk]).
  eexists _, _, _, _, _, _, s, _, body.
  split_and!; [done..|].
  unfold staging_params, getitem.
  repeat match goal with
         | E : r !! _ = Some _ |- _ => rewrite E; clear E
         end.
  done.
Qed.

(** X24. An extracted record goes through the rest of the pipeline
    without a missing key.  Building its staging tuple can fail only in
    the serialisation of the payload; and once it is validated and
    staged, the staged row can be promoted exactly when its city is a
    string and its feels-like value a number, the other columns the
    transform works on being settled by the extractor and the
    validator. *)
Theorem extracted_record_is_stageable
    (city_coords : list (string * coords)) (r : pydict) (run_id : nat) :
  r ∈ extract city_coords ->
  (forall e,
     staging_params r run_id = Raise e ->
     exists body,
       r !! "raw_data" = Some (VJson body)
       /\ json_dumps (VJson body) = Raise e)
  /\ (forall errors row,
        validate_record r = Ok (true, errors) ->
        staging_params r run_id = Ok (stg_values row) ->
        promotable row
        <-> is_text (get r "city") /\ is_number (get r "feels_like")).
Proof.
  intros Hin.
  pose proof (extract_shape city_coords) as Hshape.
  rewrite list.Forall_forall in Hshape. specialize (Hshape _ Hin).
  destruct (extracted_staging_params r run_id Hshape)
    as (city & country & temperature & feels_like & humidity & pressure
        & s & wind_speed & body & Ec & Ef & Et & Ew & Eb & Ep).
  split.
  - intros e He. exists body. split; [done|]. rewrite Ep in He.
    destruct (json_dumps (VJson body)); [done|]. by injection He as ->.
  - intros errors row Hv Hrow.
    assert (errors = []) as -> by by apply validate_record_accepts_nil in Hv.
    apply validate_record_accepted in Hv
      as (_ & _ & (t & Et' & _) & _ & _ & (ws & Ew' & _)).
    rewrite Ep in Hrow.
    destruct (json_dumps (VJson body)) as [raw|]; [|done].
    injection Hrow as Hrow. unfold promotable, get. cbv zeta.
    rewrite <- Hrow, Ec, Ef. cbn [default stg_values s_city s_temperature
      s_feels_like s_weather_condition s_wind_speed].
    assert (temperature = VNum t) as -> by congruence.
    assert (wind_speed = VNum ws) as -> by congruence.
    cbn [is_number is_text]. rewrite !andb_true_r.
    by rewrite andb_True.
Qed.

End ExtractionProperties.

(** ** Batches in pieces *)

Section BatchComposition.
Context {RT : Runtime}.

Section Loop.
Context {R : Type} (validate : R -> result (bool * list string)).

(** The loop from any two lists is the loop from the empty lists with
    its result appended. *)
Lemma for_each_from step (records : list R) :
  sorts_record validate step -> passes_on validate step ->
  forall valid invalid,
    for_each step (valid, invalid) records
    = (acc ← for_each step ([], []) records;
       Ok (valid ++ acc.1, invalid ++ acc.2)).
Proof.
  intros Hs Hp. induction records as [|r records IH]; intros valid invalid.
  - simpl. by rewrite !app_nil_r.
  - cbn [for_each].
    destruct (validate r) as [[b errs]|e] eqn:Ev.
    + rewrite !(Hs _ _ _ _ _ Ev). cbn [mbind result_bind].
      destruct b.
      * rewrite (IH (valid ++ [r]) invalid), (IH ([] ++ [r]) []).
        destruct (for_each step ([], []) records) as [[v i]|]; [|done].
        cbn [mbind result_bind fst snd]. by rewrite <- !app_assoc.
      * rewrite (IH valid (invalid ++ [_])), (IH [] ([] ++ [_])).
        destruct (for_each step ([], []) records) as [[v i]|]; [|done].
        cbn [mbind result_bind fst snd]. by rewrite <- !app_assoc.
    + by rewrite !(Hp _ _ _ Ev).
Qed.

Lemma batch_app step (a b : list R) :
  sorts_record validate step -> passes_on validate step ->
  let batch records :=
    '(valid_records, invalid_records) ← for_each step ([], []) records;
    Ok {| total_records := length records;
          valid_count := length valid_records;
          invalid_count := length invalid_records;
          valid_records := valid_records;
          invalid_records := invalid_records |} in
  batch (a ++ b) = (sa ← batch a; sb ← batch b; Ok (summary_app sa sb)).
Proof.
  intros Hs Hp batch. unfold batch. rewrite for_each_app.
  destruct (for_each step ([], []) a) as [[va ia]|]; [|done].
  cbn [mbind result_bind]. rewrite (for_each_from step b Hs Hp va ia).
  destruct (for_each step ([], []) b) as [[vb ib]|]; [|done].
  cbn [mbind result_bind fst snd]. unfold summary_app. cbn.
  by rewrite !length_app.
Qed.

End Loop.

Lemma csv_step_passes_on :
  passes_on CSVDataValidator.validate_record
            CSVDataValidator.validate_batch_step.
Proof.
  intros acc r e He.
  destruct (csv_validate_record_returns r) as (b & errs & E).
  by rewrite E in He.
Qed.

(** X25. A batch can be validated in pieces.  Validating two batches one
    after the other and adding up the summaries, counts added and lists
    appended, gives the summary of the concatenated batch; when a piece
    raises, so does the whole, with the exception of the first piece that
    raises.  This holds for both validators. *)
Theorem validate_batch_of_a_concatenation :
  (forall a b : list pydict,
     WeatherDataValidator.validate_batch (a ++ b)
     = (sa ← WeatherDataValidator.validate_batch a;
        sb ← WeatherDataValidator.validate_batch b;
        Ok (summary_app sa sb)))
  /\ (forall a b : list CSVDataValidator.csv_record,
        CSVDataValidator.validate_batch (a ++ b)
        = (sa ← CSVDataValidator.validate_batch a;
           sb ← CSVDataValidator.validate_batch b;
           Ok (summary_app sa sb))).
Proof.
  split; intros a b.
  - exact (batch_app WeatherDataValidator.validate_record
             WeatherDataValidator.validate_batch_step a b
             weather_step_sorts weather_step_passes_on).
  - exact (batch_app CSVDataValidator.validate_record
             CSVDataValidator.validate_batch_step a b
             csv_step_sorts csv_step_passes_on).
Qed.

End BatchComposition.

(** ** What a promotion writes *)

Section PromotionContents.
Context {RT : Runtime} {EG : Engine}.

Import WeatherTransformer Main.

Lemma promoted_row_dict r :
  promoted (row_dict r) = erase <$> metric_of_staged r 0.
Proof.
  unfold promoted. pose proof (transformed_staged r) as Ht.
  destruct (metric_of_staged r 0) as [row|] eqn:Em.
  - destruct Ht as (p & -> & Hp). specialize (Hp 0%nat). rewrite Em in Hp.
    destruct (metric_of (p 0%nat)); by simplify_eq/=.
  - by destruct Ht as (e & -> & _).
Qed.

Lemma omap_promoted_row_dict (rows : list staging_row) :
  omap promoted (row_dict <$> rows)
  = erase <$> omap (fun r => metric_of_staged r 0) rows.
Proof.
  induction rows as [|r rows IH]; [done|].
  rewrite fmap_cons. cbn [omap list_omap].
  rewrite promoted_row_dict.
  destruct (metric_of_staged r 0); simpl; by rewrite IH.
Qed.

(** X26. What a promotion writes on an engine that executes every
    statement.  [transform_and_load] takes the run's staged rows,
    earliest first, makes a production row of each one the transform can
    work on, and upserts these rows in that order into the production
    table; both counts it reports are the number of these rows.  The rows
    are, up to their load stamp, the ones [metric_of_staged] describes. *)
Theorem transform_and_load_promotes_the_promotable_rows
    (run_id : nat) (w : world) :
  accepts_all ->
  exists stats w' staged rows,
    transform_and_load run_id w = (Ok stats, w')
    /\ staged ≡ₚ staged_for run_id (db w)
    /\ StronglySorted by_extracted_at staged
    /\ production_table w' = upserts rows (production_table w)
    /\ erase <$> rows
       = erase <$> omap (fun r => metric_of_staged r 0) staged
    /\ length rows
       = length (filter (fun r => promotable r) (staged_for run_id (db w)))
    /\ (staged_for run_id (db w) <> [] ->
        stats = {[ "records_transformed" := length rows;
                   "records_loaded" := length rows ]}).
Proof.
  intros Hacc.
  destruct (transform_and_load_accepting run_id w Hacc)
    as (stats & w' & rows & E & _ & Hm & Hp & Hstats).
  destruct (order_by_extracted_at_spec (staged_for run_id (db w)))
    as [Hperm Hsorted].
  assert (select_staging run_id (db w)
          = row_dict <$> order_by_extracted_at (staged_for run_id (db w)))
    as Hsel by done.
  exists stats, w', (order_by_extracted_at (staged_for run_id (db w))), rows.
  split_and!; try done.
  - by rewrite Hp, Hsel, omap_promoted_row_dict.
  - rewrite <- (length_fmap erase), Hp, Hsel, length_omap_promoted.
    by rewrite Hperm.
  - intros Hne. rewrite Hstats, bool_decide_false; [done|].
    rewrite Hsel. intros Hnil%fmap_nil_inv. rewrite Hnil in Hperm.
    by apply Permutation_nil_l in Hperm.
Qed.

End PromotionContents.

(** * The further properties on the fixtures *)

Lemma validate_record_reads_required_fields_only_witness :
  @WeatherDataValidator.validate_record Fixture.runtime
     (<["feels_like" := VNone]> Fixture.encarnacion)
  = @WeatherDataValidator.validate_record Fixture.runtime Fixture.encarnacion.
Proof.
  apply validate_record_reads_required_fields_only.
  apply list.Forall_forall, (bool_decide_eq_true_1 _).
  vm_compute; reflexivity.
Defined.

Lemma validate_record_raises_on_first_non_number_witness :
  missing_fields Sample.hot = []
  /\ @WeatherDataValidator.validate_record Fixture.runtime Sample.hot
     = Raise (TypeError "<=" (VStr "hot")).
Proof.
  assert (missing_fields Sample.hot = []) as Hm by (vm_compute; reflexivity).
  split; [exact Hm|].
  pose proof (validate_record_raises_on_first_non_number
                (RT := Fixture.runtime) Sample.hot Hm) as Hr.
  assert (first_non_number Sample.hot = Some ("<=", VStr "hot")) as E
    by (vm_compute; reflexivity).
  rewrite E in Hr. exact Hr.
Defined.

Lemma validate_batch_raises_with_a_record_witness :
  @WeatherDataValidator.validate_batch Fixture.runtime
     [Fixture.encarnacion; Sample.hot; Fixture.bad_city]
  = Raise (TypeError "<=" (VStr "hot")).
Proof.
  apply (validate_batch_raises_with_a_record (RT := Fixture.runtime)
           [Fixture.encarnacion] [Fixture.bad_city] Sample.hot).
  - constructor; [|constructor]. exists true, []. vm_compute; reflexivity.
  - vm_compute; reflexivity.
Defined.

Lemma csv_validate_record_stops_at_missing_fields_witness :
  csv_missing_fields
    (default ∅ (CSVDataValidator.csv_data Sample.mouse)) = ["category"]
  /\ @CSVDataValidator.validate_record Fixture.runtime Sample.mouse
     = Ok (false, ["Missing required field: category"]).
Proof.
  assert (csv_missing_fields
            (default ∅ (CSVDataValidator.csv_data Sample.mouse))
          = ["category"]) as Hm by (vm_compute; reflexivity).
  split; [exact Hm|].
  destruct (csv_validate_record_stops_at_missing_fields
              (RT := Fixture.runtime) Sample.mouse) as [Hs _].
  rewrite Hs by (by rewrite Hm). by rewrite Hm.
Defined.


Lemma load_to_production_counts_executed_upserts_witness :
  exists loaded_count w',
    @WeatherTransformer.load_to_production Fixture.accepting
       [Sample.city_only] Fixture.start = (Ok loaded_count, w')
    /\ (loaded_count <= 1)%nat.
Proof.
  destruct (load_to_production_counts_executed_upserts
              (EG := Fixture.accepting) [Sample.city_only] Fixture.start)
    as (n & w' & E & Hn & _).
  - constructor; [|constructor]. exists (VStr "ASUNCION").
    vm_compute; reflexivity.
  - exists n, w'. split; [exact E|exact Hn].
Defined.

Lemma load_to_production_stops_without_city_witness :
  exists w1,
    @WeatherTransformer.load_to_production Fixture.accepting
       [Sample.production (Fixture.num 25 1); Sample.anonymous;
        Sample.city_only] Fixture.start
    = (Raise (KeyError "city"), w1).
Proof.
  pose (p := @WeatherTransformer.load_to_production Fixture.accepting
               [Sample.production (Fixture.num 25 1)] Fixture.start).
  exists p.2.
  apply (load_to_production_stops_without_city (EG := Fixture.accepting)
           [Sample.production (Fixture.num 25 1)] [Sample.city_only]
           Sample.anonymous (Fixture.returned 0%nat p.1)).
  - apply (run_returned 0%nat p). vm_compute; reflexivity.
  - vm_compute; reflexivity.
Defined.

Lemma load_to_production_last_record_wins_witness :
  exists w',
    @WeatherTransformer.load_to_production Fixture.accepting
       [Sample.production (Fixture.num 25 1);
        Sample.production (Fixture.num 30 1)] Fixture.start
    = (Ok 2%nat, w')
    /\ row_of (VStr "ASUNCION", VStr "PY", VTime 2) (production_table w')
       = Some (Sample.production_row (Fixture.num 30 1)).
Proof.
  destruct (load_to_production_last_record_wins (EG := Fixture.accepting)
              [Sample.production (Fixture.num 25 1);
               Sample.production (Fixture.num 30 1)]
              [Sample.production_row (Fixture.num 25 1);
               Sample.production_row (Fixture.num 30 1)]
              Fixture.start) as (w' & E & Hrow & _).
  - intros stmt d. reflexivity.
  - constructor; [vm_compute; reflexivity|].
    constructor; [vm_compute; reflexivity|constructor].
  - exists w'. split; [exact E|]. rewrite Hrow. vm_compute; reflexivity.
Defined.

Lemma transform_and_load_counts_promotable_rows_witness :
  exists loaded w',
    @WeatherTransformer.transform_and_load Fixture.runtime Fixture.accepting
       0 Fixture.restaged
    = (Ok {[ "records_transformed" := 2%nat; "records_loaded" := loaded ]},
       w')
    /\ (loaded <= 2)%nat.
Proof.
  assert (length (filter (fun r => promotable r)
                         (staged_for 0 (db Fixture.restaged))) = 2%nat)
    as Hl by (vm_compute; reflexivity).
  destruct (transform_and_load_counts_promotable_rows
              (RT := Fixture.runtime) (EG := Fixture.accepting)
              0 Fixture.restaged) as (loaded & w' & E & [Hn _] & _).
  - reflexivity.
  - intros Hnil. apply (f_equal length) in Hnil. vm_compute in Hnil.
    discriminate Hnil.
  - exists loaded, w'. rewrite Hl in E, Hn. split; [exact E|exact Hn].
Defined.

Lemma create_pipeline_run_opens_a_fresh_run_witness :
  exists run_id w',
    @Main.create_pipeline_run Fixture.accepting "weather_api" Sample.running
    = (Ok run_id, w')
    /\ pipeline_runs (db Sample.running) !! run_id = None
    /\ pipeline_runs (db w') !! 0%nat
       = pipeline_runs (db Sample.running) !! 0%nat.
Proof.
  destruct (create_pipeline_run_opens_a_fresh_run (EG := Fixture.accepting)
              "weather_api" Sample.running) as [Hc _].
  destruct (Hc eq_refl) as (run_id & w' & E & Hfresh & _ & Hother & _).
  exists run_id, w'. split; [exact E|]. split; [exact Hfresh|].
  apply Hother. intros <-. vm_compute in Hfresh. discriminate Hfresh.
Defined.

Lemma update_pipeline_run_touches_one_run_witness :
  exists w',
    @Main.update_pipeline_run Fixture.accepting 0 "success" 3 2 None
       Sample.running = (Ok (), w')
    /\ pipeline_runs (db w') !! 0%nat
       = Some {| pipeline_name := "multi_source_ingestion";
                 source_type := "weather_api";
                 status := "success";
                 start_time := 0;
                 end_time := Some 1%nat;
                 records_extracted := Some 3%nat;
                 records_loaded := Some 2%nat;
                 error_message := None |}.
Proof.
  destruct (update_pipeline_run_touches_one_run (EG := Fixture.accepting)
              0 "success" 3 2 None Sample.running eq_refl)
    as (w' & E & Hrow & _).
  exists w'. split; [exact E|].
  rewrite (Hrow _ eq_refl). reflexivity.
Defined.

Lemma extraction_failure_fails_the_run_witness :
  exists w',
    @Main.run_weather_extraction Fixture.runtime Fixture.accepting
       (Raise (OtherError "503 Server Error")) Fixture.start
    = (Main.SysExit 1, w')
    /\ pipeline_runs (db w') !! 0%nat
       = Some {| pipeline_name := "multi_source_ingestion";
                 source_type := "weather_api";
                 status := "failed";
                 start_time := 0;
                 end_time := Some 2%nat;
                 records_extracted := Some 0%nat;
                 records_loaded := Some 0%nat;
                 error_message := Some "503 Server Error" |}
    /\ stg_weather_data (db w') = [].
Proof.
  pose (c := @Main.create_pipeline_run Fixture.accepting "weather_api"
               Fixture.start).
  destruct (extraction_failure_fails_the_run
              (RT := Fixture.runtime) (EG := Fixture.accepting)
              (OtherError "503 Server Error") 0 Fixture.start c.2)
    as (w' & E & Hrow & _ & Hs & _).
  - reflexivity.
  - apply (run_returned 0%nat c). vm_compute; reflexivity.
  - reflexivity.
  - exists w'. split; [exact E|]. split; [|exact Hs].
    rewrite Hrow. vm_compute; reflexivity.
Defined.



Lemma extracted_record_is_stageable_witness :
  Sample.asuncion
    ∈ @WeatherAPIExtractor.extract Fixture.runtime Sample.service
        Sample.cities
  /\ forall e,
       @staging_params Fixture.runtime Sample.asuncion 0 = Raise e ->
       exists body,
         Sample.asuncion !! "raw_data" = Some (VJson body)
         /\ @json_dumps Fixture.runtime (VJson body) = Raise e.
Proof.
  assert (Sample.asuncion
            ∈ @WeatherAPIExtractor.extract Fixture.runtime Sample.service
                Sample.cities) as Hin
    by (apply (bool_decide_eq_true_1 _); vm_compute; reflexivity).
  split; [exact Hin|].
  apply (extracted_record_is_stageable
           (RT := Fixture.runtime) (WS := Sample.service)
           Sample.cities Sample.asuncion 0 Hin).
Defined.

Lemma transform_to_production_hands_the_stats_on_witness :
  @Main.transform_to_production Fixture.runtime Fixture.accepting
     0 Fixture.restaged
  = @WeatherTransformer.transform_and_load Fixture.runtime Fixture.accepting
      0 Fixture.restaged.
Proof.
  apply (transform_to_production_hands_the_stats_on
           (RT := Fixture.runtime) (EG := Fixture.accepting)
           0 Fixture.restaged).
  - reflexivity.
  - intros Hnil. apply (f_equal length) in Hnil. vm_compute in Hnil.
    discriminate Hnil.
Defined.

Lemma cooperative_run_returns_iff_a_record_is_staged_witness :
  (@Main.run_weather_extraction Fixture.runtime Fixture.accepting
     (Ok Fixture.batch) Fixture.start).1 = Main.Returned
  /\ (@Main.run_weather_extraction Fixture.runtime Fixture.accepting
        (Ok [Fixture.bad_city]) Fixture.start).1 = Main.SysExit 1.
Proof.
  assert (@accepts_all Fixture.accepting) as Hacc
    by (intros stmt d; reflexivity).
  split.
  - destruct (cooperative_run_returns_iff_a_record_is_staged
                (RT := Fixture.runtime) (EG := Fixture.accepting)
                Fixture.batch Fixture.start Hacc eq_refl) as [[_ Hr] _].
    + repeat constructor; by vm_compute.
    + reflexivity.
    + apply Hr. intros Hnil. apply (f_equal length) in Hnil.
      vm_compute in Hnil. discriminate Hnil.
  - destruct (cooperative_run_returns_iff_a_record_is_staged
                (RT := Fixture.runtime) (EG := Fixture.accepting)
                [Fixture.bad_city] Fixture.start Hacc eq_refl)
      as [[Hr _] [Hret|Hexit]].
    + repeat constructor; by vm_compute.
    + reflexivity.
    + exfalso. apply (Hr Hret). vm_compute; reflexivity.
    + exact Hexit.
Defined.

Lemma transform_and_load_promotes_the_promotable_rows_witness :
  exists stats w' rows,
    @WeatherTransformer.transform_and_load Fixture.runtime Fixture.accepting
       0 Fixture.restaged = (Ok stats, w')
    /\ production_table w'
       = upserts rows (production_table Fixture.restaged)
    /\ length rows = 2%nat.
Proof.
  destruct (transform_and_load_promotes_the_promotable_rows
              (RT := Fixture.runtime) (EG := Fixture.accepting)
              0 Fixture.restaged)
    as (stats & w' & staged & rows & E & _ & _ & Hm & _ & Hl & _).
  - intros stmt d. reflexivity.
  - exists stats, w', rows. split; [exact E|]. split; [exact Hm|].
    rewrite Hl. vm_compute; reflexivity.
Defined.
